(** * VoiceRAG-Lab: booking tools, slot store and intent routing

  A shallow embedding of the appointment-booking core of the backend
  ([apifunctions.py], [appointment_routes.py], [booking_tools.py],
  [rag_core.py], [app.py], [ws_server.py]) and the properties of it that
  the specification states, then of the ingestion of documents
  ([rag_core.py], [ingestion_routes.py]) and of the socket handler
  ([ws_server.py]), with further properties the code itself shows.

  Conventions of the embedding.
  - Python [str] values are [string]s.  The model is about ASCII text:
    [lower], [strip], the character classes of the regular expressions
    ([\d], [\s], [\b]) act on the ASCII range and leave every byte
    above 127 alone.
  - A tool argument, which may be [None] or a string, is a [pyval].
  - An exception is an [exn]; code that may raise returns a [result].
  - [datetime.now().date()] is a parameter [today] of every function that
    reads the clock. *)

From Stdlib Require Import String Ascii List ZArith Lia Bool Arith.
From Stdlib Require Import DecimalString.
Import ListNotations.
Open Scope string_scope.

(** ** Python values, text and exceptions *)

Module Py.

Inductive pyval : Type :=
| PNone
| PStr (s : string).

(** Truth value of an object ([if x:], [x or y], [not x]). *)
Definition truthy (v : pyval) : bool :=
  match v with
  | PNone => false
  | PStr s => negb (s =? "")
  end.

(** [a or b] *)
Definition por (a b : pyval) : pyval := if truthy a then a else b.

Inductive exn_kind : Type :=
| TypeError | AttributeError | KeyError | ValueError | IndexError
| NameError | OverflowError | RequestException | ServiceError.

Record exn : Type := Exn { kind : exn_kind; str : string }.

Inductive result (A : Type) : Type :=
| Ok (a : A)
| Raise (e : exn).
Arguments Ok {A} a.
Arguments Raise {A} e.

Definition bind {A B} (r : result A) (k : A -> result B) : result B :=
  match r with
  | Ok a => k a
  | Raise e => Raise e
  end.

(** *** Characters *)

Definition code (c : ascii) : nat := nat_of_ascii c.

Definition between (lo hi : nat) (c : ascii) : bool :=
  (lo <=? code c)%nat && (code c <=? hi)%nat.

Definition is_upper (c : ascii) : bool := between 65 90 c.
Definition is_lower (c : ascii) : bool := between 97 122 c.
Definition is_digit (c : ascii) : bool := between 48 57 c.

(** [\w] *)
Definition is_word (c : ascii) : bool :=
  is_upper c || is_lower c || is_digit c || (code c =? 95)%nat.

(** [str.isspace] on one character, also [\s]: TAB..CR, FS..US, space. *)
Definition is_space (c : ascii) : bool :=
  between 9 13 c || between 28 32 c.

Definition lower_char (c : ascii) : ascii :=
  if is_upper c then ascii_of_nat (code c + 32) else c.

Definition upper_char (c : ascii) : ascii :=
  if is_lower c then ascii_of_nat (code c - 32) else c.

(** *** Strings *)

Fixpoint lower (s : string) : string :=
  match s with
  | "" => ""
  | String c s' => String (lower_char c) (lower s')
  end.

Fixpoint upper (s : string) : string :=
  match s with
  | "" => ""
  | String c s' => String (upper_char c) (upper s')
  end.

Fixpoint lstrip (s : string) : string :=
  match s with
  | "" => ""
  | String c s' => if is_space c then lstrip s' else s
  end.

Fixpoint rstrip (s : string) : string :=
  match s with
  | "" => ""
  | String c s' =>
      let r := rstrip s' in
      if is_space c && (r =? "") then "" else String c r
  end.

Definition strip (s : string) : string := rstrip (lstrip s).

(** [s.replace(' ', '')] *)
Fixpoint remove_spaces (s : string) : string :=
  match s with
  | "" => ""
  | String c s' =>
      if (c =? " ")%char then remove_spaces s' else String c (remove_spaces s')
  end.

(** [s.startswith(k)] *)
Fixpoint startswith (k s : string) : bool :=
  match k with
  | "" => true
  | String a k' =>
      match s with
      | "" => false
      | String b s' => (a =? b)%char && startswith k' s'
      end
  end.

(** [k in s] for strings *)
Fixpoint contains (k s : string) : bool :=
  startswith k s ||
  match s with
  | "" => false
  | String _ s' => contains k s'
  end.

(** [all(p(c) for c in s)] *)
Fixpoint all_chars (p : ascii -> bool) (s : string) : bool :=
  match s with
  | "" => true
  | String c s' => p c && all_chars p s'
  end.

(** The last character of [s], or [prev] when [s] is empty. *)
Fixpoint last_of (prev : option ascii) (s : string) : option ascii :=
  match s with
  | "" => prev
  | String c s' => last_of (Some c) s'
  end.

(** [x in xs] for a list of strings *)
Definition mem (x : string) (xs : list string) : bool :=
  existsb (String.eqb x) xs.

(** [sep.join(xs)] *)
Fixpoint join (sep : string) (xs : list string) : string :=
  match xs with
  | [] => ""
  | [x] => x
  | x :: xs' => x ++ sep ++ join sep xs'
  end.

(** [str(n)] for a natural number *)
Definition str_of_nat (n : nat) : string :=
  NilZero.string_of_uint (Nat.to_uint n).

(** A dict with string keys, as an association list ([d.get(k)]). *)
Fixpoint get {A} (d : list (string * A)) (k : string) : option A :=
  match d with
  | [] => None
  | (k', v) :: d' => if k' =? k then Some v else get d' k
  end.

(** [d.get(k)] on a dict of [pyval]s: a missing key reads as [None]. *)
Definition get_val (d : list (string * pyval)) (k : string) : pyval :=
  match get d k with
  | Some v => v
  | None => PNone
  end.

(** [xs[-n:]] *)
Definition last_n {A} (n : nat) (xs : list A) : list A :=
  skipn (length xs - n) xs.

End Py.

Import Py.

(** ** Calendar dates ([datetime.date]) *)

Module Calendar.

Local Open Scope Z_scope.

Record date : Type := mkdate { year : Z; month : Z; day : Z }.

Definition is_leap (y : Z) : bool :=
  (y mod 4 =? 0) && (negb (y mod 100 =? 0) || (y mod 400 =? 0)).

Definition days_in_month (y m : Z) : Z :=
  if (m =? 2) then (if is_leap y then 29 else 28)
  else if (m =? 4) || (m =? 6) || (m =? 9) || (m =? 11) then 30
  else 31.

(** The dates a [datetime.date] can hold (MINYEAR = 1, MAXYEAR = 9999). *)
Definition valid_date (d : date) : bool :=
  (1 <=? year d) && (year d <=? 9999) &&
  (1 <=? month d) && (month d <=? 12) &&
  (1 <=? day d) && (day d <=? days_in_month (year d) (month d)).

(** A date the clock returns: one that [strftime("%Y-%m-%d")] and
    [isoformat()] print alike (four-digit year) and that has a day after
    tomorrow (years 1000 to 9998). *)
Definition clock_date (d : date) : bool :=
  valid_date d && (1000 <=? year d) && (year d <=? 9998).

Definition next_day (d : date) : date :=
  if day d <? days_in_month (year d) (month d)
  then mkdate (year d) (month d) (day d + 1)
  else if month d <? 12
       then mkdate (year d) (month d + 1) 1
       else mkdate (year d + 1) 1 1.

(** [d + timedelta(days=n)] *)
Definition add_days (d : date) (n : nat) : result date :=
  let d' := Nat.iter n next_day d in
  if year d' <=? 9999 then Ok d'
  else Raise (Exn OverflowError "date value out of range").

(** [a < b] on dates *)
Definition date_ltb (a b : date) : bool :=
  (year a <? year b) ||
  ((year a =? year b) &&
   ((month a <? month b) ||
    ((month a =? month b) && (day a <? day b)))).

Definition digit (z : Z) : ascii :=
  ascii_of_nat (48 + Z.to_nat (z mod 10)).

Definition pad2 (z : Z) : string :=
  String (digit (z / 10)) (String (digit z) "").

Definition pad4 (z : Z) : string :=
  String (digit (z / 1000)) (String (digit (z / 100)) (pad2 z)).

(** [d.isoformat()], [d.strftime("%Y-%m-%d")] *)
Definition isoformat (d : date) : string :=
  pad4 (year d) ++ "-" ++ pad2 (month d) ++ "-" ++ pad2 (day d).

Definition digit_val (c : ascii) : Z := Z.of_nat (code c - 48).

(** The shape [\d{4}-\d{2}-\d{2}] at the head of [s]; gives the three
    numbers and what follows them. *)
Definition scan_ymd (s : string) : option (Z * Z * Z * string) :=
  match s with
  | String y1 (String y2 (String y3 (String y4 (String h1
    (String m1 (String m2 (String h2 (String d1 (String d2 rest))))))))) =>
      if is_digit y1 && is_digit y2 && is_digit y3 && is_digit y4 &&
         (h1 =? "-")%char && is_digit m1 && is_digit m2 &&
         (h2 =? "-")%char && is_digit d1 && is_digit d2
      then Some (1000 * digit_val y1 + 100 * digit_val y2 +
                 10 * digit_val y3 + digit_val y4,
                 10 * digit_val m1 + digit_val m2,
                 10 * digit_val d1 + digit_val d2, rest)
      else None
  | _ => None
  end.

Definition newline : string := String (ascii_of_nat 10) "".

(** [re.match(r'^\d{4}-\d{2}-\d{2}$', s)]: [$] also matches just before
    a newline that ends the string. *)
Definition match_date_pattern (s : string) : bool :=
  match scan_ymd s with
  | Some (_, _, _, rest) => (rest =? "")%string || (rest =? newline)%string
  | None => false
  end.

(** [datetime.strptime(s, '%Y-%m-%d').date()] *)
Definition strptime (s : string) : result date :=
  match scan_ymd s with
  | Some (y, m, d, rest) =>
      if negb (rest =? "")%string
      then Raise (Exn ValueError ("unconverted data remains: " ++ rest))
      else if valid_date (mkdate y m d) then Ok (mkdate y m d)
      else Raise (Exn ValueError
             ("time data '" ++ s ++ "' does not match format '%Y-%m-%d'"))
  | None =>
      Raise (Exn ValueError
             ("time data '" ++ s ++ "' does not match format '%Y-%m-%d'"))
  end.

End Calendar.

Import Calendar.

(** ** The slot store ([apifunctions.py]) *)

Module ApiFunctions.

Definition TIME_COLUMNS : list string :=
  ["9:00 AM"; "10:00 AM"; "11:00 AM"; "12:00 PM";
   "1:00 PM"; "2:00 PM"; "3:00 PM"; "4:00 PM"].

(** The worksheet as [sheet.get_all_values()] gives it: the header row, then
    one row per date.  Cells are text (dates, user ids, the blackout
    marker), not numbers; a blank cell is the empty string. *)
Definition sheet : Type := list (list string).



(** A dict of strings (a JSON object). *)
Definition obj : Type := list (string * string).

(** [sheet.get_all_records()]: one dict per row under the header. *)
Definition get_all_records (sh : sheet) : list obj :=
  match sh with
  | [] => []
  | headers :: rows => map (fun row => combine headers row) rows
  end.

(** Whether [pd.DataFrame(data)] has the column [k]. *)
Definition has_column (data : list obj) (k : string) : bool :=
  existsb (fun r => match get r k with Some _ => true | None => false end) data.

(** [df[df[k] == v]] *)
Definition rows_where (data : list obj) (k v : string) : list obj :=
  filter (fun r => match get r k with Some x => x =? v | None => false end) data.

(** [slot_value.strip().lower() == 'suday'] *)
Definition is_blackout (slot_value : string) : bool :=
  lower (strip slot_value) =? "suday".

Definition available (date time : string) : obj :=
  [("date", date); ("time", time); ("status", "Available")].

(** The inner loop of [get_available_slots] over the time columns of one
    row: an empty (or missing) cell is available, a blackout cell is skipped,
    any other cell adds nothing. *)
Definition row_slots (date : string) (row : obj) : list obj :=
  flat_map
    (fun time =>
       match get row time with
       | None => [available date time]
       | Some slot_value =>
           if slot_value =? "" then [available date time]
           else if is_blackout slot_value then []
           else []
       end)
    TIME_COLUMNS.

Definition error_obj (message : string) : obj :=
  [("status", "Error"); ("message", message)].

Definition get_available_slots (sh : sheet) (date : string) : list obj :=
  let data := get_all_records sh in
  if negb (has_column data "Date")
  then (* KeyError: 'Date', caught by the handler *)
       [error_obj "'Date'"]
  else
    let schedule_rows := rows_where data "Date" date in
    match schedule_rows with
    | [] => [[("status", "No schedule found for this date.")]]
    | _ =>
        let available_slots := flat_map (row_slots date) schedule_rows in
        match available_slots with
        | [] => [[("status", "No available slots found on " ++ date ++ ".")]]
        | _ => available_slots
        end
    end.

(** [xs.index(x)] *)
Fixpoint index_of (x : string) (xs : list string) : option nat :=
  match xs with
  | [] => None
  | y :: ys =>
      if y =? x then Some 0
      else match index_of x ys with
           | Some i => Some (S i)
           | None => None
           end
  end.

(** Index of the first row whose cell in column [col] is [v]. *)
Fixpoint find_row (col : nat) (v : string) (rows : list (list string))
  : option nat :=
  match rows with
  | [] => None
  | r :: rs =>
      if nth col r "" =? v then Some 0
      else match find_row col v rs with
           | Some i => Some (S i)
           | None => None
           end
  end.

(** [sheet.cell(r, c).value], rows and columns counted from 1. *)
Definition cell (sh : sheet) (r c : nat) : string :=
  nth (c - 1) (nth (r - 1) sh []) "".

Fixpoint set_nth {A} (pad : A) (n : nat) (v : A) (l : list A) : list A :=
  match n, l with
  | O, [] => [v]
  | O, _ :: t => v :: t
  | S n', [] => pad :: set_nth pad n' v []
  | S n', h :: t => h :: set_nth pad n' v t
  end.

(** [sheet.update_cell(r, c, v)] *)
Definition update_cell (sh : sheet) (r c : nat) (v : string) : sheet :=
  set_nth [] (r - 1) (set_nth "" (c - 1) v (nth (r - 1) sh [])) sh.

(** [book_slot] returns its dict and leaves the worksheet in a new state. *)
Definition book_slot (sh : sheet) (date time user_id : string) : obj * sheet :=
  match sh with
  | [] => (error_obj "list index out of range", sh)
  | headers :: rows =>
      match index_of "Date" headers with
      | None => (error_obj "'Date'", sh)
      | Some date_col =>
          match find_row date_col date rows with
          | None => (error_obj ("Date " ++ date ++ " not found."), sh)
          | Some df_index =>
              let sheet_row_index := df_index + 2 in
              match index_of time headers with
              | None =>
                  (error_obj ("Time slot " ++ time ++
                              " not valid or header not found."), sh)
              | Some i =>
                  let col_index := i + 1 in
                  let current_value := cell sh sheet_row_index col_index in
                  if negb (current_value =? "") &&
                     negb (mem (lower (strip current_value)) ["suday"; ""])
                  then (error_obj ("Slot already booked by " ++
                                   current_value ++ "."), sh)
                  else
                    ([("status", "Success");
                      ("message", "Slot booked successfully on " ++ date ++
                                  " at " ++ time ++ " for " ++ user_id ++ ".");
                      ("cell_updated", "Row " ++ str_of_nat sheet_row_index ++
                                       ", Column " ++ str_of_nat col_index)],
                     update_cell sh sheet_row_index col_index user_id)
              end
          end
      end
  end.

End ApiFunctions.

(** ** The HTTP face of the store ([appointment_routes.py]) *)

Module AppointmentRoutes.

Import ApiFunctions.

Inductive body : Type :=
| BList (l : list obj)
| BObj (o : obj).

Record response : Type := Response { status_code : nat; json : body }.

(** GET /api/appointments/slots?date=... *)
Definition handle_get (sh : sheet) (date : pyval) : response :=
  match date with
  | PStr d =>
      if d =? "" then Response 400 (BObj [("error", "Missing 'date' query parameter.")])
      else Response 200 (BList (get_available_slots sh d))
  | PNone => Response 400 (BObj [("error", "Missing 'date' query parameter.")])
  end.

Definition missing_fields : obj :=
  [("error", "Missing required fields in body. Need 'date', 'time', and 'user_id'.")].

(** [result.get(k, '')] *)
Definition field (o : obj) (k : string) : string :=
  match get o k with Some v => v | None => "" end.

(** POST /api/appointments/slots with body [{date, time, user_id}] *)
Definition handle_post (sh : sheet) (date time user_id : pyval)
  : response * sheet :=
  match date, time, user_id with
  | PStr d, PStr t, PStr u =>
      if (d =? "") || (t =? "") || (u =? "")
      then (Response 400 (BObj missing_fields), sh)
      else
        let (result, sh') := book_slot sh d t u in
        if field result "status" =? "Error"
        then
          let status_code :=
            if contains "already booked" (lower (field result "message"))
            then 409 else 500 in
          (Response status_code (BObj result), sh')
        else (Response 201 (BObj result), sh')
  | _, _, _ => (Response 400 (BObj missing_fields), sh)
  end.

End AppointmentRoutes.

(** ** The tool executor ([booking_tools.py]) *)

Module BookingTools.

Import ApiFunctions AppointmentRoutes.

(** *** The network between the executor and the store

    Every request the executor issues is recorded in [log]; a base address
    answers when it is listed in [served], and then it is the appointment
    routes over the one worksheet [store] that answer. *)

Inductive request : Type :=
| GET (base : string) (date : pyval)
| POST (base : string) (date time user_id : pyval).

Record world : Type :=
  World { store : sheet; served : list string; log : list request }.

Definition quoted (s : string) : string :=
  String (ascii_of_nat 34) s ++ String (ascii_of_nat 34) "".

Definition obj_text (o : obj) : string :=
  "{" ++ join ", " (map (fun kv => quoted (fst kv) ++ ": " ++ quoted (snd kv)) o)
      ++ "}".

(** [response.text]: the body as JSON text.  The code only tests it for
    emptiness and quotes it in error messages. *)
Definition text (r : response) : string :=
  match json r with
  | BObj o => obj_text o
  | BList l => "[" ++ join ", " (map obj_text l) ++ "]"
  end.

Definition connection_error (base : string) : exn :=
  Exn RequestException ("Connection refused: " ++ base).

(** [requests.get(f"{base}/api/appointments/slots", params={"date": date})] *)
Definition http_get (w : world) (base : string) (date : pyval)
  : result response * world :=
  let w' := World (store w) (served w) (log w ++ [GET base date])%list in
  if mem base (served w)
  then (Ok (handle_get (store w) date), w')
  else (Raise (connection_error base), w').

(** [requests.post(f"{base}/api/appointments/slots", json=payload)] *)
Definition http_post (w : world) (base : string) (date time user_id : pyval)
  : result response * world :=
  let lg := (log w ++ [POST base date time user_id])%list in
  if mem base (served w)
  then let (r, sh') := handle_post (store w) date time user_id in
       (Ok r, World sh' (served w) lg)
  else (Raise (connection_error base), World (store w) (served w) lg).

(** *** Tool results *)

Inductive extra : Type :=
| NoExtra
| AvailableSlots (available_slots : list string)
| BookingDetails (booking_details : obj).

Record tool_result : Type :=
  ToolResult { status : string; message : string; details : extra }.

(** [str(v)] *)
Definition pystr (v : pyval) : string :=
  match v with
  | PNone => "None"
  | PStr s => s
  end.

(** [v or default] as text *)
Definition or_text (v : pyval) (default : string) : string :=
  if truthy v then pystr v else default.

Definition opt_val (o : option string) : pyval :=
  match o with
  | Some s => PStr s
  | None => PNone
  end.

Record executor : Type := Executor { api_base_urls : list string }.

Definition default_executor : executor :=
  Executor ["http://127.0.0.1:5200"; "http://127.0.0.1:5200";
            "http://localhost:5200"].

(** Position of the first [None] in a list of slot times. *)
Fixpoint first_none (xs : list (option string)) : option nat :=
  match xs with
  | [] => None
  | None :: _ => Some 0
  | Some _ :: xs' => option_map S (first_none xs')
  end.

Fixpoint somes (xs : list (option string)) : list string :=
  match xs with
  | [] => []
  | Some x :: xs' => x :: somes xs'
  | None :: xs' => somes xs'
  end.

(** What [get_available_slots] makes of a 200 answer. *)
Definition slots_result (date : pyval) (slots_data : body) : tool_result :=
  match slots_data with
  | BList l =>
      let available_slots :=
        map (fun slot => get slot "time")
            (filter (fun slot => match get slot "status" with
                                 | Some s => s =? "Available"
                                 | None => false
                                 end) l) in
      match available_slots with
      | [] => ToolResult "no_slots"
                ("No available slots found for " ++ pystr date)
                (AvailableSlots [])
      | _ =>
          match first_none available_slots with
          | Some i =>
              ToolResult "error"
                ("Unexpected error: sequence item " ++ str_of_nat i ++
                 ": expected str instance, NoneType found")
                (AvailableSlots [])
          | None =>
              ToolResult "success"
                ("Available slots on " ++ pystr date ++ ": " ++
                 join ", " (somes available_slots))
                (AvailableSlots (somes available_slots))
          end
      end
  | BObj [] =>
      ToolResult "no_slots" ("No available slots found for " ++ pystr date)
        (AvailableSlots [])
  | BObj _ =>
      ToolResult "error"
        "Unexpected error: 'str' object has no attribute 'get'"
        (AvailableSlots [])
  end.

(** The loop of [get_available_slots] over the candidate base addresses. *)
Fixpoint get_slots_from (w : world) (date : pyval) (bases : list string)
  (last_err : pyval) : tool_result * world :=
  match bases with
  | [] =>
      (ToolResult "error"
         ("Failed to get slots: " ++ or_text last_err "Unknown error")
         (AvailableSlots []), w)
  | base :: rest =>
      match http_get w base date with
      | (Ok response, w') =>
          if (status_code response =? 200)%nat
          then (slots_result date (json response), w')
          else get_slots_from w' date rest (PStr (text response))
      | (Raise e, w') => get_slots_from w' date rest (PStr (str e))
      end
  end.

Definition get_available_slots (ex : executor) (w : world) (date : pyval)
  : tool_result * world :=
  get_slots_from w date (api_base_urls ex) PNone.

(** What [book_appointment_slot] makes of an answer: a result to return, or
    the error text to carry to the next base address. *)
Definition booking_result (date time : pyval) (response : response)
  : tool_result + pyval :=
  match json response with
  | BObj booking_data =>
      if (status_code response =? 200)%nat || (status_code response =? 201)%nat
         || mem (lower (field booking_data "status")) ["success"; "ok"; "booked"]
      then inl (ToolResult "success"
                  (or_text (opt_val (get booking_data "message"))
                     ("✅ Appointment confirmed for " ++ pystr time ++
                      " on " ++ pystr date))
                  (BookingDetails booking_data))
      else if (status_code response =? 409)%nat
      then inl (ToolResult "already_booked"
                  ("❌ Sorry, the " ++ pystr time ++ " slot on " ++
                   pystr date ++ " is already booked")
                  NoExtra)
      else inr (por (opt_val (get booking_data "error")) (PStr (text response)))
  | BList _ =>
      inl (ToolResult "error"
             "❌ Unexpected error: 'list' object has no attribute 'get'"
             NoExtra)
  end.

Fixpoint book_from (w : world) (date time user_id : pyval)
  (bases : list string) (last_err : pyval) : tool_result * world :=
  match bases with
  | [] =>
      (ToolResult "error"
         ("❌ Booking failed: " ++ or_text last_err "Unknown error")
         NoExtra, w)
  | base :: rest =>
      match http_post w base date time user_id with
      | (Ok response, w') =>
          match booking_result date time response with
          | inl r => (r, w')
          | inr err => book_from w' date time user_id rest err
          end
      | (Raise e, w') => book_from w' date time user_id rest (PStr (str e))
      end
  end.

Definition book_appointment_slot (ex : executor) (w : world)
  (date time user_id : pyval) : tool_result * world :=
  book_from w date time user_id (api_base_urls ex) PNone.

(** *** Validation *)

Record validation : Type := Validation { valid : bool; errors : list string }.

Definition valid_times : list string :=
  ["9:00 AM"; "10:00 AM"; "11:00 AM"; "12:00 PM";
   "1:00 PM"; "2:00 PM"; "3:00 PM"; "4:00 PM"].

Definition date_errors (today : date) (date : string) : list string :=
  if negb (match_date_pattern date)
  then ["Date must be in YYYY-MM-DD format"]
  else match strptime date with
       | Ok booking_date =>
           if date_ltb booking_date today
           then ["Cannot book appointments in the past"]
           else []
       | Raise _ => ["Invalid date provided"]
       end.

Definition time_errors (time : pyval) : list string :=
  if truthy time
  then if mem (pystr time) valid_times then []
       else ["Invalid time slot. Available: " ++ join ", " valid_times]
  else [].

Definition not_a_string : exn :=
  Exn TypeError "expected string or bytes-like object, got 'NoneType'".

(** [re.match] on a [date] that is not a string raises [TypeError]. *)
Definition validate_booking_params (today : date) (date time : pyval)
  : result validation :=
  match date with
  | PStr d =>
      let errors := (date_errors today d ++ time_errors time)%list in
      Ok (Validation (match errors with [] => true | _ => false end) errors)
  | PNone => Raise not_a_string
  end.

(** *** safe_execute *)

Definition kwargs : Type := list (string * pyval).

Definition validation_failed (v : validation) : tool_result :=
  ToolResult "validation_error"
    ("❌ Validation failed: " ++ join "; " (errors v)) NoExtra.

Definition execution_error (e : exn) : tool_result :=
  ToolResult "execution_error"
    ("❌ Function execution failed: " ++ str e) NoExtra.

(** The first keyword of a call that the method has no parameter for. *)
Fixpoint unexpected (params : list string) (kw : kwargs) : option string :=
  match kw with
  | [] => None
  | (k, _) :: kw' => if mem k params then unexpected params kw' else Some k
  end.

(** The first parameter of the method that the call gives no keyword for. *)
Fixpoint missing (params : list string) (kw : kwargs) : option string :=
  match params with
  | [] => None
  | p :: ps => match get kw p with
               | Some _ => missing ps kw
               | None => Some p
               end
  end.

(** Binding the keyword arguments to the parameters of a method. *)
Definition bind_kwargs (method : string) (params : list string) (kw : kwargs)
  : result unit :=
  match unexpected params kw with
  | Some k =>
      Raise (Exn TypeError
               ("BookingToolExecutor." ++ method ++
                "() got an unexpected keyword argument '" ++ k ++ "'"))
  | None =>
      match missing params kw with
      | Some p =>
          Raise (Exn TypeError
                   ("BookingToolExecutor." ++ method ++
                    "() missing 1 required positional argument: '" ++ p ++ "'"))
      | None => Ok tt
      end
  end.

(** The body of the [try] for [function_name == "get_available_slots"]. *)
Definition try_get_available_slots (today : date) (ex : executor) (w : world)
  (kw : kwargs) : result tool_result * world :=
  match validate_booking_params today (get_val kw "date") PNone with
  | Raise e => (Raise e, w)
  | Ok validation =>
      if negb (valid validation) then (Ok (validation_failed validation), w)
      else
        match bind_kwargs "get_available_slots" ["date"] kw with
        | Raise e => (Raise e, w)
        | Ok _ =>
            let (r, w') := get_available_slots ex w (get_val kw "date") in
            (Ok r, w')
        end
  end.

(** The body of the [try] for [function_name == "book_appointment_slot"]. *)
Definition try_book_appointment_slot (today : date) (ex : executor) (w : world)
  (kw : kwargs) : result tool_result * world :=
  match validate_booking_params today (get_val kw "date") (get_val kw "time") with
  | Raise e => (Raise e, w)
  | Ok validation =>
      if negb (valid validation) then (Ok (validation_failed validation), w)
      else if negb (truthy (get_val kw "user_id")) ||
              (String.length (pystr (get_val kw "user_id")) <? 3)%nat
      then (Ok (ToolResult "validation_error"
                  "❌ User ID must be at least 3 characters long" NoExtra), w)
      else
        match bind_kwargs "book_appointment_slot"
                ["date"; "time"; "user_id"] kw with
        | Raise e => (Raise e, w)
        | Ok _ =>
            let (r, w') :=
              book_appointment_slot ex w (get_val kw "date")
                (get_val kw "time") (get_val kw "user_id") in
            (Ok r, w')
        end
  end.

(** [except Exception as e] of [safe_execute] *)
Definition guarded (r : result tool_result * world) : tool_result * world :=
  match r with
  | (Ok t, w) => (t, w)
  | (Raise e, w) => (execution_error e, w)
  end.

(** Names written [__x__]: the special attributes an object inherits. *)
Definition is_dunder (name : string) : bool :=
  startswith "__" name && (4 <? String.length name)%nat &&
  (substring (String.length name - 2) 2 name =? "__").

Inductive tool : Type := GetAvailableSlots | BookAppointmentSlot.

(** [safe_execute] at the name of one of the two tools: validation, the
    call, and the handler that turns any exception into a result. *)
Definition run_tool (today : date) (ex : executor) (w : world) (t : tool)
  (kw : kwargs) : tool_result * world :=
  guarded (match t with
           | GetAvailableSlots => try_get_available_slots today ex w kw
           | BookAppointmentSlot => try_book_appointment_slot today ex w kw
           end).

(** What the call of [getattr(self, function_name)] raises under a name that
    is neither a tool nor a special attribute: calling [safe_execute]
    itself lacks its [function_name], the list [api_base_urls] is not
    callable, and any other name is no attribute of the executor. *)
Definition call_error (function_name : string) : exn :=
  if function_name =? "safe_execute" then
    Exn TypeError
      ("BookingToolExecutor.safe_execute() missing 1 required " ++
       "positional argument: 'function_name'")
  else if function_name =? "api_base_urls" then
    Exn TypeError "'list' object is not callable"
  else
    Exn AttributeError
      ("'BookingToolExecutor' object has no attribute '" ++
       function_name ++ "'").

(** [safe_execute].  Under a name that is not a tool no validation runs and
    the call of [getattr(self, function_name)] decides.  A special
    attribute ([__init__], [__class__], ...) does whatever it does, which
    is not a tool result and which this model does not follow: the outcome
    is then [None]. *)
Definition safe_execute (today : date) (ex : executor) (w : world)
  (function_name : string) (kw : kwargs) : option tool_result * world :=
  if function_name =? "get_available_slots" then
    let (r, w') := run_tool today ex w GetAvailableSlots kw in (Some r, w')
  else if function_name =? "book_appointment_slot" then
    let (r, w') := run_tool today ex w BookAppointmentSlot kw in (Some r, w')
  else if is_dunder function_name then (None, w)
  else (Some (execution_error (call_error function_name)), w).

End BookingTools.

(** ** Conversation turns *)

Module Conversation.

(** One entry of the chat history, [{"role": ..., "text": ...}]; a key that
    is missing reads as the empty string. *)
Record turn : Type := Turn { role : string; text : string }.

End Conversation.

(** ** The orchestrator ([rag_core.py]) *)

Module RagCore.

Import BookingTools.

(** [normalize_date], local to [execute_tool_call].  An overflow of
    [today + 1 day] is swallowed by its [except] and the value returned
    as it came. *)
Definition normalize_date (today : date) (value : pyval) : pyval :=
  match value with
  | PStr s =>
      let v := lower (strip s) in
      if v =? "today" then PStr (isoformat today)
      else if v =? "tomorrow" then
        match add_days today 1 with
        | Ok d => PStr (isoformat d)
        | Raise _ => value
        end
      else value
  | PNone => value
  end.

Definition mapping : list (string * string) :=
  [("9:00am", "9:00 AM"); ("10:00am", "10:00 AM"); ("11:00am", "11:00 AM");
   ("12:00pm", "12:00 PM"); ("1:00pm", "1:00 PM"); ("2:00pm", "2:00 PM");
   ("3:00pm", "3:00 PM"); ("4:00pm", "4:00 PM");
   ("9am", "9:00 AM"); ("10am", "10:00 AM"); ("11am", "11:00 AM");
   ("12pm", "12:00 PM"); ("1pm", "1:00 PM"); ("2pm", "2:00 PM");
   ("3pm", "3:00 PM"); ("4pm", "4:00 PM");
   ("09:00", "9:00 AM"); ("10:00", "10:00 AM"); ("11:00", "11:00 AM");
   ("12:00", "12:00 PM"); ("13:00", "1:00 PM"); ("14:00", "2:00 PM");
   ("15:00", "3:00 PM"); ("16:00", "4:00 PM")].

(** [:00(pm|am)$] at the head of [rest]; gives the suffix. *)
Definition time_tail (rest : string) : option string :=
  match rest with
  | String ":" (String "0" (String "0" (String a (String "m" r)))) =>
      if ((a =? "p")%char || (a =? "a")%char) &&
         ((r =? "") || (r =? newline))
      then Some (String a "m")
      else None
  | _ => None
  end.

(** The ways [(0?[1-9]|1[0-6])] can match at the head of [v], in the order
    the matcher tries them: the hour text and what follows it. *)
Definition hour_candidates (v : string) : list (string * string) :=
  ((match v with
    | String "0" (String c r) =>
        if between 49 57 c then [(String "0" (String c ""), r)] else []
    | _ => []
    end) ++
   (match v with
    | String c r => if between 49 57 c then [(String c "", r)] else []
    | _ => []
    end) ++
   (match v with
    | String "1" (String c r) =>
        if between 48 54 c then [(String "1" (String c ""), r)] else []
    | _ => []
    end))%list.

(** [re.match(r'^(0?[1-9]|1[0-6]):00(pm|am)$', v)]: groups 1 and 2. *)
Fixpoint first_time_match (cands : list (string * string))
  : option (string * string) :=
  match cands with
  | [] => None
  | (hh, rest) :: cs =>
      match time_tail rest with
      | Some suffix => Some (hh, suffix)
      | None => first_time_match cs
      end
  end.

Definition time_pattern (v : string) : option (string * string) :=
  first_time_match (hour_candidates v).

(** [normalize_time], local to [execute_tool_call]. *)
Definition normalize_time (value : pyval) : pyval :=
  match value with
  | PNone => value
  | PStr s =>
      let v := remove_spaces (lower (strip s)) in
      match get mapping v with
      | Some label => PStr label
      | None =>
          match time_pattern v with
          | Some (hh, sfx) =>
              let suffix := upper sfx in
              if (suffix =? "AM") && mem hh ["09"; "9"] then PStr "9:00 AM"
              else if (suffix =? "AM") && mem hh ["10"] then PStr "10:00 AM"
              else if (suffix =? "AM") && mem hh ["11"] then PStr "11:00 AM"
              else if (suffix =? "PM") && mem hh ["12"] then PStr "12:00 PM"
              else if (suffix =? "PM") && mem hh ["13"; "1"] then PStr "1:00 PM"
              else if (suffix =? "PM") && mem hh ["14"; "2"] then PStr "2:00 PM"
              else if (suffix =? "PM") && mem hh ["15"; "3"] then PStr "3:00 PM"
              else if (suffix =? "PM") && mem hh ["16"; "4"] then PStr "4:00 PM"
              else value
          | None => value
          end
      end
  end.

(** The part of a [RagBot] the tools touch. *)
Record bot : Type := Bot { last_slots_date : pyval }.

(** A function-call directive of the model; [args] may be [None]. *)
Record function_call : Type :=
  FunctionCall { name : string; args : option kwargs }.

Definition no_get : exn :=
  Exn AttributeError "'NoneType' object has no attribute 'get'".

Definition execute_tool_call (today : date) (ex : executor) (b : bot)
  (w : world) (fc : function_call) : result tool_result * bot * world :=
  let function_name := name fc in
  if function_name =? "get_available_slots" then
    match args fc with
    | None => (Raise no_get, b, w)
    | Some function_args =>
        let (result, w') :=
          run_tool today ex w GetAvailableSlots
            [("date", normalize_date today (get_val function_args "date"))] in
        let d := normalize_date today (get_val function_args "date") in
        (Ok result, (if truthy d then Bot d else b), w')
    end
  else if function_name =? "book_appointment_slot" then
    match args fc with
    | None => (Raise no_get, b, w)
    | Some function_args =>
        let inferred_date :=
          por (get_val function_args "date") (last_slots_date b) in
        let (result, w') :=
          run_tool today ex w BookAppointmentSlot
            [("date", normalize_date today inferred_date);
             ("time", normalize_time (get_val function_args "time"));
             ("user_id", get_val function_args "user_id")] in
        (Ok result, b, w')
    end
  else
    (Ok (ToolResult "error" ("Unknown function: " ++ function_name) NoExtra),
     b, w).

(** The bot after [execute_tool_call] of a slot lookup with arguments [a]. *)
Definition after_lookup (today : date) (ex : executor) (b : bot) (w : world)
  (a : kwargs) : bot :=
  snd (fst (execute_tool_call today ex b w
              (FunctionCall "get_available_slots" (Some a)))).

(** *** The two-phase tool protocol *)

Import Conversation.

(** An attribute an object may or may not have ([hasattr]). *)
Inductive attr (A : Type) : Type :=
| Absent
| Present (a : A).
Arguments Absent {A}.
Arguments Present {A} a.

(** One part of a model response: its [text] and its [function_call]
    attribute, which may be there and hold [None]. *)
Record part : Type :=
  Part { part_text : option string;
         part_function_call : attr (option function_call) }.

(** [response.candidates[i].content.parts]; [content] may be [None]. *)
Record candidate : Type := Candidate { content : option (list part) }.

Record model_response : Type :=
  ModelResponse { candidates : list candidate;
                  response_text : option string }.

(** What is sent to the model: [types.Content(role, parts)]. *)
Inductive sent_part : Type :=
| FromText (s : string)
| FromFunctionCall (fc : function_call)
| FromFunctionResponse (name : string) (response : tool_result).

Record sent : Type := Content { sent_role : string; parts : list sent_part }.

(** What [generate_response_with_tools] returns. *)
Record reply : Type :=
  Reply { response : string;
          tool_used : option string;
          tool_result_of : option tool_result;
          mode : string;
          error : option string }.

Definition apology : string :=
  "I apologize, but I encountered an error processing your request. Please try again.".

(** The [except Exception as e] that closes the protocol. *)
Definition error_reply (e : exn) : reply :=
  Reply apology None None "error" (Some (str e)).

Definition no_response : string := "I'm sorry, I couldn't generate a response.".

(** The history as the model gets it: turns without text are dropped. *)
Definition history_contents (chat_history : list turn) : list sent :=
  flat_map
    (fun msg =>
       let role := if role msg =? "user" then "user" else "model" in
       if text msg =? "" then [] else [Content role [FromText (text msg)]])
    chat_history.

Definition enhanced_system_prompt (system_prompt : string) (user_id : pyval)
  : string :=
  newline ++ system_prompt ++ newline ++ newline ++
  "You have access to appointment booking functions. When users want to book appointments:"
  ++ newline ++ "1. First get available slots for the requested date"
  ++ newline ++ "2. Present the available options to the user"
  ++ newline ++ "3. When they confirm a slot, book it for them"
  ++ newline ++ "4. Always be conversational and helpful"
  ++ newline ++ newline ++ "Current user ID: " ++ or_text user_id "guest"
  ++ newline.

(** The first part that has a [function_call] attribute
    ([for part in parts: if hasattr(part, 'function_call')]). *)
Fixpoint first_with_function_call (ps : list part)
  : option (option function_call) :=
  match ps with
  | [] => None
  | p :: ps' =>
      match part_function_call p with
      | Present fc => Some fc
      | Absent => first_with_function_call ps'
      end
  end.

(** The text of a response that calls no tool. *)
Definition regular_text (r : model_response) : string :=
  let model_text := opt_val (response_text r) in
  let model_text :=
    if truthy model_text then model_text
    else match candidates r with
         | c :: _ =>
             match content c with
             | Some (maybe_part :: _) => opt_val (part_text maybe_part)
             | _ => PNone
             end
         | [] => PNone
         end in
  or_text model_text no_response.

Section Orchestrator.

(** The three pattern extractors of the direct-booking shortcut
    ([_extract_date], [_extract_time], [_extract_user_id]) and the
    generation service ([client.models.generate_content], given the
    contents, the system instruction and whether the tool schemas are
    attached) are kept as parameters. *)
Variables _extract_date _extract_time _extract_user_id : string -> option string.
Variable generate_content : list sent -> string -> bool -> result model_response.

(** Lines 381-485: the [try] block of [generate_response_with_tools]. *)
Definition tool_protocol (today : date) (ex : executor) (b : bot) (w : world)
  (user_message system_prompt : string) (chat_history : list turn)
  (user_id : pyval) : reply * bot * world :=
  let gemini_history :=
    (history_contents chat_history ++
     [Content "user" [FromText user_message]])%list in
  let prompt := enhanced_system_prompt system_prompt user_id in
  match generate_content gemini_history prompt true with
  | Raise e => (error_reply e, b, w)
  | Ok first =>
      let regular :=
        (Reply (regular_text first) None None "regular" None, b, w) in
      match candidates first with
      | [] => regular
      | c :: _ =>
          match content c with
          | None =>
              (error_reply
                 (Exn AttributeError
                    "'NoneType' object has no attribute 'parts'"), b, w)
          | Some ps =>
              match first_with_function_call ps with
              | None => regular
              | Some None =>
                  (error_reply
                     (Exn AttributeError
                        "'NoneType' object has no attribute 'name'"), b, w)
              | Some (Some fc) =>
                  match execute_tool_call today ex b w fc with
                  | (Raise e, b', w') => (error_reply e, b', w')
                  | (Ok function_result, b', w') =>
                      let gemini_history :=
                        (gemini_history ++
                         [Content "model" [FromFunctionCall fc];
                          Content "user"
                            [FromFunctionResponse (name fc) function_result]])%list in
                      match generate_content gemini_history prompt false with
                      | Raise e => (error_reply e, b', w')
                      | Ok follow_up_response =>
                          (* the clean-up of a doubled user id reads the
                             unbound name [function_call]: NameError,
                             swallowed, [msg] unchanged *)
                          let model_text :=
                            if status function_result =? "success"
                            then or_text (PStr (message function_result))
                                   "Appointment updated."
                            else or_text (PStr (message function_result))
                                   "There was a problem with your request." in
                          (Reply model_text (Some (name fc))
                             (Some function_result) "tool_calling" None,
                           b', w')
                      end
                  end
              end
          end
      end
  end.

Definition generate_response_with_tools (today : date) (ex : executor)
  (b : bot) (w : world) (user_message system_prompt : string)
  (chat_history : list turn) (user_id : pyval) : reply * bot * world :=
  let date_candidate := opt_val (_extract_date user_message) in
  let time_candidate := opt_val (_extract_time user_message) in
  let user_candidate := opt_val (_extract_user_id user_message) in
  let continue w :=
    tool_protocol today ex b w user_message system_prompt chat_history user_id in
  if truthy date_candidate && truthy time_candidate &&
     (truthy user_candidate || truthy user_id)
  then
    let (direct, w') :=
      run_tool today ex w BookAppointmentSlot
        [("date", date_candidate); ("time", time_candidate);
         ("user_id", por user_candidate (por user_id (PStr "guest")))] in
    if status direct =? "success"
    then (Reply (or_text (PStr (message direct)) "Appointment confirmed.")
            (Some "book_appointment_slot") (Some direct) "tool_calling" None,
          b, w')
    else continue w'
  else continue w.

End Orchestrator.

End RagCore.

(** ** The intent router ([app.py], [ws_server.py]) *)

Module App.

Import Conversation.

(** *** The regular expressions of the router *)

Definition is_word_at (c : option ascii) : bool :=
  match c with
  | Some c => is_word c
  | None => false
  end.

(** [\b] between two neighbours; [None] is an end of the text. *)
Definition boundary (before after : option ascii) : bool :=
  xorb (is_word_at before) (is_word_at after).

(** [\b\d{4}-\d{2}-\d{2}\b] at the head of [s], [prev] being the character
    before it. *)
Definition iso_at (prev : option ascii) (s : string) : bool :=
  boundary prev (String.get 0 s) &&
  match scan_ymd s with
  | Some (_, _, _, rest) => boundary (String.get 9 s) (String.get 0 rest)
  | None => false
  end.

Fixpoint search_iso (prev : option ascii) (s : string) : bool :=
  iso_at prev s ||
  match s with
  | "" => false
  | String c s' => search_iso (Some c) s'
  end.

(** A pattern [\b ... \b] made of words and [\s+], matched without regard
    to case. *)
Inductive token : Type :=
| Lit (w : string)
| Spaces.

(** The word [w] at the head of [s]; gives what follows it. *)
Fixpoint match_lit (w s : string) : option string :=
  match w with
  | "" => Some s
  | String p w' =>
      match s with
      | String c s' =>
          if (lower_char c =? lower_char p)%char then match_lit w' s' else None
      | "" => None
      end
  end.

Fixpoint skip_spaces (s : string) : nat * string :=
  match s with
  | String c s' =>
      if is_space c then let (n, r) := skip_spaces s' in (S n, r) else (0, s)
  | "" => (0, "")
  end.

(** Length of the match of the tokens at the head of [s].  [\s+] takes all
    the white space there is: the word after it starts with a letter, so no
    shorter run could let the match go on. *)
Fixpoint match_tokens (pat : list token) (s : string) : option nat :=
  match pat with
  | [] => Some 0
  | Lit w :: pat' =>
      match match_lit w s with
      | Some rest => option_map (Nat.add (String.length w)) (match_tokens pat' rest)
      | None => None
      end
  | Spaces :: pat' =>
      let (n, rest) := skip_spaces s in
      match n with
      | O => None
      | S _ => option_map (Nat.add n) (match_tokens pat' rest)
      end
  end.

(** Length of the match of [\b pat \b] at the head of [s]. *)
Definition match_at (pat : list token) (prev : option ascii) (s : string)
  : option nat :=
  if boundary prev (String.get 0 s) then
    match match_tokens pat s with
    | Some n =>
        let last := match n with O => prev | S k => String.get k s end in
        if boundary last (String.get n s) then Some n else None
    | None => None
    end
  else None.

(** [re.sub(pattern, repl, s, flags=re.IGNORECASE)], scanning from the left;
    [skip] counts the characters of the current match still to drop. *)
Fixpoint sub_from (pat : list token) (repl : string) (skip : nat)
  (prev : option ascii) (s : string) : string :=
  match s with
  | "" => ""
  | String c s' =>
      match skip with
      | S k => sub_from pat repl k (Some c) s'
      | O =>
          match match_at pat prev s with
          | Some (S n) => repl ++ sub_from pat repl n (Some c) s'
          | _ => String c (sub_from pat repl 0 (Some c) s')
          end
      end
  end.

Definition re_sub (pat : list token) (repl s : string) : string :=
  sub_from pat repl 0 None s.



Definition day_after_tomorrow_pattern : list token :=
  [Lit "day"; Spaces; Lit "after"; Spaces; Lit "tomorrow"].
Definition tomorrow_pattern : list token := [Lit "tomorrow"].
Definition today_pattern : list token := [Lit "today"].

(** *** normalize_relative_dates *)

Definition normalize_relative_dates (today : date) (text : string)
  : result string :=
  if text =? "" then Ok text
  else
    bind (add_days today 1) (fun tomorrow =>
    bind (add_days today 2) (fun day_after =>
      let normalized := text in
      let normalized :=
        re_sub day_after_tomorrow_pattern (isoformat day_after) normalized in
      let normalized :=
        re_sub tomorrow_pattern (isoformat tomorrow) normalized in
      let normalized := re_sub today_pattern (isoformat today) normalized in
      Ok normalized)).

(** *** The decision (lines 96-138 of [app.py], 50-92 of [ws_server.py]) *)

Definition booking_keywords : list string :=
  ["book"; "appointment"; "schedule"; "slot"; "service"; "wash"].

Definition contains_iso_date (text : string) : bool := search_iso None text.

Definition context_keywords : list string :=
  ["slot"; "slots"; "appointment"; "book"; "schedule"; "service"; "wash"].

Definition has_booking_context (history : list turn) : bool :=
  let recent := last_n 3 history in
  existsb
    (fun msg =>
       (role msg =? "model") &&
       existsb (fun k => contains k (lower (text msg))) context_keywords)
    recent.

Definition contains_relative_date (text : string) : bool :=
  existsb (fun p => contains p text) ["today"; "tomorrow"; "day after tomorrow"].

Definition history_contains_date (history : list turn) : bool :=
  let recent := last_n 5 history in
  existsb
    (fun msg =>
       let t := lower (text msg) in
       contains_iso_date t || contains_relative_date t)
    recent.

(** [enable_tools], from the normalized message and the history. *)
Definition should_enable_tools (normalized_message : string)
  (history : list turn) : bool :=
  let lower_msg := lower normalized_message in
  let booking_intent :=
    existsb (fun keyword => contains keyword lower_msg) booking_keywords
    || has_booking_context history in
  let has_date :=
    contains_iso_date lower_msg || contains_relative_date lower_msg
    || history_contains_date history in
  booking_intent && has_date.

(** The decision both handlers take on a raw user message. *)
Definition enable_tools (today : date) (user_message : string)
  (history : list turn) : result bool :=
  bind (normalize_relative_dates today user_message)
       (fun normalized_message =>
          Ok (should_enable_tools normalized_message history)).

End App.

(** ** Ingestion of text and link entries ([rag_core.py], [IngestionHandler]) *)

Module Ingestion.

Import ApiFunctions.

(** An entry of the request body: a JSON object; a key that is missing
    reads as [None]. *)
Definition entry : Type := list (string * pyval).

(** The text of a field; empty when the key is missing or holds [None]. *)
Definition field_text (e : entry) (k : string) : string :=
  match get_val e k with
  | PStr s => s
  | PNone => ""
  end.

(** [Document(page_content=..., metadata={...})] *)
Record document : Type := Document { page_content : string; metadata : obj }.

(** The bookkeeping of one field: [if x in seen: duplicates.append(x)
    else: seen.add(x)]. *)
Definition note (x : string) (acc : list string * list string)
  : list string * list string :=
  let (seen, duplicates) := acc in
  if mem x seen then (seen, (duplicates ++ [x])%list) else (x :: seen, duplicates).

(** The state of the loop over the entries: what was seen and what recurred,
    for the names and for the values (or links), and the documents so far. *)
Record scan : Type :=
  Scan { names : list string * list string;
         values : list string * list string;
         documents : list document }.

Definition start : scan := Scan ([], []) ([], []) [].

(** The errors raised after the loop. *)
Definition duplicate_errors (what : string) (duplicates : list string)
  : list string :=
  match duplicates with
  | [] => []
  | _ => ["Duplicate " ++ what ++ " detected: " ++ join ", " duplicates]
  end.

Definition finish (what : string) (s : scan) : result (list document) :=
  let errors :=
    (duplicate_errors "names" (snd (names s)) ++
     duplicate_errors what (snd (values s)))%list in
  match errors with
  | [] => Ok (documents s)
  | _ => Raise (Exn ValueError (join " | " errors))
  end.

Definition text_document (name value : string) : document :=
  Document value [("name", name); ("source_type", "text")].

Definition missing_text_field : exn :=
  Exn ValueError "Each text entry must have a name and value.".

Fixpoint text_loop (entries : list entry) (s : scan) : result scan :=
  match entries with
  | [] => Ok s
  | entry :: rest =>
      match get_val entry "name", get_val entry "value" with
      | PStr name, PStr value =>
          if (name =? "") || (value =? "") then Raise missing_text_field
          else
            text_loop rest
              (Scan (note name (names s)) (note value (values s))
                    (documents s ++ [text_document name value]))
      | _, _ => Raise missing_text_field
      end
  end.

Definition process_text_entries (entries : list entry)
  : result (list document) :=
  bind (text_loop entries start) (finish "values").

Definition missing_link_field : exn :=
  Exn ValueError "Each link entry must have a name and link.".

Section Links.

(** [RagBot.fetch_link(link, name)]: the request to the link and the
    clean-up of the page, over the state of the network; [None] when the
    page could not be fetched or holds no text. *)
Variable net : Type.
Variable fetch_link : net -> string -> string -> option document * net.

Fixpoint link_loop (entries : list entry) (s : scan) (n : net)
  : result scan * net :=
  match entries with
  | [] => (Ok s, n)
  | entry :: rest =>
      match get_val entry "name", get_val entry "link" with
      | PStr name, PStr link =>
          if (name =? "") || (link =? "") then (Raise missing_link_field, n)
          else
            let (doc, n') := fetch_link n link name in
            link_loop rest
              (Scan (note name (names s)) (note link (values s))
                    (match doc with
                     | Some doc => documents s ++ [doc]
                     | None => documents s
                     end))
              n'
      | _, _ => (Raise missing_link_field, n)
      end
  end.

Definition process_link_entries (entries : list entry) (n : net)
  : result (list document) * net :=
  let (r, n') := link_loop entries start n in
  (bind r (finish "links"), n').

End Links.

End Ingestion.

(** ** Fetching a link ([rag_core.py], [RagBot.fetch_link]) *)

Module LinkFetch.

Import Ingestion.

(** The line boundaries of [str.splitlines] in the ASCII range: LF, VT, FF,
    CR and the separators FS, GS, RS. *)
Definition is_linebreak (c : ascii) : bool :=
  between 10 13 c || between 28 30 c.

(** [s.splitlines()]: CR LF is one boundary, and a boundary that ends the
    text opens no further line. *)
Fixpoint splitlines (s : string) : list string :=
  match s with
  | "" => []
  | String c s' =>
      if is_linebreak c then
        match s' with
        | String c' s'' =>
            if (code c =? 13)%nat && (code c' =? 10)%nat
            then "" :: splitlines s''
            else "" :: splitlines s'
        | "" => [""]
        end
      else
        match splitlines s' with
        | line :: lines => String c line :: lines
        | [] => [String c ""]
        end
  end.

(** [s.split("  ")]: the text between the occurrences of two spaces in a
    row, found from the left. *)
Fixpoint split_phrases (s : string) : list string :=
  match s with
  | "" => [""]
  | String c s' =>
      match s' with
      | String c' s'' =>
          if (c =? " ")%char && (c' =? " ")%char
          then "" :: split_phrases s''
          else
            match split_phrases s' with
            | phrase :: phrases => String c phrase :: phrases
            | [] => [String c ""]
            end
      | "" => [String c ""]
      end
  end.

(** The clean-up of the text of a page: the lines trimmed, cut at double
    spaces, the phrases trimmed, the empty ones dropped, the others joined
    by one space. *)
Definition clean (clean_text : string) : string :=
  let lines := map strip (splitlines clean_text) in
  let chunks :=
    flat_map (fun line => map strip (split_phrases line)) lines in
  join " " (filter (fun chunk => negb (chunk =? "")) chunks).

(** The characters of a text that are not white space, in their order. *)
Fixpoint visible (s : string) : string :=
  match s with
  | "" => ""
  | String c s' => if is_space c then visible s' else String c (visible s')
  end.

(** An answer to [requests.get]: its status, its text, and the text
    [BeautifulSoup] reads in it once scripts and styles are removed. *)
Record page : Type :=
  Page { status_code : nat; text : string; get_text : string }.

Section Fetch.

Variable net : Type.
Variable requests_get : net -> string -> result page * net.

Definition fetch_link (n : net) (link name : string)
  : option document * net :=
  match requests_get n link with
  | (Ok resp, n') =>
      if (status_code resp =? 200)%nat && negb (strip (text resp) =? "") then
        let clean_content := clean (get_text resp) in
        if clean_content =? "" then (None, n')
        else
          (Some (Document clean_content
                   [("name", name); ("url", link); ("source_type", "link")]),
           n')
      else (None, n')
  | (Raise _, n') => (None, n')
  end.

End Fetch.

End LinkFetch.

(** ** The ingestion endpoint ([ingestion_routes.py]) *)

Module IngestionRoutes.

Import ApiFunctions AppointmentRoutes Ingestion.

(** The [data] of the request once read: a form field that is no JSON, or
    an object with its text and link entries (empty when the key is
    missing). *)
Inductive payload : Type :=
| InvalidData
| Payload (textEntries linkEntries : list entry).

(** What [get_file_loader] makes of one uploaded file: its documents, or
    [None] when loading failed. *)
Definition upload : Type := option (list document).

(** The loop over the uploaded files: the documents and their count. *)
Fixpoint load_files (uploaded_files : list upload) : list document * nat :=
  match uploaded_files with
  | [] => ([], 0)
  | file :: rest =>
      let (file_docs, processed_file_count) := load_files rest in
      match file with
      | Some (doc :: docs) =>
          ((doc :: docs) ++ file_docs, length (doc :: docs) + processed_file_count)
      | _ => (file_docs, processed_file_count)
      end
  end%list.

(** A step of the endpoint: the documents of one kind of source, when there
    are any, with their count and the name of the source. *)
Record batch : Type :=
  Batch { all_documents : list document;
          total_count : nat;
          sources_processed : list string }.

Definition add_source (source : string) (docs : list document) (count : nat)
  (acc : batch) : batch :=
  match docs with
  | [] => acc
  | _ => Batch (all_documents acc ++ docs) (total_count acc + count)
           (sources_processed acc ++ [source])
  end%list.

(** The documents of a call that raised are none: the handler logs the
    exception and goes on. *)
Definition logged (r : result (list document)) : list document :=
  match r with
  | Ok docs => docs
  | Raise _ => []
  end.

Section Endpoint.

Variable net : Type.
Variable fetch_link : net -> string -> string -> option document * net.

(** The vector store, the text splitter and the embedding of the chunks
    into a new store ([Chroma.from_documents]) or into the one there is
    ([add_documents]). *)
Variable store : Type.
Variable split_documents : list document -> list document.
Variable from_documents : list document -> result store.
Variable add_documents : store -> list document -> result store.

(** [RagBot.store_documents]: the answer, or the exception, and the vector
    store afterwards. *)
Definition store_documents (vector_store : option store)
  (documents : list document) (source : string) (count : nat)
  : result response * option store :=
  let chunks := split_documents documents in
  let stored :=
    match vector_store with
    | None => from_documents chunks
    | Some vs => add_documents vs chunks
    end in
  match stored with
  | Ok vs =>
      (Ok (Response 200
             (BObj [("message",
                     "Successfully ingested " ++ str_of_nat count ++ " " ++
                     source ++ " entries (" ++ str_of_nat (length chunks) ++
                     " chunks). RAG ready.")])),
       Some vs)
  | Raise e => (Raise e, vector_store)
  end.

Definition ingest_all (vector_store : option store) (n : net)
  (data : payload) (uploaded_files : list upload)
  : response * option store * net :=
  match data with
  | InvalidData =>
      (Response 400 (BObj [("error", "Invalid JSON in 'data' field.")]),
       vector_store, n)
  | Payload text_entries link_entries =>
      let acc := Batch [] 0 [] in
      let acc :=
        match text_entries with
        | [] => acc
        | _ =>
            let text_docs := logged (process_text_entries text_entries) in
            add_source "Text" text_docs (length text_docs) acc
        end in
      let (acc, n) :=
        match link_entries with
        | [] => (acc, n)
        | _ =>
            let (r, n') := process_link_entries net fetch_link link_entries n in
            (add_source "Links" (logged r) (length (logged r)) acc, n')
        end in
      let acc :=
        match uploaded_files with
        | [] => acc
        | _ =>
            let (file_docs, processed_file_count) := load_files uploaded_files in
            add_source "Files" file_docs processed_file_count acc
        end in
      match all_documents acc with
      | [] =>
          (Response 200
             (BObj [("message",
                     "No new data found. RAG knowledge base remains unchanged.")]),
           vector_store, n)
      | _ =>
          let source_summary :=
            match join ", " (sources_processed acc) with
            | "" => "Various"
            | summary => summary
            end in
          match store_documents None (all_documents acc) source_summary
                  (total_count acc) with
          | (Ok r, vs) => (r, vs, n)
          | (Raise e, vs) =>
              (Response 500
                 (BObj [("error", "Failed to store documents: " ++ str e)]),
               vs, n)
          end
      end
  end.

(** [reset_knowledge_base] *)
Definition reset_knowledge_base (vector_store : option store)
  : response * option store :=
  (Response 200
     (BObj [("message", "RAG knowledge base successfully reset and cleared.")]),
   None).

End Endpoint.

End IngestionRoutes.

(** ** The streaming answer ([rag_core.py], [generate_response_stream]) *)

Module Streaming.

Import Conversation BookingTools RagCore.

(** The texts one chunk of the stream yields: its [text] when there is one,
    else the texts of the parts of its first candidate. *)
Definition chunk_texts (chunk : model_response) : list string :=
  if truthy (opt_val (response_text chunk)) then [pystr (opt_val (response_text chunk))]
  else
    match candidates chunk with
    | [] => []
    | cand :: _ =>
        match content cand with
        | None => []
        | Some parts =>
            flat_map
              (fun p =>
                 let txt := opt_val (part_text p) in
                 if truthy txt then [pystr txt] else [])
              parts
        end
    end.

Section Stream.

(** Whether the bot holds a vector store, the prompt [get_rag_context] builds
    for a message, and the streaming generation service
    ([client.models.generate_content_stream], given the contents, the system
    instruction and whether the search tool is attached): the chunks it
    delivers and the exception that ends the stream, if one does. *)
Variable vector_store : bool.
Variable get_rag_context : string -> string.
Variable generate_content_stream :
  list sent -> pyval -> bool -> list model_response * option exn.

(** What the generator yields, and the exception it ends with, if any. *)
Definition generate_response_stream (user_message : string)
  (system_prompt : pyval) (chat_history : list turn)
  : list string * option exn :=
  let final_prompt :=
    if vector_store then get_rag_context user_message else user_message in
  let gemini_history :=
    (history_contents chat_history ++
     [Content "user" [FromText final_prompt]])%list in
  let (chunks, e) :=
    generate_content_stream gemini_history system_prompt (negb vector_store) in
  (flat_map chunk_texts chunks, e).

End Stream.

End Streaming.

(** ** The socket handler ([ws_server.py]) *)

Module WsServer.

Import Conversation BookingTools RagCore App Streaming.

(** A message of the client that parses to a JSON object: the values of its
    keys, [None] or empty for a key that is missing, except where the
    handler gives a default of its own. *)
Record data : Type :=
  Data { msg_type : pyval;
         systemPrompt : attr pyval;
         user_message : pyval;
         message_id : pyval;
         history : list turn;
         user_id : attr pyval }.

Inductive incoming : Type :=
| InvalidJson
| Json (d : data).

(** [v == s] for a value that is a string or [None] *)
Definition is_text (v : pyval) (s : string) : bool :=
  match v with
  | PStr x => x =? s
  | PNone => false
  end.

(** [data.get(key, default)] *)
Definition get_default (a : attr pyval) (default : string) : pyval :=
  match a with
  | Present v => v
  | Absent => PStr default
  end.

Record session : Type :=
  Session { system_prompt : pyval; session_history : list turn }.

(** What the handler sends. *)
Inductive frame : Type :=
| ErrorFrame (message : string) (messageId : option pyval)
| SessionAck
| ModelResponseChunk (messageId : pyval) (delta : string)
| ToolResponseDone (messageId : pyval) (response : string)
    (tool_used : option string) (tool_result : option tool_result)
    (mode : string)
| ModelResponseDone (messageId : pyval) (response : string) (mode : string).

(** The two turns the handler appends after an answer. *)
Definition answered (s : session) (normalized_message response : string)
  : session :=
  Session (system_prompt s)
    (session_history s ++
     [Turn "user" normalized_message; Turn "model" response])%list.

(** The deltas and the final answers among the frames sent. *)
Definition deltas (frames : list frame) : list string :=
  flat_map (fun f => match f with
                     | ModelResponseChunk _ delta => [delta]
                     | _ => []
                     end) frames.

Definition answers (frames : list frame) : list string :=
  flat_map (fun f => match f with
                     | ToolResponseDone _ response _ _ _ => [response]
                     | ModelResponseDone _ response _ => [response]
                     | _ => []
                     end) frames.

Section Handler.

Variables _extract_date _extract_time _extract_user_id : string -> option string.
Variable generate_content : list sent -> string -> bool -> result model_response.
Variable get_rag_context : string -> string.
Variable generate_content_stream :
  list sent -> pyval -> bool -> list model_response * option exn.

(** The body of the loop of [ws_handler] for one message: the frames sent
    and the state afterwards.  [Raise] is an exception that leaves the
    handler. *)
Definition on_message (today : date) (ex : executor) (vector_store : bool)
  (s : session) (b : bot) (w : world) (m : incoming)
  : result (list frame * (session * bot * world)) :=
  match m with
  | InvalidJson => Ok ([ErrorFrame "invalid_json" None], (s, b, w))
  | Json d =>
      if is_text (msg_type d) "session_start" then
        Ok ([SessionAck],
            (Session (get_default (systemPrompt d) "") (session_history s), b, w))
      else if is_text (msg_type d) "user_message" then
        let history :=
          match history d with
          | [] => session_history s
          | _ => history d
          end in
        if negb (truthy (user_message d)) then
          Ok ([ErrorFrame "missing_user_message" (Some (message_id d))],
              (s, b, w))
        else
          bind (normalize_relative_dates today (pystr (user_message d)))
            (fun normalized_message =>
               if should_enable_tools normalized_message history then
                 let '(result, b', w') :=
                   generate_response_with_tools _extract_date _extract_time
                     _extract_user_id generate_content today ex b w
                     normalized_message (pystr (system_prompt s)) history
                     (get_default (user_id d) "guest") in
                 Ok ([ToolResponseDone (message_id d) (response result)
                        (tool_used result) (tool_result_of result)
                        (mode result)],
                     (answered s normalized_message (response result), b', w'))
               else
                 let (yielded, e) :=
                   generate_response_stream vector_store get_rag_context
                     generate_content_stream normalized_message
                     (system_prompt s) history in
                 let accumulated :=
                   filter (fun delta => truthy (PStr delta)) yielded in
                 let chunks :=
                   map (ModelResponseChunk (message_id d)) accumulated in
                 match e with
                 | Some e =>
                     Ok ((chunks ++
                          [ErrorFrame (str e) (Some (message_id d))])%list,
                         (s, b, w))
                 | None =>
                     let full_text :=
                       match accumulated with
                       | [] => no_response
                       | _ => String.concat "" accumulated
                       end in
                     Ok ((chunks ++
                          [ModelResponseDone (message_id d) full_text
                             (if vector_store then "RAG" else "Base LLM")])%list,
                         (answered s normalized_message full_text, b, w))
                 end)
      else Ok ([], (s, b, w))
  end.

(** A message as it arrives: the date of the day and whether the bot holds
    a vector store at that time. *)
Record arrival : Type :=
  Arrival { on_date : date; with_store : bool; received : incoming }.

(** [ws_handler] over the messages of one connection, from a fresh session:
    all the frames sent and the state when the messages end or an exception
    leaves the handler. *)
Fixpoint serve (ex : executor) (s : session) (b : bot) (w : world)
  (arrivals : list arrival) : list frame * (session * bot * world) :=
  match arrivals with
  | [] => ([], (s, b, w))
  | a :: rest =>
      match on_message (on_date a) ex (with_store a) s b w (received a) with
      | Ok (frames, (s', b', w')) =>
          let (more, final) := serve ex s' b' w' rest in
          ((frames ++ more)%list, final)
      | Raise _ => ([], (s, b, w))
      end
  end.

Definition ws_handler (ex : executor) (b : bot) (w : world)
  (arrivals : list arrival) : list frame * (session * bot * world) :=
  serve ex (Session (PStr "") []) b w arrivals.

End Handler.

End WsServer.

(** ** A worksheet and a network to run the code on *)

Module Demo.

Import ApiFunctions BookingTools.
Local Open Scope Z_scope.

(** A worksheet with two dates, one cell booked and one blacked out. *)
Definition demo_sheet : sheet :=
  [ "Date" :: TIME_COLUMNS;
    ["2026-11-03"; ""; "Taha-9999"; ""; "SUDAY"; ""; ""; ""; ""];
    ["2026-11-04"; "x"; "x"; "x"; "suday"; "x"; "x"; "x"; "x"] ].

(** The store answers at both local addresses. *)
Definition demo_world : world :=
  World demo_sheet ["http://127.0.0.1:5200"; "http://localhost:5200"] [].

Definition demo_today : date := mkdate 2026 11 3.

(** A generation service that answers the first call (tool schemas
    attached) with a slot lookup for 2026-11-03 and fails on the second. *)
Definition demo_model (contents : list RagCore.sent) (prompt : string)
  (tools : bool) : result RagCore.model_response :=
  if tools
  then Ok (RagCore.ModelResponse
             [RagCore.Candidate
                (Some [RagCore.Part None
                         (RagCore.Present
                            (Some (RagCore.FunctionCall "get_available_slots"
                                     (Some [("date", PStr "2026-11-03")]))))])]
             None)
  else Raise (Exn ServiceError "503 UNAVAILABLE").

(** A generation service that answers both calls. *)
Definition demo_model_up (contents : list RagCore.sent) (prompt : string)
  (tools : bool) : result RagCore.model_response :=
  if tools then demo_model contents prompt tools
  else Ok (RagCore.ModelResponse [] (Some "Here is what I found.")).

(** An extractor that finds nothing. *)
Definition finds_nothing (text : string) : option string := None.

End Demo.

Import Demo.

(** ** The intent router in the words of the specification *)

Module RouterSpec.

Import Conversation.

(** [k] occurs in [s]. *)
Definition occurs (k s : string) : Prop :=
  exists pre post, s = pre ++ k ++ post.

(** Some keyword of the list occurs in [s]. *)
Definition keyword_in (keywords : list string) (s : string) : Prop :=
  exists k, In k keywords /\ occurs k s.

Definition digits (s : string) : Prop := all_chars is_digit s = true.

(** Four digits, a hyphen, two digits, a hyphen, two digits. *)
Definition iso_shape (d : string) : Prop :=
  exists y m dd,
    d = y ++ "-" ++ m ++ "-" ++ dd /\
    String.length y = 4 /\ String.length m = 2 /\ String.length dd = 2 /\
    digits y /\ digits m /\ digits dd.

Definition ends_in_word (s : string) : bool := App.is_word_at (last_of None s).
Definition starts_with_word (s : string) : bool :=
  App.is_word_at (String.get 0 s).

(** An ISO date pattern stands in [s], with a word boundary on either
    side. *)
Definition iso_date_in (s : string) : Prop :=
  exists pre d post,
    s = pre ++ d ++ post /\ iso_shape d /\
    ends_in_word pre = false /\ starts_with_word post = false.

Definition booking_keywords : list string :=
  ["book"; "appointment"; "schedule"; "slot"; "service"; "wash"].

Definition relative_date_words : list string :=
  ["today"; "tomorrow"; "day after tomorrow"].

(** A text that holds a date: an ISO date pattern or a relative date word. *)
Definition date_in (s : string) : Prop :=
  iso_date_in s \/ keyword_in relative_date_words (lower s).

(** A booking keyword occurs in the lowercased message, or a turn of the
    model among the last three of the history holds a booking-context
    keyword. *)
Definition booking_intent (message : string) (history : list turn) : Prop :=
  keyword_in booking_keywords (lower message) \/
  exists t, In t (last_n 3 history) /\ role t = "model" /\
            keyword_in App.context_keywords (lower (text t)).

(** The message holds a date, or one of the last five turns does. *)
Definition has_date (message : string) (history : list turn) : Prop :=
  date_in message \/
  exists t, In t (last_n 5 history) /\ date_in (text t).

End RouterSpec.

(** * Properties *)

(** ** Time labels (claim C6) *)

Section TimeLabels.

Import RagCore BookingTools.


(** C6. [normalize_time] gives back each of the eight canonical labels as it
    is, and sends "4pm", "16:00" and "4:00 PM" to "4:00 PM". *)
Theorem normalize_time_canonical :
  Forall (fun label => normalize_time (PStr label) = PStr label) valid_times /\
  normalize_time (PStr "4pm") = PStr "4:00 PM" /\
  normalize_time (PStr "16:00") = PStr "4:00 PM" /\
  normalize_time (PStr "4:00 PM") = PStr "4:00 PM".
Proof.
  split.
  - unfold valid_times. repeat constructor.
  - repeat split; reflexivity.
Qed.

End TimeLabels.

(** ** The tool executor's guard (claims C3, C8, C10) *)

Section SafeExecute.

Import BookingTools.

Variables (today : date) (ex : executor) (w : world).

Lemma safe_execute_get (kw : kwargs) :
  safe_execute today ex w "get_available_slots" kw =
  (Some (fst (run_tool today ex w GetAvailableSlots kw)),
   snd (run_tool today ex w GetAvailableSlots kw)).
Proof.
  unfold safe_execute. simpl.
  destruct (run_tool today ex w GetAvailableSlots kw); reflexivity.
Qed.

Lemma safe_execute_book (kw : kwargs) :
  safe_execute today ex w "book_appointment_slot" kw =
  (Some (fst (run_tool today ex w BookAppointmentSlot kw)),
   snd (run_tool today ex w BookAppointmentSlot kw)).
Proof.
  unfold safe_execute. simpl.
  destruct (run_tool today ex w BookAppointmentSlot kw); reflexivity.
Qed.

(** C10. With the date absent ([None]), [safe_execute] of either tool
    returns status [execution_error] (the [TypeError] of the date check,
    caught by the handler), not [validation_error], and the world is as it
    was: no request went to the store. *)
Theorem safe_execute_without_date (function_name : string) (kw : kwargs) :
  mem function_name ["get_available_slots"; "book_appointment_slot"] = true ->
  get_val kw "date" = PNone ->
  safe_execute today ex w function_name kw
  = (Some (execution_error not_a_string), w) /\
  status (execution_error not_a_string) = "execution_error".
Proof.
  intros Hname Hdate. split; [ | reflexivity ].
  unfold mem in Hname. simpl in Hname.
  destruct (function_name =? "get_available_slots") eqn:Hg.
  - apply String.eqb_eq in Hg. subst function_name.
    rewrite safe_execute_get.
    unfold run_tool, try_get_available_slots. rewrite Hdate. reflexivity.
  - destruct (function_name =? "book_appointment_slot") eqn:Hb;
      [ | discriminate Hname ].
    apply String.eqb_eq in Hb. subst function_name.
    rewrite safe_execute_book.
    unfold run_tool, try_book_appointment_slot. rewrite Hdate. reflexivity.
Qed.

(** C8, as the code has it.  Under a name that is neither tool nor a special
    attribute, [safe_execute] returns status [execution_error] with the text
    of the exception of the failed call (for a name that is no attribute:
    that the object has no such attribute), never the message
    "Unknown function", and the world is as it was. *)
Theorem safe_execute_unknown_name (function_name : string) (kw : kwargs) :
  mem function_name ["get_available_slots"; "book_appointment_slot"] = false ->
  is_dunder function_name = false ->
  safe_execute today ex w function_name kw
  = (Some (ToolResult "execution_error"
             ("❌ Function execution failed: " ++ str (call_error function_name))
             NoExtra), w) /\
  "❌ Function execution failed: " ++ str (call_error function_name)
  <> "Unknown function".
Proof.
  intros Hname Hd. unfold mem in Hname. simpl in Hname.
  destruct (function_name =? "get_available_slots") eqn:Hg;
    [ discriminate Hname | ].
  destruct (function_name =? "book_appointment_slot") eqn:Hb;
    [ discriminate Hname | ].
  unfold safe_execute. rewrite Hg, Hb, Hd.
  split; [ reflexivity | simpl; discriminate ].
Qed.

End SafeExecute.

Section SafeExecuteExamples.

Import BookingTools ApiFunctions.
Local Open Scope Z_scope.

Lemma safe_execute_without_date_witness :
  safe_execute demo_today default_executor demo_world "get_available_slots" []
  = (Some (execution_error not_a_string), demo_world) /\
  status (execution_error not_a_string) = "execution_error".
Proof.
  apply (safe_execute_without_date demo_today default_executor demo_world
           "get_available_slots" []); reflexivity.
Defined.

Lemma safe_execute_unknown_name_witness :
  safe_execute demo_today default_executor demo_world "cancel_slot" []
  = (Some (ToolResult "execution_error"
             ("❌ Function execution failed: " ++ str (call_error "cancel_slot"))
             NoExtra), demo_world) /\
  "❌ Function execution failed: " ++ str (call_error "cancel_slot")
  <> "Unknown function".
Proof.
  apply (safe_execute_unknown_name demo_today default_executor demo_world
           "cancel_slot" []); reflexivity.
Defined.

(** C8 as the specification words it fails: the message of the result for an
    unknown name is not "Unknown function". *)
Lemma safe_execute_unknown_name_message :
  safe_execute demo_today default_executor demo_world "cancel_slot" []
  = (Some (ToolResult "execution_error"
             "❌ Function execution failed: 'BookingToolExecutor' object has no attribute 'cancel_slot'"
             NoExtra), demo_world) /\
  safe_execute demo_today default_executor demo_world "cancel_slot" []
  <> (Some (ToolResult "execution_error" "Unknown function" NoExtra), demo_world).
Proof.
  split; [ reflexivity | ].
  vm_compute. intros H. discriminate H.
Qed.

End SafeExecuteExamples.

Section BookingValidation.

Import BookingTools.

Variables (today : date) (ex : executor) (w : world).

Lemma date_errors_format (d : string) :
  match_date_pattern d = false -> date_errors today d <> [].
Proof. intros H. unfold date_errors. rewrite H. discriminate. Qed.

Lemma date_errors_past (d : string) (booking_date : date) :
  strptime d = Ok booking_date -> date_ltb booking_date today = true ->
  date_errors today d <> [].
Proof.
  intros Hp Hlt. unfold date_errors.
  destruct (match_date_pattern d); simpl; [ | discriminate ].
  rewrite Hp, Hlt. discriminate.
Qed.

Lemma time_errors_label (time : pyval) :
  truthy time = true -> mem (pystr time) valid_times = false ->
  time_errors time <> [].
Proof. intros Ht Hm. unfold time_errors. rewrite Ht, Hm. discriminate. Qed.

(** What holds of the booking guard: a date of the wrong format or in the
    past, a time that is given and is no canonical label, or a user id that
    is empty or shorter than three characters ends in [validation_error]
    with the world untouched. *)
Lemma book_rejected_before_store (kw : kwargs) (d : string) :
  get_val kw "date" = PStr d ->
  date_errors today d <> [] \/
  time_errors (get_val kw "time") <> [] \/
  truthy (get_val kw "user_id") = false \/
  (String.length (pystr (get_val kw "user_id")) <? 3)%nat = true ->
  exists msg,
    safe_execute today ex w "book_appointment_slot" kw
    = (Some (ToolResult "validation_error" msg NoExtra), w).
Proof.
  intros Hdate Hbad. rewrite safe_execute_book.
  unfold run_tool, try_book_appointment_slot, validate_booking_params.
  rewrite Hdate.
  destruct (date_errors today d ++ time_errors (get_val kw "time"))%list
    as [ | e es ] eqn:Herr.
  - apply app_eq_nil in Herr. destruct Herr as [Hd Ht].
    destruct Hbad as [H | [H | [H | H]]]; try contradiction.
    + simpl. rewrite H. simpl. eexists. reflexivity.
    + simpl. rewrite H, orb_true_r. eexists. reflexivity.
  - simpl. eexists. reflexivity.
Qed.

(** The example of the specification, on any day. *)
Lemma book_rejected_example :
  exists msg,
    safe_execute today ex w "book_appointment_slot"
      [("date", PStr "2024-01-01"); ("time", PStr "14:00");
       ("user_id", PStr "ab")]
    = (Some (ToolResult "validation_error" msg NoExtra), w).
Proof.
  apply book_rejected_before_store with (d := "2024-01-01");
    [ reflexivity | ].
  right. left. apply time_errors_label; reflexivity.
Qed.

End BookingValidation.

Section EmptyTime.

Import BookingTools.

(** With a date that passes and a user id of three characters or more, an
    empty time is not looked at: the guard hands the call to
    [book_appointment_slot], which goes to the store. *)
Lemma empty_time_passes_the_guard (today : date) (ex : executor) (w : world)
  (d u : string) :
  date_errors today d = [] -> (3 <=? String.length u)%nat = true ->
  run_tool today ex w BookAppointmentSlot
    [("date", PStr d); ("time", PStr ""); ("user_id", PStr u)]
  = book_appointment_slot ex w (PStr d) (PStr "") (PStr u).
Proof.
  intros Hd Hu. unfold run_tool, try_book_appointment_slot.
  simpl. rewrite Hd. simpl.
  destruct u as [ | c u ]; [ discriminate Hu | ]. simpl.
  apply Nat.leb_le in Hu. simpl in Hu.
  destruct (Nat.ltb_spec (S (String.length u)) 3) as [Hlt | _]; [ lia | ].
  simpl. destruct (book_appointment_slot ex w _ _ _). reflexivity.
Qed.

(** C3 at a time that is the empty string: the guard lets the call through,
    three requests go to the store and the result has status [error]. *)
Theorem safe_execute_empty_time_reaches_store :
  safe_execute demo_today default_executor demo_world "book_appointment_slot"
    [("date", PStr "2026-11-03"); ("time", PStr ""); ("user_id", PStr "abc")]
  = (Some (ToolResult "error"
             "❌ Booking failed: Missing required fields in body. Need 'date', 'time', and 'user_id'."
             NoExtra),
     World demo_sheet (served demo_world)
       [POST "http://127.0.0.1:5200" (PStr "2026-11-03") (PStr "") (PStr "abc");
        POST "http://127.0.0.1:5200" (PStr "2026-11-03") (PStr "") (PStr "abc");
        POST "http://localhost:5200" (PStr "2026-11-03") (PStr "") (PStr "abc")]).
Proof. vm_compute. reflexivity. Qed.

End EmptyTime.

(** ** Booking into the worksheet (claim C1) *)

Section BookSlot.

Import ApiFunctions.

Lemma nth_set_nth {A} (pad d v : A) (n : nat) (l : list A) :
  nth n (set_nth pad n v l) d = v.
Proof.
  revert l. induction n as [ | n IH ]; intros [ | h t ]; simpl; auto.
Qed.

Lemma cell_update_cell (sh : sheet) (r c : nat) (v : string) :
  cell (update_cell sh r c v) r c = v.
Proof.
  unfold cell, update_cell. rewrite nth_set_nth. apply nth_set_nth.
Qed.




End BookSlot.

(** ** The date a booking falls back on (claim C9) *)

Section InferredDate.

Import BookingTools RagCore.

Variables (today : date) (ex : executor) (b : bot) (w : world).

(** C9, as the code has it.  A slot lookup whose normalized date argument is
    not empty stores it in [last_slots_date]; a lookup without one leaves
    [last_slots_date] as it was.  A booking whose arguments omit the date or
    leave it empty is the call of [safe_execute] with the normalized
    [last_slots_date] for date, the normalized time and the user id as it
    came; the bot is unchanged. *)
Theorem execute_tool_call_infers_date (a : kwargs) :
  last_slots_date (after_lookup today ex b w a)
  = (if truthy (normalize_date today (get_val a "date"))
     then normalize_date today (get_val a "date")
     else last_slots_date b) /\
  (truthy (get_val a "date") = false ->
   exists r w',
     safe_execute today ex w "book_appointment_slot"
       [("date", normalize_date today (last_slots_date b));
        ("time", normalize_time (get_val a "time"));
        ("user_id", get_val a "user_id")] = (Some r, w') /\
     execute_tool_call today ex b w
       (FunctionCall "book_appointment_slot" (Some a)) = (Ok r, b, w')).
Proof.
  split.
  - unfold after_lookup, execute_tool_call. simpl.
    destruct (run_tool today ex w GetAvailableSlots _) as [r w'].
    simpl. destruct (truthy _); reflexivity.
  - intros Hd. rewrite safe_execute_book.
    unfold execute_tool_call. simpl. unfold por. rewrite Hd.
    destruct (run_tool today ex w BookAppointmentSlot _) as [r w'].
    exists r, w'. split; reflexivity.
Qed.

End InferredDate.

Section InferredDateExamples.

Import BookingTools RagCore.

Lemma execute_tool_call_infers_date_witness :
  exists r w',
    safe_execute demo_today default_executor demo_world "book_appointment_slot"
      [("date", normalize_date demo_today (PStr "2026-11-04"));
       ("time", normalize_time (PStr "9am"));
       ("user_id", PStr "Taha-9999")] = (Some r, w') /\
    execute_tool_call demo_today default_executor (Bot (PStr "2026-11-04"))
      demo_world
      (FunctionCall "book_appointment_slot"
         (Some [("time", PStr "9am"); ("user_id", PStr "Taha-9999")]))
    = (Ok r, Bot (PStr "2026-11-04"), w').
Proof.
  apply (execute_tool_call_infers_date demo_today default_executor
           (Bot (PStr "2026-11-04")) demo_world
           [("time", PStr "9am"); ("user_id", PStr "Taha-9999")]).
  reflexivity.
Defined.

(** C9 as worded fails where it says that every lookup updates the date: a
    lookup without a date leaves the date of an earlier lookup in place. *)
Lemma lookup_without_date_keeps_last :
  normalize_date demo_today (get_val [] "date") = PNone /\
  last_slots_date
    (after_lookup demo_today default_executor (Bot (PStr "2026-11-04"))
       demo_world [])
  = PStr "2026-11-04" /\
  last_slots_date
    (after_lookup demo_today default_executor (Bot (PStr "2026-11-04"))
       demo_world [])
  <> normalize_date demo_today (get_val [] "date").
Proof. repeat split; try reflexivity. vm_compute. discriminate. Qed.

End InferredDateExamples.

(** ** The two empty outcomes of a slot lookup (claim C4) *)

Section EmptyOutcomes.

Import ApiFunctions AppointmentRoutes BookingTools.


(** A lookup never leaves the worksheet changed. *)
Lemma get_slots_from_store (bases : list string) :
  forall (w : world) (date last_err : pyval),
    store (snd (get_slots_from w date bases last_err)) = store w.
Proof.
  induction bases as [ | base rest IH ]; intros w date last_err.
  - reflexivity.
  - simpl. unfold http_get.
    destruct (mem base (served w)).
    + destruct (status_code (handle_get (store w) date) =? 200)%nat.
      * reflexivity.
      * rewrite IH. reflexivity.
    + rewrite IH. reflexivity.
Qed.




End EmptyOutcomes.

(** ** What the orchestrator replies after a tool call (claim C7) *)

Section ToolMessages.

Import ApiFunctions AppointmentRoutes BookingTools RagCore.

Lemma or_text_nonempty (v : pyval) (default : string) :
  default <> "" -> or_text v default <> "".
Proof.
  intros Hd. unfold or_text. destruct v as [ | s ]; simpl; auto.
  destruct (s =? "") eqn:E; simpl; auto.
  apply String.eqb_neq in E. exact E.
Qed.

Lemma or_text_same (m default : string) :
  m <> "" -> or_text (PStr m) default = m.
Proof.
  intros Hm. unfold or_text. simpl.
  apply String.eqb_neq in Hm. rewrite Hm. reflexivity.
Qed.

Lemma slots_result_message (date : pyval) (data : body) :
  message (slots_result date data) <> "".
Proof.
  destruct data as [ l | [ | kv o ] ]; simpl; try discriminate.
  destruct (map _ _) as [ | t ts ]; simpl; try discriminate.
  destruct t; simpl; try discriminate.
  destruct (option_map S (first_none ts)); simpl; discriminate.
Qed.

Lemma get_slots_from_message (bases : list string) :
  forall w date last_err,
    message (fst (get_slots_from w date bases last_err)) <> "".
Proof.
  induction bases as [ | base rest IH ]; intros w date last_err; simpl.
  - discriminate.
  - destruct (http_get w base date) as [[response | e] w'].
    + destruct (status_code response =? 200)%nat.
      * apply slots_result_message.
      * apply IH.
    + apply IH.
Qed.

Lemma booking_result_message (date time : pyval)
  (resp : AppointmentRoutes.response)
  (r : tool_result) :
  booking_result date time resp = inl r -> message r <> "".
Proof.
  unfold booking_result.
  destruct (json resp) as [ l | booking_data ].
  - intros H. injection H as <-. simpl. discriminate.
  - destruct (_ || _ || _).
    + intros H. injection H as <-. simpl.
      apply or_text_nonempty. discriminate.
    + destruct (status_code resp =? 409)%nat; intros H;
        [ injection H as <-; simpl; discriminate | discriminate H ].
Qed.

Lemma book_from_message (bases : list string) :
  forall w date time user_id last_err,
    message (fst (book_from w date time user_id bases last_err)) <> "".
Proof.
  induction bases as [ | base rest IH ]; intros w date time user_id last_err;
    simpl.
  - discriminate.
  - destruct (http_post w base date time user_id) as [[resp | e] w'].
    + destruct (booking_result date time resp) as [ r | err ] eqn:E.
      * simpl. eapply booking_result_message. exact E.
      * apply IH.
    + apply IH.
Qed.

(** Every result of a tool carries a message. *)
Lemma run_tool_message (today : date) (ex : executor) (w : world) (t : tool)
  (kw : kwargs) :
  message (fst (run_tool today ex w t kw)) <> "".
Proof.
  unfold run_tool, guarded.
  destruct t.
  - unfold try_get_available_slots.
    destruct (validate_booking_params _ _ _) as [ v | e ];
      [ | simpl; discriminate ].
    destruct (negb (valid v)); [ simpl; discriminate | ].
    destruct (bind_kwargs _ _ _); [ | simpl; discriminate ].
    unfold get_available_slots.
    pose proof (get_slots_from_message (api_base_urls ex) w
                  (get_val kw "date") PNone) as H.
    destruct (get_slots_from _ _ _ _). exact H.
  - unfold try_book_appointment_slot.
    destruct (validate_booking_params _ _ _) as [ v | e ];
      [ | simpl; discriminate ].
    destruct (negb (valid v)); [ simpl; discriminate | ].
    destruct (_ || _); [ simpl; discriminate | ].
    destruct (bind_kwargs _ _ _); [ | simpl; discriminate ].
    unfold book_appointment_slot.
    pose proof (book_from_message (api_base_urls ex) w (get_val kw "date")
                  (get_val kw "time") (get_val kw "user_id") PNone) as H.
    destruct (book_from _ _ _ _ _ _). exact H.
Qed.

Lemma execute_tool_call_message (today : date) (ex : executor) (b b' : bot)
  (w w' : world) (fc : function_call) (r : tool_result) :
  execute_tool_call today ex b w fc = (Ok r, b', w') -> message r <> "".
Proof.
  unfold execute_tool_call.
  destruct (name fc =? "get_available_slots").
  - destruct (args fc) as [ a | ]; [ | discriminate ].
    pose proof (run_tool_message today ex w GetAvailableSlots
      [("date", normalize_date today (get_val a "date"))]) as H.
    destruct (run_tool _ _ _ _ _) as [r0 w0].
    intros E. injection E as <- _ _. exact H.
  - destruct (name fc =? "book_appointment_slot").
    + destruct (args fc) as [ a | ]; [ | discriminate ].
      match goal with
      | |- context [run_tool today ex w BookAppointmentSlot ?kw] =>
          pose proof (run_tool_message today ex w BookAppointmentSlot kw) as H;
          destruct (run_tool today ex w BookAppointmentSlot kw) as [r0 w0]
      end.
      intros E. injection E as <- _ _. exact H.
    + intros E. injection E as <- _ _. simpl. discriminate.
Qed.

(** A directive that comes with arguments is always carried out. *)
Lemma execute_tool_call_returns (today : date) (ex : executor) (b : bot)
  (w : world) (fc : function_call) (a : kwargs) :
  args fc = Some a ->
  exists r b' w', execute_tool_call today ex b w fc = (Ok r, b', w').
Proof.
  intros Ha. unfold execute_tool_call. rewrite Ha.
  destruct (name fc =? "get_available_slots").
  - destruct (run_tool _ _ _ _ _) as [r w']. eauto.
  - destruct (name fc =? "book_appointment_slot"); [ | eauto ].
    destruct (run_tool _ _ _ _ _) as [r w']. eauto.
Qed.

(** The one place that says "Unknown function": a directive for a name that
    is no tool is answered with status [error], without a call of
    [safe_execute]. *)
Lemma execute_tool_call_unknown (today : date) (ex : executor) (b : bot)
  (w : world) (fc : function_call) :
  mem (name fc) ["get_available_slots"; "book_appointment_slot"] = false ->
  execute_tool_call today ex b w fc
  = (Ok (ToolResult "error" ("Unknown function: " ++ name fc) NoExtra), b, w).
Proof.
  unfold mem. simpl. intros H. unfold execute_tool_call.
  destruct (name fc =? "get_available_slots"); [ discriminate H | ].
  destruct (name fc =? "book_appointment_slot"); [ discriminate H | ].
  reflexivity.
Qed.

Variable generate_content : list sent -> string -> bool -> result model_response.

(** The protocol always answers, in one of three modes. *)
Lemma tool_protocol_mode (today : date) (ex : executor) (b : bot) (w : world)
  (user_message system_prompt : string) (chat_history : list Conversation.turn)
  (user_id : pyval) :
  In (mode (fst (fst (tool_protocol generate_content today ex b w user_message
                        system_prompt chat_history user_id))))
     ["tool_calling"; "regular"; "error"].
Proof.
  unfold tool_protocol.
  destruct (generate_content _ _ true) as [ first | e ]; [ | simpl; tauto ].
  destruct (candidates first) as [ | c cs ]; [ simpl; tauto | ].
  destruct (content c) as [ ps | ]; [ | simpl; tauto ].
  destruct (first_with_function_call ps) as [ [ fc | ] | ];
    [ | simpl; tauto | simpl; tauto ].
  destruct (execute_tool_call today ex b w fc) as [[[ r | e ] b'] w'];
    [ | simpl; tauto ].
  destruct (generate_content _ _ false); simpl; tauto.
Qed.

(** C7, as the code has it.  When the first part of the first response that
    has a [function_call] attribute holds a directive and the tool call
    returns, the reply is decided by the follow-up call to the model: if it
    returns, the reply text is the tool's own message, for status [success]
    and for any other status alike, with mode [tool_calling] and the tool's
    result attached; if it raises, the reply is the apology with mode
    [error].  Either way a reply is returned. *)
Theorem tool_message_is_the_reply
  (today : date) (ex : executor) (b b' : bot) (w w' : world)
  (user_message system_prompt : string) (chat_history : list Conversation.turn)
  (user_id : pyval) (first : model_response) (c : candidate)
  (cs : list candidate) (ps : list part) (fc : function_call)
  (function_result : tool_result) :
  let gemini_history :=
    (history_contents chat_history ++
     [Content "user" [FromText user_message]])%list in
  let prompt := enhanced_system_prompt system_prompt user_id in
  generate_content gemini_history prompt true = Ok first ->
  candidates first = c :: cs ->
  content c = Some ps ->
  first_with_function_call ps = Some (Some fc) ->
  execute_tool_call today ex b w fc = (Ok function_result, b', w') ->
  tool_protocol generate_content today ex b w user_message system_prompt
    chat_history user_id
  = match generate_content
            (gemini_history ++
             [Content "model" [FromFunctionCall fc];
              Content "user" [FromFunctionResponse (name fc) function_result]])%list
            prompt false with
    | Ok _ =>
        (Reply (message function_result) (Some (name fc))
           (Some function_result) "tool_calling" None, b', w')
    | Raise e => (error_reply e, b', w')
    end.
Proof.
  intros gemini_history prompt H1 Hc Hcontent Hfc Hexec.
  unfold tool_protocol. fold gemini_history. fold prompt.
  rewrite H1, Hc, Hcontent, Hfc, Hexec.
  destruct (generate_content _ prompt false) as [ follow_up | e ];
    [ | reflexivity ].
  pose proof (execute_tool_call_message _ _ _ _ _ _ _ _ Hexec) as Hm.
  rewrite !(or_text_same _ _ Hm).
  destruct (status function_result =? "success"); reflexivity.
Qed.

(** Without the three details of a booking in the message, the orchestrator
    is the two-phase protocol. *)
Lemma generate_response_without_shortcut
  (extract_date extract_time extract_user_id : string -> option string)
  (today : date) (ex : executor) (b : bot) (w : world)
  (user_message system_prompt : string) (chat_history : list Conversation.turn)
  (user_id : pyval) :
  extract_date user_message = None \/ extract_time user_message = None ->
  generate_response_with_tools extract_date extract_time extract_user_id
    generate_content today ex b w user_message system_prompt chat_history
    user_id
  = tool_protocol generate_content today ex b w user_message system_prompt
      chat_history user_id.
Proof.
  intros H. unfold generate_response_with_tools.
  destruct H as [-> | ->]; simpl; rewrite ?andb_false_r; reflexivity.
Qed.

End ToolMessages.

Section ToolMessagesExamples.

Import BookingTools RagCore.

Lemma tool_message_is_the_reply_witness :
  tool_protocol demo_model_up demo_today default_executor (Bot PNone)
    demo_world "Which slots are free on that day?" "" [] (PStr "guest")
  = (Reply
       "Available slots on 2026-11-03: 9:00 AM, 11:00 AM, 1:00 PM, 2:00 PM, 3:00 PM, 4:00 PM"
       (Some "get_available_slots")
       (Some (ToolResult "success"
                "Available slots on 2026-11-03: 9:00 AM, 11:00 AM, 1:00 PM, 2:00 PM, 3:00 PM, 4:00 PM"
                (AvailableSlots ["9:00 AM"; "11:00 AM"; "1:00 PM"; "2:00 PM";
                                 "3:00 PM"; "4:00 PM"])))
       "tool_calling" None,
     Bot (PStr "2026-11-03"),
     World demo_sheet (served demo_world)
       [GET "http://127.0.0.1:5200" (PStr "2026-11-03")]).
Proof.
  apply (tool_message_is_the_reply demo_model_up demo_today default_executor
           (Bot PNone) (Bot (PStr "2026-11-03")) demo_world
           (World demo_sheet (served demo_world)
              [GET "http://127.0.0.1:5200" (PStr "2026-11-03")])
           "Which slots are free on that day?" "" [] (PStr "guest")
           (ModelResponse
              [Candidate
                 (Some [Part None
                          (Present
                             (Some (FunctionCall "get_available_slots"
                                      (Some [("date", PStr "2026-11-03")]))))])]
              None)
           (Candidate
              (Some [Part None
                       (Present
                          (Some (FunctionCall "get_available_slots"
                                   (Some [("date", PStr "2026-11-03")]))))]))
           []
           [Part None
              (Present
                 (Some (FunctionCall "get_available_slots"
                          (Some [("date", PStr "2026-11-03")]))))]
           (FunctionCall "get_available_slots"
              (Some [("date", PStr "2026-11-03")]))
           (ToolResult "success"
              "Available slots on 2026-11-03: 9:00 AM, 11:00 AM, 1:00 PM, 2:00 PM, 3:00 PM, 4:00 PM"
              (AvailableSlots ["9:00 AM"; "11:00 AM"; "1:00 PM"; "2:00 PM";
                               "3:00 PM"; "4:00 PM"])));
    reflexivity.
Defined.

(** C7 as the specification words it fails when the follow-up call to the
    model raises: the first response held a directive, the tool ran and
    returned its message, and the reply is the apology with mode [error]. *)
Lemma follow_up_failure_hides_tool_message :
  generate_response_with_tools finds_nothing finds_nothing finds_nothing
    demo_model demo_today default_executor (Bot PNone) demo_world
    "Which slots are free on that day?" "" [] (PStr "guest")
  = (Reply apology None None "error" (Some "503 UNAVAILABLE"),
     Bot (PStr "2026-11-03"),
     World demo_sheet (served demo_world)
       [GET "http://127.0.0.1:5200" (PStr "2026-11-03")]) /\
  fst (fst (execute_tool_call demo_today default_executor (Bot PNone) demo_world
              (FunctionCall "get_available_slots"
                 (Some [("date", PStr "2026-11-03")]))))
  = Ok (ToolResult "success"
          "Available slots on 2026-11-03: 9:00 AM, 11:00 AM, 1:00 PM, 2:00 PM, 3:00 PM, 4:00 PM"
          (AvailableSlots ["9:00 AM"; "11:00 AM"; "1:00 PM"; "2:00 PM";
                           "3:00 PM"; "4:00 PM"])) /\
  apology
  <> "Available slots on 2026-11-03: 9:00 AM, 11:00 AM, 1:00 PM, 2:00 PM, 3:00 PM, 4:00 PM".
Proof. repeat split; try reflexivity. discriminate. Qed.

End ToolMessagesExamples.
(** ** Text, patterns and printed dates *)

(** Membership of a word in a pattern. *)
Ltac in_pattern := match goal with |- In _ _ => simpl; tauto end.

Section Text.

Import App Conversation.


Lemma is_word_lower_char (c : ascii) : is_word (lower_char c) = is_word c.
Proof. destruct c as [[] [] [] [] [] [] [] []]; reflexivity. Qed.


Lemma is_digit_lower_char (c : ascii) : is_digit c = true -> lower_char c = c.
Proof. destruct c as [[] [] [] [] [] [] [] []]; simpl; intros H; try discriminate H; reflexivity. Qed.

Lemma append_empty (s : string) : s ++ "" = s.
Proof. induction s; simpl; congruence. Qed.

Lemma lower_app (a b : string) : lower (a ++ b) = lower a ++ lower b.
Proof. induction a; simpl; congruence. Qed.


End Text.

Section Matcher.

Import App Conversation.




Lemma get_lower (s : string) : forall n,
  String.get n (lower s) = option_map lower_char (String.get n s).
Proof.
  induction s as [ | c s IH ]; intros [ | n ]; simpl; auto.
Qed.

Lemma is_word_at_lower (o : option ascii) :
  is_word_at (option_map lower_char o) = is_word_at o.
Proof. destruct o; simpl; [ apply is_word_lower_char | reflexivity ]. Qed.




Lemma startswith_contains (k s : string) :
  startswith k s = true -> contains k s = true.
Proof. intros H. destruct s; simpl in *; rewrite H; reflexivity. Qed.

Lemma contains_app_r (k a : string) : forall b,
  contains k b = true -> contains k (a ++ b) = true.
Proof.
  induction a as [ | c a IH ]; intros b H; simpl; [ exact H | ].
  rewrite (IH _ H). apply orb_true_r.
Qed.

Lemma match_lit_suffix (w : string) : forall s r,
  match_lit w s = Some r ->
  startswith (lower w) (lower s) = true /\ exists m, s = m ++ r.
Proof.
  induction w as [ | p w IH ]; intros s r H; simpl in H.
  - injection H as <-. split; [ reflexivity | exists ""; reflexivity ].
  - destruct s as [ | c s ]; [ discriminate H | ].
    destruct (lower_char c =? lower_char p)%char eqn:E; [ | discriminate H ].
    destruct (IH _ _ H) as [Hp [m Hm]]. split.
    + simpl. rewrite Ascii.eqb_sym, E. exact Hp.
    + exists (String c m). simpl. congruence.
Qed.

Lemma skip_spaces_suffix (s : string) :
  exists m, s = m ++ snd (skip_spaces s).
Proof.
  induction s as [ | c s [m Hm] ]; simpl.
  - exists "". reflexivity.
  - destruct (is_space c).
    + destruct (skip_spaces s) as [n r]. simpl in *.
      exists (String c m). simpl. congruence.
    + exists "". reflexivity.
Qed.

(** A match of a pattern holds each of its words. *)
Lemma match_tokens_contains (w : string) (pat : list token) : forall s n,
  In (Lit w) pat -> match_tokens pat s = Some n ->
  contains (lower w) (lower s) = true.
Proof.
  induction pat as [ | t pat IH ]; intros s n Hin Hm; [ contradiction | ].
  destruct t as [ w' | ]; simpl in Hm.
  - destruct (match_lit w' s) as [ r | ] eqn:El; [ | discriminate Hm ].
    destruct (match_tokens pat r) as [ k | ] eqn:Et; [ | discriminate Hm ].
    destruct (match_lit_suffix _ _ _ El) as [Hp [m Hs]].
    destruct Hin as [Heq | Hin].
    + injection Heq as ->. apply startswith_contains. exact Hp.
    + rewrite Hs, lower_app. apply contains_app_r. eapply IH; eauto.
  - destruct Hin as [Heq | Hin]; [ discriminate Heq | ].
    destruct (skip_spaces_suffix s) as [m Hs].
    destruct (skip_spaces s) as [k r]. simpl in Hs.
    destruct k; [ discriminate Hm | ].
    destruct (match_tokens pat r) as [ j | ] eqn:Et; [ | discriminate Hm ].
    rewrite Hs, lower_app. apply contains_app_r. eapply IH; eauto.
Qed.

(** A text that lacks one of the words of the pattern is left as it is. *)
Lemma sub_from_unchanged (w : string) (pat : list token) (repl : string) :
  In (Lit w) pat ->
  forall s prev, contains (lower w) (lower s) = false ->
                 sub_from pat repl 0 prev s = s.
Proof.
  intros Hin. induction s as [ | c s IH ]; intros prev Hc; [ reflexivity | ].
  simpl sub_from.
  assert (Hnone : match_at pat prev (String c s) = None).
  { unfold match_at. destruct (boundary _ _); [ | reflexivity ].
    destruct (match_tokens pat (String c s)) as [ n | ] eqn:E; [ | reflexivity ].
    rewrite (match_tokens_contains _ _ _ _ Hin E) in Hc. discriminate Hc. }
  rewrite Hnone. f_equal. apply IH.
  simpl in Hc. apply orb_false_iff in Hc. apply Hc.
Qed.



Lemma re_sub_unchanged (w : string) (pat : list token) (repl s : string) :
  In (Lit w) pat -> contains (lower w) (lower s) = false ->
  re_sub pat repl s = s.
Proof. intros Hin Hc. apply (sub_from_unchanged w); assumption. Qed.

End Matcher.

Section IsoText.

Import App Conversation.

Lemma digit_is_digit (z : Z) : is_digit (digit z) = true.
Proof.
  unfold digit.
  assert (H : (Z.to_nat (z mod 10) < 10)%nat).
  { pose proof (Z.mod_pos_bound z 10 ltac:(lia)). lia. }
  revert H. generalize (Z.to_nat (z mod 10)). intros n H.
  do 10 (destruct n as [ | n ]; [ reflexivity | ]). lia.
Qed.

Lemma is_digit_is_word (c : ascii) : is_digit c = true -> is_word c = true.
Proof. intros H. unfold is_word. rewrite H. apply orb_true_iff. left. apply orb_true_r. Qed.

Lemma digit_differs (z : Z) (p : ascii) :
  is_digit p = false -> (digit z =? p)%char = false.
Proof.
  intros Hp. destruct (digit z =? p)%char eqn:E; [ | reflexivity ].
  apply Ascii.eqb_eq in E. rewrite <- E, digit_is_digit in Hp. discriminate Hp.
Qed.

(** The ten characters of a printed date. *)
Lemma isoformat_chars (d : date) :
  isoformat d
  = String (digit (year d / 1000)) (String (digit (year d / 100))
    (String (digit (year d / 10)) (String (digit (year d))
    (String "-" (String (digit (month d / 10)) (String (digit (month d))
    (String "-" (String (digit (day d / 10)) (String (digit (day d))
    ""))))))))).
Proof. reflexivity. Qed.

Lemma isoformat_lower (d : date) : lower (isoformat d) = isoformat d.
Proof.
  rewrite isoformat_chars. simpl.
  rewrite !(is_digit_lower_char _ (digit_is_digit _)). reflexivity.
Qed.


Lemma add_days_clock (today : date) :
  clock_date today = true ->
  add_days today 1 = Ok (next_day today) /\
  add_days today 2 = Ok (next_day (next_day today)).
Proof.
  destruct today as [y m dd]. unfold clock_date, valid_date. simpl.
  intros H. repeat (apply andb_true_iff in H; destruct H as [H ?]).
  assert (Hy : (y <= 9998)%Z) by (apply Z.leb_le; assumption).
  unfold add_days. simpl. unfold next_day. simpl.
  destruct (dd <? days_in_month y m)%Z; simpl.
  - assert (E : (y <=? 9999)%Z = true) by (apply Z.leb_le; lia).
    rewrite E. split; [ reflexivity | ].
    destruct (dd + 1 <? days_in_month y m)%Z; simpl;
      [ rewrite E; reflexivity | ].
    destruct (m <? 12)%Z; simpl; [ rewrite E; reflexivity | ].
    assert (E' : (y + 1 <=? 9999)%Z = true) by (apply Z.leb_le; lia).
    rewrite E'. reflexivity.
  - destruct (m <? 12)%Z; simpl.
    + assert (E : (y <=? 9999)%Z = true) by (apply Z.leb_le; lia).
      rewrite E. split; [ reflexivity | ].
      destruct (1 <? days_in_month y (m + 1))%Z; simpl;
        [ rewrite E; reflexivity | ].
      destruct (m + 1 <? 12)%Z; simpl; [ rewrite E; reflexivity | ].
      assert (E' : (y + 1 <=? 9999)%Z = true) by (apply Z.leb_le; lia).
      rewrite E'. reflexivity.
    + assert (E' : (y + 1 <=? 9999)%Z = true) by (apply Z.leb_le; lia).
      rewrite E'. split; reflexivity.
Qed.

End IsoText.

Section NormalizeDate.

Import App Conversation.

Import RagCore.

Lemma normalize_relative_dates_eq (today : date) (s : string) :
  clock_date today = true -> s <> "" ->
  normalize_relative_dates today s
  = Ok (re_sub today_pattern (isoformat today)
          (re_sub tomorrow_pattern (isoformat (next_day today))
             (re_sub day_after_tomorrow_pattern
                (isoformat (next_day (next_day today))) s))).
Proof.
  intros Hc Hs. unfold normalize_relative_dates.
  apply String.eqb_neq in Hs. rewrite Hs.
  destruct (add_days_clock today Hc) as [-> ->]. reflexivity.
Qed.







End NormalizeDate.

Section Occurs.

Import App Conversation.

Import RouterSpec.

Lemma startswith_spec (k : string) : forall s,
  startswith k s = true <-> exists post, s = k ++ post.
Proof.
  induction k as [ | a k IH ]; intros s; simpl.
  - split; [ intros _; exists s; reflexivity | reflexivity ].
  - destruct s as [ | b s ].
    + split; [ discriminate | intros [post H]; discriminate H ].
    + rewrite andb_true_iff, Ascii.eqb_eq, IH. split.
      * intros [-> [post ->]]. exists post. reflexivity.
      * intros [post H]. injection H as -> ->. split; [ reflexivity | eauto ].
Qed.

Lemma contains_spec (k : string) : forall s, contains k s = true <-> occurs k s.
Proof.
  unfold occurs. intros s. split.
  - induction s as [ | c s IH ]; simpl; rewrite orb_true_iff.
    + intros [H | H]; [ | discriminate H ].
      apply startswith_spec in H. destruct H as [post H].
      exists "", post. exact H.
    + intros [H | H].
      * apply (startswith_spec k (String c s)) in H. destruct H as [post H].
        exists "", post. exact H.
      * destruct (IH H) as [pre [post ->]]. exists (String c pre), post.
        reflexivity.
  - intros [pre [post ->]]. apply contains_app_r.
    apply startswith_contains. apply startswith_spec. exists post. reflexivity.
Qed.

Lemma keyword_in_spec (keywords : list string) (s : string) :
  existsb (fun k => contains k s) keywords = true <-> keyword_in keywords s.
Proof.
  unfold keyword_in. rewrite existsb_exists.
  split; intros [k [Hin H]]; exists k; (split; [ exact Hin | ]);
    apply contains_spec; exact H.
Qed.

End Occurs.

Section IsoPattern.

Import App Conversation.

Import RouterSpec.

Local Abbreviation ten y1 y2 y3 y4 m1 m2 d1 d2 rest :=
  (String y1 (String y2 (String y3 (String y4 (String "-"%char
   (String m1 (String m2 (String "-"%char (String d1 (String d2 rest)))))))))).

Local Abbreviation all_digits y1 y2 y3 y4 m1 m2 d1 d2 :=
  (is_digit y1 = true /\ is_digit y2 = true /\ is_digit y3 = true /\
   is_digit y4 = true /\ is_digit m1 = true /\ is_digit m2 = true /\
   is_digit d1 = true /\ is_digit d2 = true).

Lemma scan_ymd_chars (s rest : string) (y m dd : Z) :
  scan_ymd s = Some (y, m, dd, rest) ->
  exists y1 y2 y3 y4 m1 m2 d1 d2,
    s = ten y1 y2 y3 y4 m1 m2 d1 d2 rest /\
    all_digits y1 y2 y3 y4 m1 m2 d1 d2.
Proof.
  unfold scan_ymd.
  destruct s as [ | y1 [ | y2 [ | y3 [ | y4 [ | h1 [ | m1 [ | m2 [ | h2
    [ | d1 [ | d2 r ]]]]]]]]]]; try discriminate.
  destruct (_ && _) eqn:E; [ | discriminate ].
  intros H. injection H as _ _ _ <-.
  do 9 (apply andb_true_iff in E; destruct E as [E ?]).
  repeat match goal with
         | H : (_ =? _)%char = true |- _ => apply Ascii.eqb_eq in H; subst
         end.
  exists y1, y2, y3, y4, m1, m2, d1, d2.
  split; [ reflexivity | repeat split; assumption ].
Qed.

Lemma scan_ymd_ten (y1 y2 y3 y4 m1 m2 d1 d2 : ascii) (rest : string) :
  all_digits y1 y2 y3 y4 m1 m2 d1 d2 ->
  exists y m dd,
    scan_ymd (ten y1 y2 y3 y4 m1 m2 d1 d2 rest) = Some (y, m, dd, rest).
Proof.
  intros (H1 & H2 & H3 & H4 & H5 & H6 & H7 & H8).
  unfold scan_ymd. rewrite H1, H2, H3, H4, H5, H6, H7, H8. simpl.
  eexists _, _, _. reflexivity.
Qed.

Lemma iso_shape_chars (d : string) :
  iso_shape d <->
  exists y1 y2 y3 y4 m1 m2 d1 d2,
    d = ten y1 y2 y3 y4 m1 m2 d1 d2 "" /\
    all_digits y1 y2 y3 y4 m1 m2 d1 d2.
Proof.
  unfold iso_shape, digits. split.
  - intros (y & m & dd & -> & Hy & Hm & Hd & Dy & Dm & Dd).
    destruct y as [ | y1 [ | y2 [ | y3 [ | y4 [ | ? ? ]]]]]; try discriminate Hy.
    destruct m as [ | m1 [ | m2 [ | ? ? ]]]; try discriminate Hm.
    destruct dd as [ | d1 [ | d2 [ | ? ? ]]]; try discriminate Hd.
    simpl in Dy, Dm, Dd.
    repeat match goal with
           | H : _ && _ = true |- _ => apply andb_true_iff in H; destruct H
           end.
    exists y1, y2, y3, y4, m1, m2, d1, d2. repeat split; assumption.
  - intros (y1 & y2 & y3 & y4 & m1 & m2 & d1 & d2 & -> & H).
    destruct H as (H1 & H2 & H3 & H4 & H5 & H6 & H7 & H8).
    exists (String y1 (String y2 (String y3 (String y4 "")))),
           (String m1 (String m2 "")), (String d1 (String d2 "")).
    simpl. rewrite H1, H2, H3, H4, H5, H6, H7, H8. repeat split.
Qed.

Lemma xorb_true_l (b : bool) : xorb true b = negb b.
Proof. destruct b; reflexivity. Qed.

(** The pattern at the head of a text. *)
Lemma iso_at_spec (prev : option ascii) (s : string) :
  iso_at prev s = true <->
  exists d post,
    s = d ++ post /\ iso_shape d /\
    is_word_at prev = false /\ starts_with_word post = false.
Proof.
  unfold iso_at, boundary, starts_with_word. split.
  - intros H. apply andb_true_iff in H. destruct H as [Hb H].
    destruct (scan_ymd s) as [ [[[y m] dd] rest] | ] eqn:E;
      [ | discriminate H ].
    destruct (scan_ymd_chars _ _ _ _ _ E)
      as (y1 & y2 & y3 & y4 & m1 & m2 & d1 & d2 & -> & Hd).
    pose proof Hd as (H1 & _ & _ & _ & _ & _ & _ & H8).
    simpl in Hb, H.
    rewrite (is_digit_is_word _ H1), xorb_true_r in Hb.
    rewrite (is_digit_is_word _ H8), xorb_true_l in H.
    apply negb_true_iff in Hb, H.
    exists (ten y1 y2 y3 y4 m1 m2 d1 d2 ""), rest.
    split; [ reflexivity | ]. split; [ | split; assumption ].
    apply iso_shape_chars. exists y1, y2, y3, y4, m1, m2, d1, d2.
    split; [ reflexivity | exact Hd ].
  - intros (d & post & -> & Hs & Hp & Hn).
    apply iso_shape_chars in Hs.
    destruct Hs as (y1 & y2 & y3 & y4 & m1 & m2 & d1 & d2 & -> & Hd).
    pose proof Hd as (H1 & _ & _ & _ & _ & _ & _ & H8).
    destruct (scan_ymd_ten y1 y2 y3 y4 m1 m2 d1 d2 post Hd)
      as (y & m & dd & E).
    simpl append. rewrite E. simpl.
    rewrite (is_digit_is_word _ H1), (is_digit_is_word _ H8), Hp, Hn.
    reflexivity.
Qed.

Lemma iso_at_nil (prev : option ascii) : iso_at prev "" = false.
Proof. unfold iso_at. apply andb_false_r. Qed.

Lemma search_iso_spec (s : string) : forall prev,
  search_iso prev s = true <->
  exists pre d post,
    s = pre ++ d ++ post /\ iso_shape d /\
    is_word_at (last_of prev pre) = false /\ starts_with_word post = false.
Proof.
  induction s as [ | c s IH ]; intros prev.
  - simpl search_iso. rewrite iso_at_nil. simpl. split; [ discriminate | ].
    intros (pre & d & post & H & Hs & _).
    apply iso_shape_chars in Hs.
    destruct Hs as (y1 & y2 & y3 & y4 & m1 & m2 & d1 & d2 & -> & _).
    destruct pre; discriminate H.
  - simpl search_iso. rewrite orb_true_iff, iso_at_spec, IH. split.
    + intros [ (d & post & H) | (pre & d & post & -> & H) ].
      * exists "", d, post. exact H.
      * exists (String c pre), d, post. split; [ reflexivity | exact H ].
    + intros ([ | c' pre ] & d & post & H & Hrest).
      * left. exists d, post. split; [ exact H | exact Hrest ].
      * right. injection H as -> ->. exists pre, d, post.
        split; [ reflexivity | exact Hrest ].
Qed.

Lemma contains_iso_date_spec (s : string) :
  contains_iso_date s = true <-> iso_date_in s.
Proof. unfold contains_iso_date, iso_date_in. apply search_iso_spec. Qed.

End IsoPattern.

Section IsoLower.

Import App Conversation.

Lemma is_digit_lower (c : ascii) : is_digit (lower_char c) = is_digit c.
Proof. destruct c as [[] [] [] [] [] [] [] []]; reflexivity. Qed.

Lemma hyphen_lower (c : ascii) : (lower_char c =? "-")%char = (c =? "-")%char.
Proof. destruct c as [[] [] [] [] [] [] [] []]; reflexivity. Qed.

Lemma scan_ymd_lower (s : string) :
  scan_ymd (lower s)
  = match scan_ymd s with
    | Some (y, m, dd, rest) => Some (y, m, dd, lower rest)
    | None => None
    end.
Proof.
  destruct s as [ | y1 [ | y2 [ | y3 [ | y4 [ | h1 [ | m1 [ | m2 [ | h2
    [ | d1 [ | d2 r ]]]]]]]]]]; try reflexivity.
  simpl lower. unfold scan_ymd.
  rewrite !is_digit_lower, !hyphen_lower.
  destruct (_ && _) eqn:E; [ | reflexivity ].
  do 9 (apply andb_true_iff in E; destruct E as [E ?]).
  rewrite !is_digit_lower_char by assumption. reflexivity.
Qed.

Lemma iso_at_lower (prev : option ascii) (s : string) :
  iso_at (option_map lower_char prev) (lower s) = iso_at prev s.
Proof.
  unfold iso_at, boundary.
  rewrite scan_ymd_lower, !get_lower, !is_word_at_lower.
  destruct (scan_ymd s) as [ [[[y m] dd] rest] | ]; [ | reflexivity ].
  rewrite !get_lower, !is_word_at_lower. reflexivity.
Qed.

Lemma search_iso_lower (s : string) : forall prev,
  search_iso (option_map lower_char prev) (lower s) = search_iso prev s.
Proof.
  induction s as [ | c s IH ]; intros prev.
  - simpl. rewrite !iso_at_nil. reflexivity.
  - simpl search_iso. rewrite <- (IH (Some c)).
    change (String (lower_char c) (lower s)) with (lower (String c s)).
    rewrite iso_at_lower. reflexivity.
Qed.

Lemma contains_iso_date_lower (s : string) :
  contains_iso_date (lower s) = contains_iso_date s.
Proof. apply (search_iso_lower s None). Qed.

End IsoLower.

Section Router.

Import App Conversation.

Import RouterSpec.

Lemma contains_date_spec (s : string) :
  contains_iso_date (lower s) || contains_relative_date (lower s) = true
  <-> date_in s.
Proof.
  unfold date_in, contains_relative_date.
  rewrite orb_true_iff, contains_iso_date_lower, contains_iso_date_spec.
  rewrite (keyword_in_spec ["today"; "tomorrow"; "day after tomorrow"]).
  reflexivity.
Qed.

Lemma has_booking_context_spec (history : list turn) :
  has_booking_context history = true <->
  exists t, In t (last_n 3 history) /\ role t = "model" /\
            keyword_in context_keywords (lower (text t)).
Proof.
  unfold has_booking_context. rewrite existsb_exists.
  split; intros [t [Hin H]]; exists t; (split; [ exact Hin | ]).
  - apply andb_true_iff in H. destruct H as [Hr Hk].
    apply String.eqb_eq in Hr. apply keyword_in_spec in Hk. tauto.
  - destruct H as [Hr Hk]. apply andb_true_iff. split.
    + apply String.eqb_eq. exact Hr.
    + apply keyword_in_spec. exact Hk.
Qed.

Lemma history_contains_date_spec (history : list turn) :
  history_contains_date history = true <->
  exists t, In t (last_n 5 history) /\ date_in (text t).
Proof.
  unfold history_contains_date. rewrite existsb_exists.
  split; intros [t [Hin H]]; exists t; (split; [ exact Hin | ]);
    apply contains_date_spec; exact H.
Qed.

Lemma should_enable_tools_spec (message : string) (history : list turn) :
  should_enable_tools message history = true <->
  booking_intent message history /\ has_date message history.
Proof.
  unfold should_enable_tools, booking_intent, has_date.
  rewrite andb_true_iff, !orb_true_iff.
  rewrite (keyword_in_spec App.booking_keywords), has_booking_context_spec.
  rewrite <- (orb_true_iff (contains_iso_date _)), contains_date_spec.
  rewrite history_contains_date_spec.
  reflexivity.
Qed.

End Router.

Section Sentences.

Import App Conversation.

Import RouterSpec.

Lemma startswith_app (k a b : string) :
  startswith k a = true -> startswith k (a ++ b) = true.
Proof.
  revert a. induction k as [ | p k IH ]; intros a H; [ reflexivity | ].
  destruct a as [ | c a ]; [ discriminate H | ]. simpl in *.
  apply andb_true_iff in H. destruct H as [-> H]. simpl. apply IH. exact H.
Qed.

Lemma contains_app_l (k a b : string) :
  contains k a = true -> contains k (a ++ b) = true.
Proof.
  induction a as [ | c a IH ]; simpl; intros H.
  - destruct k; [ destruct b; reflexivity | discriminate H ].
  - apply orb_true_iff in H. destruct H as [H | H].
    + pose proof (startswith_app _ (String c a) b H) as E. simpl in E.
      rewrite E. reflexivity.
    + rewrite (IH H). apply orb_true_r.
Qed.

(** A word is not found inside a run of characters other than its first. *)
Lemma contains_plain_run (p : ascii) (w : string) (mid post : string) :
  all_chars (fun c => negb (p =? c)%char) mid = true ->
  contains (String p w) (mid ++ post) = contains (String p w) post.
Proof.
  induction mid as [ | c mid IH ]; intros H; [ reflexivity | ].
  simpl in H. apply andb_true_iff in H. destruct H as [Hc H].
  apply negb_true_iff in Hc. simpl. rewrite Hc. simpl. apply IH. exact H.
Qed.

Lemma contains_cons_skip (p c : ascii) (w s : string) :
  (p =? c)%char = false ->
  contains (String p w) (String c s) = contains (String p w) s.
Proof. intros H. simpl. rewrite H. reflexivity. Qed.

Lemma isoformat_plain (d : date) (p : ascii) :
  is_digit p = false -> (p =? "-")%char = false ->
  all_chars (fun c => negb (p =? c)%char) (isoformat d) = true.
Proof.
  intros Hp Hh. rewrite isoformat_chars. cbn [all_chars].
  rewrite !(Ascii.eqb_sym p (digit _)), !(digit_differs _ _ Hp), Hh.
  reflexivity.
Qed.

Lemma isoformat_shape (d : date) : iso_shape (isoformat d).
Proof.
  apply iso_shape_chars. rewrite isoformat_chars.
  do 8 eexists. split; [ reflexivity | ].
  repeat split; apply digit_is_digit.
Qed.

(** The first example of the specification. *)
Lemma refund_policy_tools_off (today : date) :
  clock_date today = true ->
  enable_tools today "What is your refund policy?" [] = Ok false.
Proof.
  intros Hc. unfold enable_tools.
  rewrite normalize_relative_dates_eq by first [ assumption | discriminate ].
  rewrite (re_sub_unchanged "tomorrow" day_after_tomorrow_pattern)
    by first [ in_pattern | reflexivity ].
  rewrite (re_sub_unchanged "tomorrow" tomorrow_pattern)
    by first [ in_pattern | reflexivity ].
  rewrite (re_sub_unchanged "today" today_pattern)
    by first [ in_pattern | reflexivity ].
  reflexivity.
Qed.

Lemma re_sub_tomorrow_in_sentence (repl : string) :
  re_sub tomorrow_pattern repl "Can I book a wash tomorrow?"
  = "Can I book a wash " ++ repl ++ "?".
Proof. reflexivity. Qed.

Lemma book_a_wash_normalized (today : date) :
  clock_date today = true ->
  normalize_relative_dates today "Can I book a wash tomorrow?"
  = Ok ("Can I book a wash " ++ isoformat (next_day today) ++ "?").
Proof.
  intros Hc.
  rewrite normalize_relative_dates_eq by first [ assumption | discriminate ].
  rewrite (re_sub_unchanged "day" day_after_tomorrow_pattern)
    by first [ in_pattern | reflexivity ].
  rewrite re_sub_tomorrow_in_sentence.
  rewrite (re_sub_unchanged "today" today_pattern); [ reflexivity | in_pattern | ].
  rewrite !lower_app, isoformat_lower.
  change (lower "Can I book a wash ") with "can i book a wash ".
  change (lower "today") with "today". change (lower "?") with "?".
  cbn [append].
  rewrite !contains_cons_skip by reflexivity.
  rewrite contains_plain_run by (apply isoformat_plain; reflexivity).
  reflexivity.
Qed.



Lemma book_a_wash_tools_on (today : date) :
  clock_date today = true ->
  enable_tools today "Can I book a wash tomorrow?" [] = Ok true.
Proof.
  intros Hc. unfold enable_tools. rewrite book_a_wash_normalized by assumption.
  change (Ok (should_enable_tools
                ("Can I book a wash " ++ isoformat (next_day today) ++ "?") [])
          = Ok true).
  f_equal. apply should_enable_tools_spec. split.
  - left. exists "book". split; [ simpl; tauto | ].
    apply contains_spec. rewrite lower_app. apply contains_app_l. reflexivity.
  - left. left.
    exists "Can I book a wash ", (isoformat (next_day today)), "?".
    split; [ reflexivity | ]. split; [ apply isoformat_shape | ].
    split; reflexivity.
Qed.

End Sentences.

(** ** The date rules (claim C5) *)

Section DateRules.

Import RagCore App.




End DateRules.

(** ** The decision to enable the tools (claim C2) *)

Section IntentRouter.

Import App RouterSpec.

(** C2.  [should_enable_tools] holds exactly when (a booking keyword occurs
    in the lowercased message, or a turn of the model among the last three
    of the history holds a booking-context keyword) and (the message holds
    an ISO date pattern or, lowercased, a relative date word, or one of the
    last five turns of the history holds a date).  Without history the
    answer is no for "What is your refund policy?" and yes for
    "Can I book a wash tomorrow?", and so it is on any day of the clock
    when the handlers have first replaced the relative dates of the
    message, as they do. *)
Theorem should_enable_tools_decision :
  (forall message history,
     should_enable_tools message history = true <->
     booking_intent message history /\ has_date message history) /\
  should_enable_tools "What is your refund policy?" [] = false /\
  should_enable_tools "Can I book a wash tomorrow?" [] = true /\
  (forall today, clock_date today = true ->
     enable_tools today "What is your refund policy?" [] = Ok false /\
     enable_tools today "Can I book a wash tomorrow?" [] = Ok true).
Proof.
  split; [ apply should_enable_tools_spec | ].
  split; [ reflexivity | ]. split; [ reflexivity | ].
  intros today Hc. split.
  - apply refund_policy_tools_off. exact Hc.
  - apply book_a_wash_tools_on. exact Hc.
Qed.

Lemma should_enable_tools_decision_witness :
  enable_tools demo_today "What is your refund policy?" [] = Ok false /\
  enable_tools demo_today "Can I book a wash tomorrow?" [] = Ok true.
Proof.
  apply (proj2 (proj2 (proj2 should_enable_tools_decision)) demo_today).
  reflexivity.
Defined.

End IntentRouter.

(** * Further properties of the code *)

(** ** Dates that pass the validation *)

Section CalendarRoundTrip.

Import BookingTools RagCore.
Local Open Scope Z_scope.

Lemma digit_val_digit (z : Z) : digit_val (digit z) = z mod 10.
Proof.
  unfold digit.
  pose proof (Z.mod_pos_bound z 10 ltac:(lia)) as Hb.
  rewrite <- (Z2Nat.id (z mod 10)) at 2 by lia.
  assert (H : (Z.to_nat (z mod 10) < 10)%nat) by lia.
  revert H. generalize (Z.to_nat (z mod 10)). intros n H.
  do 10 (destruct n as [ | n ]; [ reflexivity | ]). lia.
Qed.

Lemma two_digits (z : Z) :
  0 <= z <= 99 -> 10 * ((z / 10) mod 10) + z mod 10 = z.
Proof.
  intros Hz.
  pose proof (Z.div_mod z 10 ltac:(lia)).
  pose proof (Z.mod_pos_bound z 10 ltac:(lia)).
  assert (Hs : z / 10 < 10) by (apply Z.div_lt_upper_bound; lia).
  assert (Hp : 0 <= z / 10) by (apply Z.div_pos; lia).
  rewrite (Z.mod_small (z / 10)) by lia. lia.
Qed.

Lemma four_digits (y : Z) :
  0 <= y <= 9999 ->
  1000 * ((y / 1000) mod 10) + 100 * ((y / 100) mod 10) +
  10 * ((y / 10) mod 10) + y mod 10 = y.
Proof.
  intros Hy.
  replace (y / 1000) with (y / 10 / 10 / 10)
    by (rewrite !Z.div_div by lia; reflexivity).
  replace (y / 100) with (y / 10 / 10)
    by (rewrite !Z.div_div by lia; reflexivity).
  pose proof (Z.div_mod y 10 ltac:(lia)).
  pose proof (Z.div_mod (y / 10) 10 ltac:(lia)).
  pose proof (Z.div_mod (y / 10 / 10) 10 ltac:(lia)).
  pose proof (Z.div_mod (y / 10 / 10 / 10) 10 ltac:(lia)).
  pose proof (Z.mod_pos_bound y 10 ltac:(lia)).
  pose proof (Z.mod_pos_bound (y / 10) 10 ltac:(lia)).
  pose proof (Z.mod_pos_bound (y / 10 / 10) 10 ltac:(lia)).
  pose proof (Z.mod_pos_bound (y / 10 / 10 / 10) 10 ltac:(lia)).
  assert (y / 10 / 10 / 10 / 10 = 0)
    by (rewrite !Z.div_div by lia; apply Z.div_small; lia).
  generalize dependent (y mod 10). generalize dependent ((y / 10) mod 10).
  generalize dependent ((y / 10 / 10) mod 10).
  generalize dependent ((y / 10 / 10 / 10) mod 10).
  generalize dependent (y / 10 / 10 / 10 / 10).
  generalize dependent (y / 10 / 10 / 10).
  generalize dependent (y / 10 / 10).
  generalize dependent (y / 10).
  intros. lia.
Qed.

Lemma scan_ymd_isoformat (d : date) (rest : string) :
  0 <= year d <= 9999 -> 0 <= month d <= 99 -> 0 <= day d <= 99 ->
  scan_ymd (isoformat d ++ rest) = Some (year d, month d, day d, rest).
Proof.
  intros Hy Hm Hd. rewrite isoformat_chars. cbn [append].
  unfold scan_ymd. rewrite !digit_is_digit. cbn [andb Ascii.eqb Bool.eqb].
  rewrite !digit_val_digit.
  rewrite (four_digits _ Hy), (two_digits _ Hm), (two_digits _ Hd).
  reflexivity.
Qed.

Lemma valid_date_bounds (d : date) :
  valid_date d = true ->
  1 <= year d <= 9999 /\ 1 <= month d <= 12 /\
  1 <= day d <= days_in_month (year d) (month d).
Proof.
  unfold valid_date. intros H.
  repeat (apply andb_true_iff in H; destruct H as [H ?]).
  repeat match goal with
         | H : (_ <=? _) = true |- _ => apply Z.leb_le in H
         end.
  lia.
Qed.

Lemma days_in_month_bounds (y m : Z) : 28 <= days_in_month y m <= 31.
Proof.
  unfold days_in_month.
  destruct (m =? 2); [ destruct (is_leap y); lia | ].
  destruct (_ || _); lia.
Qed.

(** Printing a date and reading it back gives the date. *)
Lemma strptime_isoformat (d : date) :
  valid_date d = true -> strptime (isoformat d) = Ok d.
Proof.
  intros Hv. pose proof (valid_date_bounds d Hv) as (Hy & Hm & Hd).
  pose proof (days_in_month_bounds (year d) (month d)).
  unfold strptime. rewrite <- (append_empty (isoformat d)).
  rewrite scan_ymd_isoformat by lia. simpl.
  destruct d as [y m dd]. simpl in *. rewrite Hv. reflexivity.
Qed.

Lemma match_date_pattern_isoformat (d : date) :
  valid_date d = true -> match_date_pattern (isoformat d) = true.
Proof.
  intros Hv. pose proof (valid_date_bounds d Hv) as (Hy & Hm & Hd).
  pose proof (days_in_month_bounds (year d) (month d)).
  unfold match_date_pattern. rewrite <- (append_empty (isoformat d)).
  rewrite scan_ymd_isoformat by lia. reflexivity.
Qed.

Lemma date_errors_isoformat (today d : date) :
  valid_date d = true ->
  date_errors today (isoformat d)
  = if date_ltb d today then ["Cannot book appointments in the past"] else [].
Proof.
  intros Hv. unfold date_errors.
  rewrite match_date_pattern_isoformat, strptime_isoformat by assumption.
  reflexivity.
Qed.

Lemma next_day_valid (d : date) :
  valid_date d = true -> year d <= 9998 -> valid_date (next_day d) = true.
Proof.
  intros Hv Hy. pose proof (valid_date_bounds d Hv) as (Hy' & Hm & Hd).
  destruct d as [y m dd]. simpl in *.
  unfold next_day. simpl.
  destruct (Z.ltb_spec dd (days_in_month y m)).
  - unfold valid_date. simpl.
    repeat (apply andb_true_iff; split); apply Z.leb_le; lia.
  - destruct (Z.ltb_spec m 12).
    + unfold valid_date. simpl.
      pose proof (days_in_month_bounds y (m + 1)).
      repeat (apply andb_true_iff; split); apply Z.leb_le; lia.
    + unfold valid_date. simpl.
      pose proof (days_in_month_bounds (y + 1) 1).
      repeat (apply andb_true_iff; split); apply Z.leb_le; lia.
Qed.

Lemma date_ltb_irrefl (d : date) : date_ltb d d = false.
Proof.
  unfold date_ltb. rewrite !Z.ltb_irrefl, !Z.eqb_refl. reflexivity.
Qed.

Lemma date_ltb_next_day (d : date) :
  valid_date d = true -> date_ltb (next_day d) d = false.
Proof.
  intros Hv. pose proof (valid_date_bounds d Hv) as (Hy' & Hm & Hd).
  destruct d as [y m dd]. simpl in *. unfold next_day, date_ltb. simpl.
  destruct (Z.ltb_spec dd (days_in_month y m));
    [ | destruct (Z.ltb_spec m 12) ]; simpl;
    repeat match goal with
           | |- context [ ?a <? ?b ] => destruct (Z.ltb_spec a b); try lia
           | |- context [ ?a =? ?b ] => destruct (Z.eqb_spec a b); try lia
           end; reflexivity.
Qed.

(** X1.  For a date the calendar holds, written the way [isoformat] writes
    it, and a time that passes the time check, [validate_booking_params]
    accepts the date exactly when it is not before today: the outcome is
    valid with no error, or invalid with the one error about the past. *)
Theorem validate_booking_params_past_rule (today d : date) (time : pyval) :
  valid_date d = true -> time_errors time = [] ->
  validate_booking_params today (PStr (isoformat d)) time
  = Ok (if date_ltb d today
        then Validation false ["Cannot book appointments in the past"]
        else Validation true []).
Proof.
  intros Hv Ht. unfold validate_booking_params.
  rewrite date_errors_isoformat, Ht by assumption.
  destruct (date_ltb d today); reflexivity.
Qed.

Lemma validate_booking_params_past_rule_witness :
  validate_booking_params (mkdate 2026 11 3) (PStr (isoformat (mkdate 2026 11 4)))
    (PStr "9:00 AM")
  = Ok (Validation true []) /\
  validate_booking_params (mkdate 2026 11 3) (PStr (isoformat (mkdate 2026 11 2)))
    (PStr "9:00 AM")
  = Ok (Validation false ["Cannot book appointments in the past"]).
Proof.
  split.
  - apply (validate_booking_params_past_rule (mkdate 2026 11 3) (mkdate 2026 11 4)
             (PStr "9:00 AM")); reflexivity.
  - apply (validate_booking_params_past_rule (mkdate 2026 11 3) (mkdate 2026 11 2)
             (PStr "9:00 AM")); reflexivity.
Defined.

(** X2.  What [normalize_date] makes of the words today and tomorrow, in
    any case and with white space around them, always passes
    [validate_booking_params]: the date it writes is well formed and not in
    the past.  The clock shows a date that has a tomorrow. *)
Theorem normalize_date_output_validates (today : date) (s : string) :
  clock_date today = true ->
  lower (strip s) = "today" \/ lower (strip s) = "tomorrow" ->
  validate_booking_params today (normalize_date today (PStr s)) PNone
  = Ok (Validation true []).
Proof.
  intros Hc Hs. pose proof (add_days_clock today Hc) as [E1 _].
  unfold clock_date in Hc.
  apply andb_true_iff in Hc as [Hc Hy]. apply andb_true_iff in Hc as [Hv _].
  apply Z.leb_le in Hy.
  unfold normalize_date. destruct Hs as [-> | ->]; simpl String.eqb; cbv iota.
  - unfold validate_booking_params.
    rewrite date_errors_isoformat, date_ltb_irrefl by assumption. reflexivity.
  - rewrite E1. unfold validate_booking_params.
    rewrite date_errors_isoformat by (apply next_day_valid; assumption).
    rewrite date_ltb_next_day by assumption. reflexivity.
Qed.

Lemma normalize_date_output_validates_witness :
  validate_booking_params (mkdate 2026 11 3)
    (normalize_date (mkdate 2026 11 3) (PStr " Tomorrow ")) PNone
  = Ok (Validation true []).
Proof.
  apply (normalize_date_output_validates (mkdate 2026 11 3) " Tomorrow ");
    [ reflexivity | right; reflexivity ].
Defined.

End CalendarRoundTrip.

(** ** What the executor sends and writes *)

Section ExecutorRequests.

Import ApiFunctions AppointmentRoutes BookingTools.

Lemma slots_result_status (date : pyval) (b : body) :
  In (status (slots_result date b)) ["success"; "no_slots"; "error"].
Proof.
  destruct b as [l | [ | kv o ]]; [ | simpl; tauto | simpl; tauto ].
  unfold slots_result.
  destruct (map _ _) as [ | x xs ]; [ simpl; tauto | ].
  destruct (first_none (x :: xs)); simpl; tauto.
Qed.

Lemma get_slots_from_status (bases : list string) :
  forall (w : world) (date last_err : pyval),
    In (status (fst (get_slots_from w date bases last_err)))
       ["success"; "no_slots"; "error"].
Proof.
  induction bases as [ | base rest IH ]; intros w date last_err; simpl.
  - tauto.
  - unfold http_get. destruct (mem base (served w)).
    + destruct (status_code (handle_get (store w) date) =? 200)%nat.
      * apply slots_result_status.
      * apply IH.
    + apply IH.
Qed.

Lemma booking_result_status (date time : pyval) (r : AppointmentRoutes.response)
  (t : tool_result) :
  booking_result date time r = inl t ->
  In (status t) ["success"; "already_booked"; "error"].
Proof.
  unfold booking_result. destruct (json r) as [ l | o ].
  - intros [= <-]. simpl. tauto.
  - destruct (_ || _ || _).
    + intros [= <-]. simpl. tauto.
    + destruct (status_code r =? 409)%nat; [ | discriminate ].
      intros [= <-]. simpl. tauto.
Qed.

Lemma book_from_status (bases : list string) :
  forall (w : world) (date time user_id last_err : pyval),
    In (status (fst (book_from w date time user_id bases last_err)))
       ["success"; "already_booked"; "error"].
Proof.
  induction bases as [ | base rest IH ]; intros w date time user_id last_err;
    simpl.
  - tauto.
  - unfold http_post. destruct (mem base (served w)).
    + destruct (handle_post (store w) date time user_id) as [r sh'].
      destruct (booking_result date time r) as [ t | err ] eqn:E.
      * simpl. eapply booking_result_status, E.
      * apply IH.
    + apply IH.
Qed.

(** X3.  Whenever [safe_execute] reports [validation_error] or
    [execution_error], under any function name, no request was sent and the
    worksheet is as before: the world is unchanged. *)
Theorem safe_execute_rejection_sends_nothing (today : date) (ex : executor)
  (w w' : world) (function_name : string) (kw : kwargs) (r : tool_result) :
  safe_execute today ex w function_name kw = (Some r, w') ->
  status r = "validation_error" \/ status r = "execution_error" ->
  w' = w.
Proof.
  unfold safe_execute, run_tool.
  destruct (function_name =? "get_available_slots").
  - unfold try_get_available_slots.
    destruct (validate_booking_params today (get_val kw "date") PNone)
      as [ v | e ]; simpl; [ | intros [= _ <-]; reflexivity ].
    destruct (negb (valid v)); simpl; [ intros [= _ <-]; reflexivity | ].
    destruct (bind_kwargs _ _ kw); simpl; [ | intros [= _ <-]; reflexivity ].
    pose proof (get_slots_from_status (api_base_urls ex) w (get_val kw "date") PNone)
      as Hs.
    unfold get_available_slots.
    destruct (get_slots_from _ _ _ _) as [r0 w0]. simpl in *.
    intros [= <- <-] [E | E]; rewrite E in Hs;
      repeat destruct Hs as [Hs | Hs]; discriminate || contradiction.
  - destruct (function_name =? "book_appointment_slot").
    + unfold try_book_appointment_slot.
      destruct (validate_booking_params today (get_val kw "date")
                  (get_val kw "time")) as [ v | e ]; simpl;
        [ | intros [= _ <-]; reflexivity ].
      destruct (negb (valid v)); simpl; [ intros [= _ <-]; reflexivity | ].
      destruct (_ || _); simpl; [ intros [= _ <-]; reflexivity | ].
      destruct (bind_kwargs _ _ kw); simpl; [ | intros [= _ <-]; reflexivity ].
      pose proof (book_from_status (api_base_urls ex) w (get_val kw "date")
                    (get_val kw "time") (get_val kw "user_id") PNone) as Hs.
      unfold book_appointment_slot.
      destruct (book_from _ _ _ _ _ _) as [r0 w0]. simpl in *.
      intros [= <- <-] [E | E]; rewrite E in Hs;
        repeat destruct Hs as [Hs | Hs]; discriminate || contradiction.
    + destruct (is_dunder function_name); [ discriminate | ].
      intros [= _ <-]. reflexivity.
Qed.

Lemma safe_execute_rejection_sends_nothing_witness :
  snd (safe_execute Demo.demo_today default_executor Demo.demo_world
         "get_available_slots" [("date", PStr "next week")])
  = Demo.demo_world.
Proof.
  eapply (safe_execute_rejection_sends_nothing Demo.demo_today default_executor
            Demo.demo_world _ "get_available_slots"
            [("date", PStr "next week")]);
    [ reflexivity | left; reflexivity ].
Defined.

Lemma world_eta (w : world) : World (store w) (served w) (log w) = w.
Proof. destruct w; reflexivity. Qed.

Lemma get_slots_from_world (bases : list string) :
  forall (w : world) (date last_err : pyval),
  exists k,
    snd (get_slots_from w date bases last_err)
    = World (store w) (served w)
        (log w ++ map (fun base => GET base date) (firstn k bases)).
Proof.
  induction bases as [ | base rest IH ]; intros w date last_err.
  - exists 0. simpl. rewrite app_nil_r. symmetry. apply world_eta.
  - simpl. unfold http_get.
    set (w1 := World (store w) (served w) (log w ++ [GET base date])).
    assert (Hrest : forall e, exists k,
               snd (get_slots_from w1 date rest e)
               = World (store w) (served w)
                   (log w ++ map (fun base => GET base date)
                                 (firstn k (base :: rest)))).
    { intros e. destruct (IH w1 date e) as [k Hk]. exists (S k).
      rewrite Hk. simpl. rewrite <- app_assoc. reflexivity. }
    destruct (mem base (served w)).
    + destruct (status_code (handle_get (store w) date) =? 200)%nat.
      * exists 1. reflexivity.
      * apply Hrest.
    + apply Hrest.
Qed.

(** X4.  A slot lookup through [safe_execute] never writes: the worksheet
    and the served addresses are as before, and what it adds to the requests
    sent are GET requests for the date of the call, to the configured
    addresses in their order, one for each address tried. *)
Theorem lookup_never_writes (today : date) (ex : executor) (w : world)
  (kw : kwargs) :
  exists k,
    snd (safe_execute today ex w "get_available_slots" kw)
    = World (store w) (served w)
        (log w ++ map (fun base => GET base (get_val kw "date"))
                      (firstn k (api_base_urls ex))).
Proof.
  assert (Hsame : exists k,
             w = World (store w) (served w)
                   (log w ++ map (fun base => GET base (get_val kw "date"))
                                 (firstn k (api_base_urls ex)))).
  { exists 0. simpl. rewrite app_nil_r. symmetry. apply world_eta. }
  rewrite safe_execute_get. unfold run_tool, try_get_available_slots.
  destruct (validate_booking_params today (get_val kw "date") PNone)
    as [ v | e ]; simpl; [ | exact Hsame ].
  destruct (negb (valid v)); simpl; [ exact Hsame | ].
  destruct (bind_kwargs _ _ kw); simpl; [ | exact Hsame ].
  unfold get_available_slots.
  destruct (get_slots_from_world (api_base_urls ex) w (get_val kw "date") PNone)
    as [k Hk].
  exists k. destruct (get_slots_from _ _ _ _) as [r0 w0]. exact Hk.
Qed.

Lemma book_slot_cases (sh : sheet) (d t u : string) :
  (exists m, book_slot sh d t u = (error_obj m, sh)) \/
  field (fst (book_slot sh d t u)) "status" = "Success".
Proof.
  unfold book_slot. destruct sh as [ | headers rows ]; [ left; eauto | ].
  destruct (index_of "Date" headers) as [ date_col | ]; [ | left; eauto ].
  destruct (find_row date_col d rows) as [ df_index | ]; [ | left; eauto ].
  destruct (index_of t headers) as [ i | ]; [ | left; eauto ].
  destruct (_ && _); [ left; eauto | right; reflexivity ].
Qed.

Lemma handle_post_cases (sh : sheet) (d t u : pyval) :
  (exists ds ts us,
      d = PStr ds /\ t = PStr ts /\ u = PStr us /\
      (ds =? "") || (ts =? "") || (us =? "") = false /\
      field (fst (book_slot sh ds ts us)) "status" = "Success" /\
      handle_post sh d t u
      = (Response 201 (BObj (fst (book_slot sh ds ts us))),
         snd (book_slot sh ds ts us))) \/
  (exists code o,
      handle_post sh d t u = (Response code (BObj o), sh) /\
      In code [400; 409; 500] /\ In (field o "status") ["Error"; ""]).
Proof.
  unfold handle_post.
  destruct d as [ | ds ]; [ right; do 2 eexists; split; [ reflexivity | split; simpl; auto 10 ] | ].
  destruct t as [ | ts ]; [ right; do 2 eexists; split; [ reflexivity | split; simpl; auto 10 ] | ].
  destruct u as [ | us ]; [ right; do 2 eexists; split; [ reflexivity | split; simpl; auto 10 ] | ].
  destruct (_ || _ || _) eqn:Ee;
    [ right; do 2 eexists; split; [ reflexivity | split; simpl; auto 10 ] | ].
  destruct (book_slot_cases sh ds ts us) as [[m E] | E].
  - right. rewrite E. simpl.
    destruct (contains _ _); do 2 eexists;
      (split; [ reflexivity | split; simpl; auto 10 ]).
  - left. exists ds, ts, us. repeat split; try assumption.
    destruct (book_slot sh ds ts us) as [o sh']. simpl in *. rewrite E.
    reflexivity.
Qed.

(** X5.  The POST route answers 201, 400, 409 or 500.  Under any status
    other than 201 the worksheet is unchanged; under 201 the three fields
    were non-empty text, [book_slot] succeeded and the worksheet is the one
    it left. *)
Theorem handle_post_status_codes (sh : sheet) (d t u : pyval) :
  In (status_code (fst (handle_post sh d t u))) [201; 400; 409; 500] /\
  (status_code (fst (handle_post sh d t u)) <> 201 ->
   snd (handle_post sh d t u) = sh) /\
  (status_code (fst (handle_post sh d t u)) = 201 ->
   exists ds ts us,
     d = PStr ds /\ t = PStr ts /\ u = PStr us /\
     (ds =? "") || (ts =? "") || (us =? "") = false /\
     handle_post sh d t u = (Response 201 (BObj (fst (book_slot sh ds ts us))),
                             snd (book_slot sh ds ts us)) /\
     field (fst (book_slot sh ds ts us)) "status" = "Success").
Proof.
  destruct (handle_post_cases sh d t u)
    as [(ds & ts & us & -> & -> & -> & Hne & Hok & E) | (code & o & E & Hc & Hs)];
    rewrite E; simpl fst; simpl snd; cbn [status_code].
  - split; [ simpl; auto | ]. split; [ congruence | ].
    intros _. exists ds, ts, us. auto 10.
  - split; [ simpl in *; tauto | ]. split; [ reflexivity | ].
    intros ->. simpl in Hc. repeat destruct Hc as [Hc | Hc]; discriminate || contradiction.
Qed.

Lemma booking_result_refused (d t : pyval) (code : nat) (o : obj) :
  In code [400; 409; 500] -> In (field o "status") ["Error"; ""] ->
  (exists m, booking_result d t (Response code (BObj o))
             = inl (ToolResult "already_booked" m NoExtra)) \/
  (exists e, booking_result d t (Response code (BObj o)) = inr e).
Proof.
  intros Hc Hs. unfold booking_result. cbn [json status_code].
  assert (E : mem (lower (field o "status")) ["success"; "ok"; "booked"] = false).
  { destruct Hs as [<- | [<- | []]]; reflexivity. }
  rewrite E.
  destruct Hc as [<- | [<- | [<- | []]]]; simpl; eauto.
Qed.

Lemma booking_result_created (d t : pyval) (o : obj) :
  exists m, booking_result d t (Response 201 (BObj o))
            = inl (ToolResult "success" m (BookingDetails o)).
Proof. unfold booking_result. simpl. eauto. Qed.

Lemma book_from_store (d t u : pyval) (bases : list string) :
  forall (w : world) (last_err : pyval),
    let r := fst (book_from w d t u bases last_err) in
    let w' := snd (book_from w d t u bases last_err) in
    (status r = "success" /\
     exists ds ts us,
       d = PStr ds /\ t = PStr ts /\ u = PStr us /\
       (ds =? "") || (ts =? "") || (us =? "") = false /\
       field (fst (book_slot (store w) ds ts us)) "status" = "Success" /\
       store w' = snd (book_slot (store w) ds ts us)) \/
    (status r <> "success" /\ store w' = store w).
Proof.
  induction bases as [ | base rest IH ]; intros w last_err; simpl.
  - right. split; [ discriminate | reflexivity ].
  - unfold http_post. destruct (mem base (served w)).
    + destruct (handle_post_cases (store w) d t u)
        as [(ds & ts & us & -> & -> & -> & Hne & Hok & E) | (code & o & E & Hc & Hs)];
        rewrite E.
      * destruct (booking_result_created (PStr ds) (PStr ts)
                    (fst (book_slot (store w) ds ts us))) as [m ->].
        simpl. left. split; [ reflexivity | ].
        exists ds, ts, us. auto 10.
      * destruct (booking_result_refused d t code o Hc Hs) as [[m ->] | [e ->]].
        -- simpl. right. split; [ discriminate | reflexivity ].
        -- apply (IH (World (store w) (served w)
                        (log w ++ [POST base d t u])) e).
    + apply (IH (World (store w) (served w) (log w ++ [POST base d t u]))).
Qed.


Lemma book_from_log (d t u : pyval) (bases : list string) :
  forall (w : world) (last_err : pyval),
  exists k,
    served (snd (book_from w d t u bases last_err)) = served w /\
    log (snd (book_from w d t u bases last_err))
    = (log w ++ map (fun base => POST base d t u) (firstn k bases))%list.
Proof.
  induction bases as [ | base rest IH ]; intros w last_err.
  - exists 0. simpl. rewrite app_nil_r. auto.
  - simpl. unfold http_post.
    assert (Hrest : forall sh e, exists k,
               served (snd (book_from
                              (World sh (served w) (log w ++ [POST base d t u]))
                              d t u rest e)) = served w /\
               log (snd (book_from
                           (World sh (served w) (log w ++ [POST base d t u]))
                           d t u rest e))
               = (log w ++ map (fun base => POST base d t u)
                               (firstn k (base :: rest)))%list).
    { intros sh e.
      destruct (IH (World sh (served w) (log w ++ [POST base d t u])) e)
        as [k [Hs Hl]].
      exists (S k). rewrite Hs, Hl. simpl. rewrite <- app_assoc. auto. }
    destruct (mem base (served w)).
    + destruct (handle_post (store w) d t u) as [resp sh'].
      destruct (booking_result d t resp) as [ r | e ].
      * exists 1. simpl. auto.
      * apply Hrest.
    + apply Hrest.
Qed.

(** X7.  A booking through [safe_execute] leaves the served addresses
    as they are, and what it adds to the requests sent are POST requests
    with the date, time and user id of the call, to the configured
    addresses in their order, one for each address tried. *)
Theorem booking_requests_in_order (today : date) (ex : executor) (w : world)
  (kw : kwargs) :
  let w' := snd (safe_execute today ex w "book_appointment_slot" kw) in
  exists k,
    served w' = served w /\
    log w' = (log w ++
              map (fun base => POST base (get_val kw "date") (get_val kw "time")
                                 (get_val kw "user_id"))
                  (firstn k (api_base_urls ex)))%list.
Proof.
  assert (Hsame : exists k,
             served w = served w /\
             log w = (log w ++
                      map (fun base => POST base (get_val kw "date")
                                         (get_val kw "time") (get_val kw "user_id"))
                          (firstn k (api_base_urls ex)))%list).
  { exists 0. simpl. rewrite app_nil_r. auto. }
  cbv zeta. rewrite safe_execute_book. unfold run_tool, try_book_appointment_slot.
  destruct (validate_booking_params today (get_val kw "date") (get_val kw "time"))
    as [ v | e ]; simpl; [ | exact Hsame ].
  destruct (negb (valid v)); simpl; [ exact Hsame | ].
  destruct (_ || _); simpl; [ exact Hsame | ].
  destruct (bind_kwargs _ _ kw); simpl; [ | exact Hsame ].
  unfold book_appointment_slot.
  destruct (book_from_log (get_val kw "date") (get_val kw "time")
              (get_val kw "user_id") (api_base_urls ex) w PNone) as [k Hk].
  exists k. destruct (book_from _ _ _ _ _ _) as [r0 w0]. exact Hk.
Qed.

End ExecutorRequests.

(** ** The cells a booking touches *)

Section StoreCells.

Import ApiFunctions.

Lemma nth_set_nth_other {A} (pad v : A) (n : nat) :
  forall (m : nat) (l : list A),
    n <> m -> nth m (set_nth pad n v l) pad = nth m l pad.
Proof.
  induction n as [ | n IH ]; intros m l Hnm.
  - destruct m as [ | m ]; [ congruence | ].
    destruct l as [ | h t ]; simpl; [ destruct m | ]; reflexivity.
  - destruct l as [ | h t ]; destruct m as [ | m ]; simpl; try reflexivity.
    + rewrite IH by congruence. destruct m; reflexivity.
    + apply IH. congruence.
Qed.

Lemma cell_update_cell_other (sh : sheet) (r0 c0 r c : nat) (v : string) :
  1 <= r -> 1 <= c -> 1 <= r0 -> 1 <= c0 -> (r, c) <> (r0, c0) ->
  cell (update_cell sh r0 c0 v) r c = cell sh r c.
Proof.
  intros Hr Hc Hr0 Hc0 Hne. unfold cell, update_cell.
  destruct (Nat.eq_dec (r0 - 1) (r - 1)) as [E | E].
  - rewrite <- E, nth_set_nth. apply nth_set_nth_other.
    intros E'. apply Hne. f_equal; lia.
  - rewrite nth_set_nth_other by assumption. reflexivity.
Qed.

Lemma index_of_nth (x : string) (xs : list string) :
  forall i, index_of x xs = Some i -> nth i xs "" = x.
Proof.
  induction xs as [ | y ys IH ]; intros i; simpl; [ discriminate | ].
  destruct (String.eqb_spec y x) as [-> | _].
  - intros [= <-]. reflexivity.
  - destruct (index_of x ys) as [ j | ]; [ | discriminate ].
    intros [= <-]. apply IH. reflexivity.
Qed.

Lemma find_row_set_nth (col : nat) (v : string) (row' : list string) :
  forall (rows : list (list string)) (i : nat),
    find_row col v rows = Some i -> nth col row' "" = v ->
    find_row col v (set_nth [] i row' rows) = Some i.
Proof.
  induction rows as [ | r rs IH ]; intros i; simpl; [ discriminate | ].
  destruct (nth col r "" =? v) eqn:E.
  - intros [= <-] Hv. simpl. rewrite Hv, String.eqb_refl. reflexivity.
  - destruct (find_row col v rs) as [ j | ] eqn:F; [ | discriminate ].
    intros [= <-] Hv. simpl. rewrite E, (IH j) by auto. reflexivity.
Qed.

Lemma find_row_nth (col : nat) (v : string) :
  forall (rows : list (list string)) (i : nat),
    find_row col v rows = Some i -> nth col (nth i rows []) "" = v.
Proof.
  induction rows as [ | r rs IH ]; intros i; simpl; [ discriminate | ].
  destruct (String.eqb_spec (nth col r "") v) as [E | _].
  - intros [= <-]. exact E.
  - destruct (find_row col v rs) as [ j | ]; [ | discriminate ].
    intros [= <-]. apply IH. reflexivity.
Qed.

(** What a booking that succeeds did: the row and column it found, the cell
    that was free, and the worksheet with the user id written there. *)
Lemma book_slot_success (sh : sheet) (d t u : string) :
  AppointmentRoutes.field (fst (book_slot sh d t u)) "status" = "Success" ->
  exists headers rows date_col i j,
    sh = headers :: rows /\
    index_of "Date" headers = Some date_col /\
    find_row date_col d rows = Some i /\
    index_of t headers = Some j /\
    (negb (cell sh (i + 2) (j + 1) =? "") &&
     negb (mem (lower (strip (cell sh (i + 2) (j + 1)))) ["suday"; ""])) = false /\
    snd (book_slot sh d t u) = update_cell sh (i + 2) (j + 1) u.
Proof.
  unfold book_slot. destruct sh as [ | headers rows ]; [ discriminate | ].
  destruct (index_of "Date" headers) as [ date_col | ] eqn:Ed; [ | discriminate ].
  destruct (find_row date_col d rows) as [ i | ] eqn:Ef; [ | discriminate ].
  destruct (index_of t headers) as [ j | ] eqn:Et; [ | discriminate ].
  destruct (_ && _) eqn:Eg; [ discriminate | ].
  intros _. exists headers, rows, date_col, i, j. auto 10.
Qed.

Lemma update_cell_rows (headers : list string) (rows : list (list string))
  (i c : nat) (v : string) :
  update_cell (headers :: rows) (i + 2) c v
  = headers :: set_nth [] i (set_nth "" (c - 1) v (nth i rows [])) rows.
Proof.
  unfold update_cell. replace (i + 2 - 1) with (S i) by lia. reflexivity.
Qed.

(** The cell a booking found, once it holds a user id that counts as one,
    is refused to the next booking. *)
Lemma book_slot_after_update (headers : list string) (rows : list (list string))
  (date_col i j : nat) (d t u1 u2 : string) :
  index_of "Date" headers = Some date_col ->
  find_row date_col d rows = Some i ->
  index_of t headers = Some j ->
  t <> "Date" ->
  mem (lower (strip u1)) ["suday"; ""] = false ->
  book_slot (update_cell (headers :: rows) (i + 2) (j + 1) u1) d t u2
  = (error_obj ("Slot already booked by " ++ u1 ++ "."),
     update_cell (headers :: rows) (i + 2) (j + 1) u1).
Proof.
  intros Ed Ef Et Ht Hu.
  assert (Hj : j <> date_col).
  { intros ->. apply Ht. rewrite <- (index_of_nth _ _ _ Et).
    apply (index_of_nth _ _ _ Ed). }
  assert (Hcell : cell (update_cell (headers :: rows) (i + 2) (j + 1) u1)
                    (i + 2) (j + 1) = u1) by apply cell_update_cell.
  rewrite update_cell_rows in *.
  unfold book_slot. rewrite Ed, Et.
  rewrite find_row_set_nth; [ | assumption | ].
  - rewrite Hcell, Hu.
    destruct (String.eqb_spec u1 "") as [-> | _]; [ discriminate | ].
    reflexivity.
  - replace (j + 1 - 1) with j by lia.
    rewrite nth_set_nth_other by assumption.
    apply (find_row_nth _ _ _ _ Ef).
Qed.

(** X8.  No double booking at the store.  After a [book_slot] that
    succeeded, for a user id that, trimmed and lowercased, is neither empty
    nor the blackout marker, a second [book_slot] for the same date and
    time, for any user, is refused with the name of the first user and
    leaves the worksheet as it is.  The time is a column other than the
    date column. *)
Theorem book_slot_twice (sh : sheet) (d t u1 u2 : string) :
  AppointmentRoutes.field (fst (book_slot sh d t u1)) "status" = "Success" ->
  t <> "Date" ->
  mem (lower (strip u1)) ["suday"; ""] = false ->
  book_slot (snd (book_slot sh d t u1)) d t u2
  = (error_obj ("Slot already booked by " ++ u1 ++ "."),
     snd (book_slot sh d t u1)).
Proof.
  intros Hok Ht Hu.
  destruct (book_slot_success sh d t u1 Hok)
    as (headers & rows & date_col & i & j & -> & Ed & Ef & Et & _ & ->).
  eapply book_slot_after_update; eassumption.
Qed.

Lemma book_slot_twice_witness :
  book_slot (snd (book_slot Demo.demo_sheet "2026-11-03" "9:00 AM" "Taha-9999"))
    "2026-11-03" "9:00 AM" "Omar-1234"
  = (error_obj "Slot already booked by Taha-9999.",
     snd (book_slot Demo.demo_sheet "2026-11-03" "9:00 AM" "Taha-9999")).
Proof.
  apply (book_slot_twice Demo.demo_sheet "2026-11-03" "9:00 AM" "Taha-9999"
           "Omar-1234"); [ reflexivity | discriminate | reflexivity ].
Defined.

(** X9.  [book_slot] changes at most one cell, and never one of the
    header row: every other cell reads as before.  When the booking
    succeeds that cell holds the user id afterwards. *)
Theorem book_slot_frame (sh : sheet) (d t u : string) :
  exists r0 c0,
    2 <= r0 /\ 1 <= c0 /\
    (forall r c, 1 <= r -> 1 <= c -> (r, c) <> (r0, c0) ->
                 cell (snd (book_slot sh d t u)) r c = cell sh r c) /\
    (AppointmentRoutes.field (fst (book_slot sh d t u)) "status" = "Success" ->
     cell (snd (book_slot sh d t u)) r0 c0 = u).
Proof.
  destruct (AppointmentRoutes.field (fst (book_slot sh d t u)) "status"
            =? "Success") eqn:E.
  - apply String.eqb_eq in E.
    destruct (book_slot_success sh d t u E)
      as (headers & rows & date_col & i & j & -> & _ & _ & _ & _ & ->).
    exists (i + 2), (j + 1). split; [ lia | ]. split; [ lia | ]. split.
    + intros r c Hr Hc Hne. apply cell_update_cell_other; assumption || lia.
    + intros _. apply cell_update_cell.
  - exists 2, 1. split; [ lia | ]. split; [ lia | ]. split.
    + intros r c _ _ _.
      assert (Hsame : snd (book_slot sh d t u) = sh); [ | rewrite Hsame; reflexivity ].
      revert E. unfold book_slot.
      destruct sh as [ | headers rows ]; [ reflexivity | ].
      destruct (index_of "Date" headers); [ | reflexivity ].
      destruct (find_row _ d rows); [ | reflexivity ].
      destruct (index_of t headers); [ | reflexivity ].
      destruct (_ && _); [ reflexivity | discriminate ].
    + intros Hok. rewrite Hok in E. discriminate.
Qed.

End StoreCells.

(** ** What a lookup lists, and booking twice *)

Section OfferedTimes.

Import ApiFunctions AppointmentRoutes BookingTools.








End OfferedTimes.

Section DoubleBooking.

Import ApiFunctions AppointmentRoutes BookingTools.

Lemma book_from_success_served (d t u : pyval) (bases : list string) :
  forall (w : world) (last_err : pyval),
    status (fst (book_from w d t u bases last_err)) = "success" ->
    existsb (fun base => mem base (served w)) bases = true.
Proof.
  induction bases as [ | base rest IH ]; intros w last_err; simpl.
  - discriminate.
  - unfold http_post. destruct (mem base (served w)); [ reflexivity | ].
    apply IH.
Qed.

Lemma already_booked_is_conflict (u : string) :
  contains "already booked" (lower ("Slot already booked by " ++ u ++ ".")) = true.
Proof. reflexivity. Qed.

Lemma book_from_occupied (d t u : string) (o : obj) (bases : list string) :
  forall (w : world) (last_err : pyval),
    handle_post (store w) (PStr d) (PStr t) (PStr u)
    = (Response 409 (BObj o), store w) ->
    field o "status" = "Error" ->
    existsb (fun base => mem base (served w)) bases = true ->
    status (fst (book_from w (PStr d) (PStr t) (PStr u) bases last_err))
    = "already_booked" /\
    store (snd (book_from w (PStr d) (PStr t) (PStr u) bases last_err)) = store w.
Proof.
  induction bases as [ | base rest IH ]; intros w last_err Hp Ho; simpl.
  - discriminate.
  - unfold http_post. destruct (mem base (served w)).
    + intros _. rewrite Hp. unfold booking_result. cbn [json status_code].
      rewrite Ho. simpl. auto.
    + simpl. intros Hs.
      apply (IH (World (store w) (served w)
                   (log w ++ [POST base (PStr d) (PStr t) (PStr u)]))); assumption.
Qed.

(** X11.  No double booking through the executor.  After a
    [book_appointment_slot] that reported success, for a user id that,
    trimmed and lowercased, is neither empty nor the blackout marker, a
    second call for the same date and time, for any non-empty user id,
    reports [already_booked] and leaves the worksheet as it is. *)
Theorem booked_slot_is_refused (ex : executor) (w : world) (d t u1 u2 : string) :
  status (fst (book_appointment_slot ex w (PStr d) (PStr t) (PStr u1))) = "success" ->
  t <> "Date" ->
  mem (lower (strip u1)) ["suday"; ""] = false ->
  u2 <> "" ->
  let w1 := snd (book_appointment_slot ex w (PStr d) (PStr t) (PStr u1)) in
  status (fst (book_appointment_slot ex w1 (PStr d) (PStr t) (PStr u2)))
  = "already_booked" /\
  store (snd (book_appointment_slot ex w1 (PStr d) (PStr t) (PStr u2))) = store w1.
Proof.
  intros Hok Ht Hu Hu2 w1. unfold book_appointment_slot in *.
  pose proof (book_from_success_served _ _ _ _ _ _ Hok) as Hserved.
  destruct (book_from_store (PStr d) (PStr t) (PStr u1) (api_base_urls ex) w PNone)
    as [(_ & ds & ts & us & [= <-] & [= <-] & [= <-] & Hne & Hbook & Hstore)
       | (Hno & _)]; [ | contradiction ].
  destruct (book_from_log (PStr d) (PStr t) (PStr u1) (api_base_urls ex) w PNone)
    as (k & Hsv & _).
  fold w1 in Hstore, Hsv.
  apply orb_false_iff in Hne as [Hne _]. apply orb_false_iff in Hne as [Hd Hts].
  apply (book_from_occupied d t u2
           (error_obj ("Slot already booked by " ++ u1 ++ "."))).
  - unfold handle_post. rewrite Hd, Hts.
    destruct (String.eqb_spec u2 "") as [E | _]; [ contradiction | ].
    simpl orb. rewrite Hstore.
    destruct (book_slot_success (store w) d t u1 Hbook)
      as (headers & rows & date_col & i & j & Esh & Ed & Ef & Et & _ & ->).
    rewrite Esh, (book_slot_after_update _ _ _ _ _ d t u1 u2 Ed Ef Et Ht Hu).
    cbn [field get error_obj String.eqb Ascii.eqb Bool.eqb fst snd].
    simpl String.eqb. cbv iota.
    rewrite already_booked_is_conflict. reflexivity.
  - reflexivity.
  - rewrite Hsv. exact Hserved.
Qed.

Lemma booked_slot_is_refused_witness :
  let w1 := snd (book_appointment_slot default_executor Demo.demo_world
                   (PStr "2026-11-03") (PStr "9:00 AM") (PStr "Omar-1234")) in
  status (fst (book_appointment_slot default_executor w1
                 (PStr "2026-11-03") (PStr "9:00 AM") (PStr "Lina-5678")))
  = "already_booked" /\
  store (snd (book_appointment_slot default_executor w1
                (PStr "2026-11-03") (PStr "9:00 AM") (PStr "Lina-5678")))
  = store w1.
Proof.
  apply (booked_slot_is_refused default_executor Demo.demo_world
           "2026-11-03" "9:00 AM" "Omar-1234" "Lina-5678");
    [ reflexivity | discriminate | reflexivity | discriminate ].
Defined.

End DoubleBooking.

(** ** What the store offers and what it books *)

Section OfferedAndBooked.

Import ApiFunctions AppointmentRoutes.




(** Whether [get_available_slots] keeps the row with these cells for the
    date [d]. *)
Local Abbreviation kept headers d :=
  (fun cells : list string =>
     match get (combine headers cells) "Date" with
     | Some x => x =? d
     | None => false
     end).











End OfferedAndBooked.

(** ** Normalizers, the history window and the protocol *)

Section Normalizers.

Import BookingTools RagCore.

Lemma mapping_labels (k label : string) :
  get mapping k = Some label -> In label valid_times.
Proof.
  unfold mapping. cbn [get].
  repeat (destruct (String.eqb _ k); [ intros [= <-]; simpl; tauto | ]).
  discriminate.
Qed.

Lemma labels_are_fixed (label : string) :
  In label valid_times -> normalize_time (PStr label) = PStr label.
Proof.
  intros H. repeat (destruct H as [<- | H]; [ reflexivity | ]). destruct H.
Qed.

Lemma normalize_time_range (v : pyval) :
  normalize_time v = v \/
  exists label, In label valid_times /\ normalize_time v = PStr label.
Proof.
  destruct v as [ | s ]; [ left; reflexivity | ].
  unfold normalize_time.
  destruct (get mapping _) as [ label | ] eqn:E.
  { right. exists label. split; [ eapply mapping_labels, E | reflexivity ]. }
  destruct (time_pattern _) as [ [hh sfx] | ]; [ | left; reflexivity ].
  repeat match goal with
         | |- context [ if ?c then PStr ?l else _ ] =>
             destruct c;
             [ right; exists l; split; [ simpl; tauto | reflexivity ] | ]
         end.
  left. reflexivity.
Qed.

(** X14.  [normalize_time] returns its argument as it came or one of the
    eight time labels, and normalizing twice is normalizing once. *)
Theorem normalize_time_idempotent (v : pyval) :
  (normalize_time v = v \/
   exists label, In label valid_times /\ normalize_time v = PStr label) /\
  normalize_time (normalize_time v) = normalize_time v.
Proof.
  split; [ apply normalize_time_range | ].
  destruct (normalize_time_range v) as [E | [label [Hl E]]]; rewrite E.
  - exact E.
  - apply labels_are_fixed, Hl.
Qed.

Lemma is_digit_not_space (c : ascii) : is_digit c = true -> is_space c = false.
Proof.
  unfold is_digit, is_space, between. intros H.
  apply andb_true_iff in H as [H1 H2].
  apply Nat.leb_le in H1. apply Nat.leb_le in H2.
  apply orb_false_iff. split; apply andb_false_iff.
  - right. apply Nat.leb_gt. lia.
  - right. apply Nat.leb_gt. lia.
Qed.

Lemma hyphen_not_space : is_space "-" = false.
Proof. reflexivity. Qed.

Lemma strip_isoformat (d : date) : strip (isoformat d) = isoformat d.
Proof.
  rewrite isoformat_chars. unfold strip. cbn [lstrip].
  rewrite (is_digit_not_space _ (digit_is_digit _)).
  cbn [rstrip]. rewrite !(is_digit_not_space _ (digit_is_digit _)).
  rewrite !hyphen_not_space. reflexivity.
Qed.

Lemma normalize_date_isoformat (today d : date) :
  normalize_date today (PStr (isoformat d)) = PStr (isoformat d).
Proof.
  unfold normalize_date. rewrite strip_isoformat, isoformat_lower.
  rewrite isoformat_chars. cbn [String.eqb].
  rewrite !digit_differs by reflexivity. reflexivity.
Qed.

Lemma normalize_date_range (today : date) (v : pyval) :
  normalize_date today v = v \/
  exists d, normalize_date today v = PStr (isoformat d).
Proof.
  destruct v as [ | s ]; [ left; reflexivity | ].
  unfold normalize_date.
  destruct (_ =? "today"); [ right; eauto | ].
  destruct (_ =? "tomorrow"); [ | left; reflexivity ].
  destruct (add_days today 1); [ right; eauto | left; reflexivity ].
Qed.

(** X15.  Normalizing a date twice is normalizing it once: the date a
    lookup stores in [last_slots_date], already normalized, is not changed
    when a later booking without a date normalizes it again. *)
Theorem normalize_date_idempotent (today : date) (v : pyval) :
  normalize_date today (normalize_date today v) = normalize_date today v.
Proof.
  destruct (normalize_date_range today v) as [E | [d E]]; rewrite E.
  - exact E.
  - apply normalize_date_isoformat.
Qed.

End Normalizers.

Section HistoryWindow.

Import App Conversation.

Lemma last_n_app {A} (n : nat) (old recent : list A) :
  n <= length recent -> last_n n (old ++ recent) = last_n n recent.
Proof.
  intros H. unfold last_n. rewrite length_app, skipn_app.
  rewrite skipn_all2 by lia.
  replace (length old + length recent - n - length old)
    with (length recent - n) by lia.
  reflexivity.
Qed.

(** X16.  The decision to enable the tools reads the last five turns of
    the history and nothing before them: with five turns or more, whatever
    came earlier does not change it. *)
Theorem should_enable_tools_window (normalized_message : string)
  (old recent : list turn) :
  5 <= length recent ->
  should_enable_tools normalized_message (old ++ recent)
  = should_enable_tools normalized_message recent.
Proof.
  intros H. unfold should_enable_tools, has_booking_context,
    history_contains_date.
  rewrite !last_n_app by lia. reflexivity.
Qed.

Lemma should_enable_tools_window_witness :
  should_enable_tools "yes please"
    ([Turn "model" "Shall I book a wash for 2026-11-04?"] ++
     [Turn "user" "a"; Turn "model" "b"; Turn "user" "c"; Turn "model" "d";
      Turn "user" "e"])%list
  = should_enable_tools "yes please"
      [Turn "user" "a"; Turn "model" "b"; Turn "user" "c"; Turn "model" "d";
       Turn "user" "e"].
Proof.
  apply (should_enable_tools_window "yes please"
           [Turn "model" "Shall I book a wash for 2026-11-04?"]).
  simpl. lia.
Defined.

End HistoryWindow.

Section Protocol.

Import BookingTools RagCore Conversation.

Variable generate_content : list sent -> string -> bool -> result model_response.

(** X17.  A reply of the tool protocol in mode [regular] ran no tool: no
    request was sent, the worksheet and the date the bot remembers are as
    before, and the reply names no tool and carries no tool result. *)
Theorem regular_reply_runs_no_tool (today : date) (ex : executor) (b : bot)
  (w : world) (user_message system_prompt : string) (chat_history : list turn)
  (user_id : pyval) :
  let out := tool_protocol generate_content today ex b w user_message
               system_prompt chat_history user_id in
  mode (fst (fst out)) = "regular" ->
  snd (fst out) = b /\ snd out = w /\
  tool_used (fst (fst out)) = None /\ tool_result_of (fst (fst out)) = None.
Proof.
  cbv zeta. unfold tool_protocol.
  destruct (generate_content _ _ true) as [ first | e ]; [ | discriminate ].
  destruct (candidates first) as [ | c cs ]; [ simpl; auto | ].
  destruct (content c) as [ ps | ]; [ | discriminate ].
  destruct (first_with_function_call ps) as [ [ fc | ] | ];
    [ | discriminate | simpl; auto ].
  destruct (execute_tool_call today ex b w fc) as [[[ r | e ] b'] w'];
    [ | discriminate ].
  destruct (generate_content _ _ false); discriminate.
Qed.

(** X18.  The direct booking.  When a date and a time are extracted from
    the message, a user id is extracted or given, and the booking through
    [safe_execute] reports success, [generate_response_with_tools] returns
    the message of that booking in mode [tool_calling], whatever the
    generation service would have answered, and the date the bot remembers
    is unchanged. *)
Theorem direct_booking_skips_the_model
  (extract_date extract_time extract_user_id : string -> option string)
  (today : date) (ex : executor) (b : bot) (w w' : world)
  (user_message system_prompt : string) (chat_history : list turn)
  (user_id : pyval) (d t : string) (direct : tool_result) :
  extract_date user_message = Some d -> d <> "" ->
  extract_time user_message = Some t -> t <> "" ->
  truthy (opt_val (extract_user_id user_message)) || truthy user_id = true ->
  safe_execute today ex w "book_appointment_slot"
    [("date", PStr d); ("time", PStr t);
     ("user_id", por (opt_val (extract_user_id user_message))
                     (por user_id (PStr "guest")))]
  = (Some direct, w') ->
  status direct = "success" ->
  generate_response_with_tools extract_date extract_time extract_user_id
    generate_content today ex b w user_message system_prompt chat_history
    user_id
  = (Reply (message direct) (Some "book_appointment_slot") (Some direct)
       "tool_calling" None, b, w').
Proof.
  intros Hd Hdn Ht Htn Hu Hrun Hok.
  rewrite safe_execute_book in Hrun. injection Hrun as Hr Hw.
  unfold generate_response_with_tools. rewrite Hd, Ht. cbn [opt_val truthy].
  destruct (String.eqb_spec d "") as [ | _ ]; [ contradiction | ].
  destruct (String.eqb_spec t "") as [ | _ ]; [ contradiction | ].
  cbn [negb andb]. rewrite Hu.
  pose proof (run_tool_message today ex w BookAppointmentSlot
                [("date", PStr d); ("time", PStr t);
                 ("user_id", por (opt_val (extract_user_id user_message))
                                 (por user_id (PStr "guest")))]) as Hm.
  destruct (run_tool _ _ _ _ _) as [r w0]. simpl in Hr, Hw, Hm. subst r w0.
  rewrite Hok. cbn [String.eqb Ascii.eqb Bool.eqb].
  simpl String.eqb. cbv iota.
  rewrite or_text_same by assumption. reflexivity.
Qed.

End Protocol.

Section ProtocolExamples.

Import BookingTools RagCore Conversation.

Lemma regular_reply_runs_no_tool_witness :
  let out := tool_protocol (fun _ _ _ => Ok (ModelResponse [] (Some "Hello.")))
               Demo.demo_today default_executor (Bot PNone) Demo.demo_world
               "Hi" "" [] PNone in
  snd (fst out) = Bot PNone /\ snd out = Demo.demo_world /\
  tool_used (fst (fst out)) = None /\ tool_result_of (fst (fst out)) = None.
Proof.
  apply (regular_reply_runs_no_tool
           (fun _ _ _ => Ok (ModelResponse [] (Some "Hello.")))
           Demo.demo_today default_executor (Bot PNone) Demo.demo_world
           "Hi" "" [] PNone).
  reflexivity.
Defined.

Lemma direct_booking_skips_the_model_witness :
  exists direct w',
    generate_response_with_tools
      (fun _ => Some "2026-11-03") (fun _ => Some "9:00 AM")
      (fun _ => Some "Omar-1234") Demo.demo_model
      Demo.demo_today default_executor (Bot PNone) Demo.demo_world
      "Book 2026-11-03 at 9:00 AM for Omar-1234" "" [] PNone
    = (Reply (message direct) (Some "book_appointment_slot") (Some direct)
         "tool_calling" None, Bot PNone, w').
Proof.
  do 2 eexists.
  eapply (direct_booking_skips_the_model Demo.demo_model
            (fun _ => Some "2026-11-03") (fun _ => Some "9:00 AM")
            (fun _ => Some "Omar-1234")
            Demo.demo_today default_executor (Bot PNone) Demo.demo_world _
            "Book 2026-11-03 at 9:00 AM for Omar-1234" "" [] PNone
            "2026-11-03" "9:00 AM");
    [ reflexivity | discriminate | reflexivity | discriminate | reflexivity
    | reflexivity | reflexivity ].
Defined.

End ProtocolExamples.

(** ** Text and link entries *)

Section TextEntries.

Import Ingestion.

Lemma mem_In (x : string) (l : list string) : mem x l = true <-> In x l.
Proof.
  unfold mem. rewrite existsb_exists. split.
  - intros [y [Hy E]]. apply String.eqb_eq in E. subst y. exact Hy.
  - intros H. exists x. split; [ exact H | apply String.eqb_refl ].
Qed.

Lemma note_all (xs : list string) :
  forall seen duplicates : list string,
    snd (fold_left (fun acc x => note x acc) xs (seen, duplicates)) = [] <->
    duplicates = [] /\ NoDup xs /\ forall x, In x xs -> ~ In x seen.
Proof.
  induction xs as [ | x xs IH ]; intros seen duplicates; simpl.
  - split; [ intros ->; repeat split; [ constructor | tauto ] | tauto ].
  - destruct (mem x seen) eqn:E.
    + apply mem_In in E. rewrite IH. split.
      * intros [H _]. destruct duplicates; discriminate.
      * intros (_ & _ & H). exfalso. apply (H x); auto.
    + assert (Hx : ~ In x seen).
      { intros H. apply mem_In in H. congruence. }
      rewrite IH. split.
      * intros (-> & Hnd & Hdis). split; [ reflexivity | ]. split.
        -- constructor; [ | exact Hnd ]. intros Hin. apply (Hdis x Hin). left.
           reflexivity.
        -- intros y [<- | Hy]; [ exact Hx | ].
           intros Hs. apply (Hdis y Hy). right. exact Hs.
      * intros (-> & Hnd & Hdis). inversion Hnd as [ | ? ? Hnot Hnd' ]; subst.
        split; [ reflexivity | ]. split; [ exact Hnd' | ].
        intros y Hy [<- | Hs]; [ contradiction | ].
        apply (Hdis y); auto.
Qed.

Local Abbreviation has_text e :=
  (field_text e "name" <> "" /\ field_text e "value" <> "").

Lemma text_loop_valid (entries : list entry) :
  forall s : scan,
    Forall (fun e => has_text e) entries ->
    text_loop entries s
    = Ok (Scan (fold_left (fun acc x => note x acc)
                  (map (fun e => field_text e "name") entries) (names s))
               (fold_left (fun acc x => note x acc)
                  (map (fun e => field_text e "value") entries) (values s))
               (documents s ++
                map (fun e => text_document (field_text e "name")
                                (field_text e "value")) entries)).
Proof.
  induction entries as [ | e entries IH ]; intros s H.
  - simpl. rewrite app_nil_r. destruct s. reflexivity.
  - inversion H as [ | ? ? [Hn Hv] H' ]; subst. simpl.
    unfold field_text in *.
    destruct (get_val e "name") as [ | name ]; [ congruence | ].
    destruct (get_val e "value") as [ | value ]; [ congruence | ].
    apply String.eqb_neq in Hn, Hv. rewrite Hn, Hv. simpl.
    rewrite IH by assumption. simpl. rewrite <- app_assoc. reflexivity.
Qed.

Lemma text_loop_invalid (entries : list entry) :
  forall s : scan,
    Exists (fun e => ~ has_text e) entries ->
    text_loop entries s = Raise missing_text_field.
Proof.
  induction entries as [ | e entries IH ]; intros s H;
    [ inversion H | ].
  simpl. unfold field_text in *.
  destruct (get_val e "name") as [ | name ] eqn:En; [ reflexivity | ].
  destruct (get_val e "value") as [ | value ] eqn:Ev;
    [ destruct (get_val e "name"); reflexivity | ].
  destruct (String.eqb_spec name "") as [ | Hn ]; [ reflexivity | ].
  destruct (String.eqb_spec value "") as [ | Hv ]; [ reflexivity | ].
  simpl. apply IH.
  inversion H as [ ? ? Hbad | ? ? Hrest ]; subst; [ | exact Hrest ].
  rewrite En, Ev in Hbad. tauto.
Qed.

Lemma has_text_dec (e : entry) : {has_text e} + {~ has_text e}.
Proof.
  destruct (string_dec (field_text e "name") "") as [E | E];
    [ right; tauto | ].
  destruct (string_dec (field_text e "value") "") as [E' | E'];
    [ right; tauto | left; tauto ].
Qed.

Lemma finish_ok (what : string) (s : scan) (docs : list document) :
  finish what s = Ok docs <->
  snd (names s) = [] /\ snd (values s) = [] /\ docs = documents s.
Proof.
  unfold finish.
  destruct (snd (names s)) as [ | n ns ]; destruct (snd (values s)) as [ | v vs ];
    simpl; split; try discriminate; try (intros (? & ? & ?); discriminate).
  - intros [= <-]. auto.
  - intros (_ & _ & ->). reflexivity.
Qed.

(** X19.  [process_text_entries] returns documents exactly when every
    entry has a name and a value, no name occurs twice and no value occurs
    twice; the documents are then those of the entries, one for each, in
    their order. *)
Theorem process_text_entries_ok (entries : list entry) (docs : list document) :
  process_text_entries entries = Ok docs <->
  Forall (fun e => field_text e "name" <> "" /\ field_text e "value" <> "")
    entries /\
  NoDup (map (fun e => field_text e "name") entries) /\
  NoDup (map (fun e => field_text e "value") entries) /\
  docs = map (fun e => text_document (field_text e "name")
                         (field_text e "value")) entries.
Proof.
  unfold process_text_entries.
  destruct (Forall_Exists_dec _ has_text_dec entries) as [Hall | Hbad].
  - rewrite text_loop_valid by assumption. simpl bind.
    rewrite finish_ok. cbn [names values documents start].
    rewrite !note_all. simpl app. split.
    + intros ((_ & Hn & _) & (_ & Hv & _) & ->). auto.
    + intros (_ & Hn & Hv & ->). repeat split; auto.
  - rewrite text_loop_invalid by assumption. simpl. split; [ discriminate | ].
    intros (Hall & _). exfalso.
    apply Exists_exists in Hbad as [e [He Hno]].
    rewrite Forall_forall in Hall. apply Hno, Hall, He.
Qed.

(** X20.  An entry without a name or without a value decides the
    outcome of [process_text_entries]: the error is the one about the
    missing field, whatever duplicates the entries hold. *)
Theorem process_text_entries_missing_field (entries : list entry) :
  Exists (fun e => field_text e "name" = "" \/ field_text e "value" = "")
    entries ->
  process_text_entries entries = Raise missing_text_field.
Proof.
  intros H. unfold process_text_entries.
  rewrite text_loop_invalid; [ reflexivity | ].
  eapply Exists_impl; [ | exact H ]. simpl. tauto.
Qed.

Lemma process_text_entries_missing_field_witness :
  process_text_entries
    [ [("name", PStr "hours"); ("value", PStr "9 to 5")];
      [("name", PStr "hours"); ("value", PStr "9 to 5")];
      [("name", PStr "address")] ]
  = Raise missing_text_field.
Proof.
  apply (process_text_entries_missing_field
           [ [("name", PStr "hours"); ("value", PStr "9 to 5")];
             [("name", PStr "hours"); ("value", PStr "9 to 5")];
             [("name", PStr "address")] ]).
  do 2 apply Exists_cons_tl. apply Exists_cons_hd. right. reflexivity.
Defined.

End TextEntries.

Section LinkEntries.

Import Ingestion.

Variable net : Type.
Variable fetch_link : net -> string -> string -> option document * net.

(** Fetching the link of one entry after the others. *)
Local Abbreviation fetch_next :=
  (fun (acc : list document * net) (e : entry) =>
     let (doc, n') := fetch_link (snd acc) (field_text e "link")
                        (field_text e "name") in
     ((fst acc ++ match doc with Some d => [d] | None => [] end)%list, n')).

Local Abbreviation has_link e :=
  (field_text e "name" <> "" /\ field_text e "link" <> "").

Lemma link_loop_valid (entries : list entry) :
  forall (s : scan) (n : net),
    Forall (fun e => has_link e) entries ->
    link_loop net fetch_link entries s n
    = (Ok (Scan (fold_left (fun acc x => note x acc)
                   (map (fun e => field_text e "name") entries) (names s))
                (fold_left (fun acc x => note x acc)
                   (map (fun e => field_text e "link") entries) (values s))
                (fst (fold_left fetch_next entries (documents s, n)))),
       snd (fold_left fetch_next entries (documents s, n))).
Proof.
  induction entries as [ | e entries IH ]; intros s n H.
  - simpl. destruct s. reflexivity.
  - inversion H as [ | ? ? [Hn Hl] H' ]; subst. simpl.
    unfold field_text in *.
    destruct (get_val e "name") as [ | name ]; [ congruence | ].
    destruct (get_val e "link") as [ | link ]; [ congruence | ].
    apply String.eqb_neq in Hn, Hl. rewrite Hn, Hl. simpl.
    destruct (fetch_link n link name) as [ [ doc | ] n' ];
      rewrite IH by assumption; simpl; rewrite ?app_nil_r; reflexivity.
Qed.

(** X21.  When every link entry has a name and a link,
    [process_link_entries] fetches the link of every entry, once for each
    entry and in their order, also when it then rejects the entries for a
    name or a link that occurs twice; it returns documents exactly when
    none does, and they are the pages that could be fetched. *)
Theorem process_link_entries_fetches_all (entries : list entry) (n : net) :
  Forall (fun e => field_text e "name" <> "" /\ field_text e "link" <> "")
    entries ->
  snd (process_link_entries net fetch_link entries n)
  = snd (fold_left fetch_next entries ([], n)) /\
  forall docs,
    fst (process_link_entries net fetch_link entries n) = Ok docs <->
    NoDup (map (fun e => field_text e "name") entries) /\
    NoDup (map (fun e => field_text e "link") entries) /\
    docs = fst (fold_left fetch_next entries ([], n)).
Proof.
  intros H. unfold process_link_entries.
  rewrite link_loop_valid by assumption. cbn [fst snd documents start].
  split; [ reflexivity | ]. intros docs. simpl bind.
  rewrite finish_ok. cbn [names values documents start].
  rewrite !note_all. split.
  - intros ((_ & Hn & _) & (_ & Hl & _) & ->). auto.
  - intros (Hn & Hl & ->). repeat split; auto.
Qed.

End LinkEntries.

(** ** The stream and the socket handler *)

Section StreamTexts.

Import Conversation BookingTools RagCore Streaming.

Lemma truthy_text (v : pyval) : truthy v = true -> pystr v <> "".
Proof.
  destruct v as [ | s ]; simpl; [ discriminate | ].
  destruct (String.eqb_spec s ""); [ discriminate | auto ].
Qed.

Lemma chunk_texts_nonempty (chunk : model_response) :
  Forall (fun t => t <> "") (chunk_texts chunk).
Proof.
  unfold chunk_texts.
  destruct (truthy (opt_val (response_text chunk))) eqn:E.
  { constructor; [ apply truthy_text, E | constructor ]. }
  destruct (candidates chunk) as [ | cand cands ]; [ constructor | ].
  destruct (content cand) as [ parts | ]; [ | constructor ].
  apply Forall_flat_map. apply Forall_forall. intros p _.
  destruct (truthy (opt_val (part_text p))) eqn:Ep; [ | constructor ].
  constructor; [ apply truthy_text, Ep | constructor ].
Qed.

Lemma generate_response_stream_texts (vector_store : bool)
  (get_rag_context : string -> string)
  (generate_content_stream :
     list sent -> pyval -> bool -> list model_response * option exn)
  (user_message : string) (system_prompt : pyval) (chat_history : list turn) :
  Forall (fun delta => delta <> "")
    (fst (generate_response_stream vector_store get_rag_context
            generate_content_stream user_message system_prompt chat_history)).
Proof.
  unfold generate_response_stream.
  destruct (generate_content_stream _ _ _) as [chunks e]. simpl.
  apply Forall_flat_map. apply Forall_forall. intros chunk _.
  apply chunk_texts_nonempty.
Qed.

Lemma filter_truthy (texts : list string) :
  Forall (fun delta => delta <> "") texts ->
  filter (fun delta => truthy (PStr delta)) texts = texts.
Proof.
  induction 1 as [ | t texts Ht _ IH ]; cbn [filter]; [ reflexivity | ].
  rewrite IH. simpl truthy. apply String.eqb_neq in Ht. rewrite Ht.
  reflexivity.
Qed.

(** X22.  Every delta [generate_response_stream] yields is a non-empty
    text: the test the socket handler puts on a delta before it forwards it
    drops none. *)
Theorem stream_yields_text (vector_store : bool)
  (get_rag_context : string -> string)
  (generate_content_stream :
     list sent -> pyval -> bool -> list model_response * option exn)
  (user_message : string) (system_prompt : pyval) (chat_history : list turn) :
  let yielded :=
    fst (generate_response_stream vector_store get_rag_context
           generate_content_stream user_message system_prompt chat_history) in
  Forall (fun delta => truthy (PStr delta) = true) yielded /\
  filter (fun delta => truthy (PStr delta)) yielded = yielded.
Proof.
  cbv zeta.
  pose proof (generate_response_stream_texts vector_store get_rag_context
                generate_content_stream user_message system_prompt chat_history)
    as H.
  split; [ | apply filter_truthy, H ].
  eapply Forall_impl; [ | exact H ].
  intros t Ht. simpl. apply String.eqb_neq in Ht. rewrite Ht. reflexivity.
Qed.

End StreamTexts.

Section SocketHandler.

Import Conversation BookingTools RagCore App Streaming WsServer.

Lemma sub_from_nonempty (pat : list token) (repl : string) :
  repl <> "" ->
  forall (prev : option ascii) (s : string),
    s <> "" -> sub_from pat repl 0 prev s <> "".
Proof.
  intros Hr prev s Hs. destruct s as [ | c s' ]; [ contradiction | ].
  simpl. destruct (match_at pat prev (String c s')) as [ [ | n ] | ];
    try discriminate.
  destruct repl; [ contradiction | discriminate ].
Qed.

Lemma isoformat_nonempty (d : date) : isoformat d <> "".
Proof. rewrite isoformat_chars. discriminate. Qed.

Lemma normalize_relative_dates_nonempty (today : date) (text normalized : string) :
  text <> "" ->
  normalize_relative_dates today text = Ok normalized ->
  normalized <> "".
Proof.
  intros Ht. unfold normalize_relative_dates.
  destruct (String.eqb_spec text "") as [ | _ ]; [ contradiction | ].
  destruct (add_days today 1) as [ tomorrow | ]; [ | discriminate ].
  destruct (add_days today 2) as [ day_after | ]; [ | discriminate ].
  simpl. intros [= <-]. unfold re_sub.
  repeat apply sub_from_nonempty; auto using isoformat_nonempty.
Qed.

Section Replies.

Variables extract_date extract_time extract_user_id : string -> option string.
Variable generate_content : list sent -> string -> bool -> result model_response.

Lemma tool_protocol_reply_nonempty (today : date) (ex : executor) (b : bot)
  (w : world) (user_message system_prompt : string) (chat_history : list turn)
  (user_id : pyval) :
  response (fst (fst (tool_protocol generate_content today ex b w user_message
                        system_prompt chat_history user_id))) <> "".
Proof.
  assert (Hreg : forall r, regular_text r <> "").
  { intros r. unfold regular_text. apply or_text_nonempty. discriminate. }
  unfold tool_protocol.
  destruct (generate_content _ _ true) as [ first | e ]; [ | discriminate ].
  destruct (candidates first) as [ | c cs ]; [ apply Hreg | ].
  destruct (content c) as [ ps | ]; [ | discriminate ].
  destruct (first_with_function_call ps) as [ [ fc | ] | ];
    [ | discriminate | apply Hreg ].
  destruct (execute_tool_call today ex b w fc) as [[[ r | e ] b'] w'];
    [ | discriminate ].
  destruct (generate_content _ _ false); [ | discriminate ].
  simpl. destruct (status r =? "success"); apply or_text_nonempty; discriminate.
Qed.

Lemma generate_response_with_tools_reply_nonempty (today : date)
  (ex : executor) (b : bot) (w : world) (user_message system_prompt : string)
  (chat_history : list turn) (user_id : pyval) :
  response (fst (fst (generate_response_with_tools extract_date extract_time
                        extract_user_id generate_content today ex b w
                        user_message system_prompt chat_history user_id)))
  <> "".
Proof.
  unfold generate_response_with_tools.
  destruct (_ && _ && _); [ | apply tool_protocol_reply_nonempty ].
  destruct (run_tool _ _ _ _ _) as [direct w'].
  destruct (status direct =? "success");
    [ | apply tool_protocol_reply_nonempty ].
  simpl. apply or_text_nonempty. discriminate.
Qed.

End Replies.

Variables _extract_date _extract_time _extract_user_id : string -> option string.
Variable generate_content : list sent -> string -> bool -> result model_response.
Variable get_rag_context : string -> string.
Variable generate_content_stream :
  list sent -> pyval -> bool -> list model_response * option exn.

Local Abbreviation on_message' :=
  (on_message _extract_date _extract_time _extract_user_id generate_content
     get_rag_context generate_content_stream).

Local Abbreviation serve' :=
  (serve _extract_date _extract_time _extract_user_id generate_content
     get_rag_context generate_content_stream).

Lemma deltas_chunks (id : pyval) (texts : list string) :
  deltas (map (ModelResponseChunk id) texts) = texts.
Proof.
  induction texts as [ | t texts IH ]; simpl; [ reflexivity | ].
  f_equal. exact IH.
Qed.

Lemma answers_chunks (id : pyval) (texts : list string) :
  answers (map (ModelResponseChunk id) texts) = [].
Proof. induction texts as [ | t texts IH ]; simpl; auto. Qed.

Lemma concat_nonempty (texts : list string) :
  Forall (fun t => t <> "") texts -> texts <> [] ->
  String.concat "" texts <> "".
Proof.
  intros H Hne. destruct texts as [ | t texts ]; [ contradiction | ].
  inversion H as [ | ? ? Ht _ ]; subst.
  simpl. destruct texts; [ exact Ht | ].
  destruct t; [ contradiction | discriminate ].
Qed.

(** One message either leaves the history of the session as it is and sends
    no final answer, or sends one and appends the normalized message and
    that answer, neither of them empty. *)
Lemma on_message_history (today : date) (ex : executor) (vector_store : bool)
  (s s' : session) (b b' : bot) (w w' : world) (m : incoming)
  (frames : list frame) :
  on_message' today ex vector_store s b w m = Ok (frames, (s', b', w')) ->
  (session_history s' = session_history s /\ answers frames = []) \/
  (exists normalized_message response,
      normalized_message <> "" /\ response <> "" /\
      session_history s'
      = (session_history s ++
         [Turn "user" normalized_message; Turn "model" response])%list /\
      answers frames = [response]).
Proof.
  unfold on_message. destruct m as [ | d ].
  { intros [= <- <- <- <-]. left. auto. }
  destruct (is_text (msg_type d) "session_start").
  { intros [= <- <- <- <-]. left. auto. }
  destruct (is_text (msg_type d) "user_message");
    [ | intros [= <- <- <- <-]; left; auto ].
  destruct (truthy (user_message d)) eqn:Eu; simpl negb; cbv iota;
    [ | intros [= <- <- <- <-]; left; auto ].
  destruct (normalize_relative_dates today (pystr (user_message d)))
    as [ normalized_message | e ] eqn:En; simpl bind; [ | discriminate ].
  pose proof (normalize_relative_dates_nonempty _ _ _ (truthy_text _ Eu) En)
    as Hn.
  set (history := match history d with [] => session_history s | _ => history d end).
  destruct (should_enable_tools normalized_message history).
  - pose proof (generate_response_with_tools_reply_nonempty _extract_date
                  _extract_time _extract_user_id generate_content today ex b w
                  normalized_message (pystr (system_prompt s)) history
                  (get_default (user_id d) "guest")) as Hr.
    destruct (generate_response_with_tools _ _ _ _ _ _ _ _ _ _ _ _)
      as [[result b0] w0].
    intros [= <- <- <- <-]. right.
    exists normalized_message, (response result). simpl in Hr. simpl. auto.
  - pose proof (generate_response_stream_texts vector_store get_rag_context
                  generate_content_stream normalized_message (system_prompt s)
                  history) as Hy.
    destruct (generate_response_stream _ _ _ _ _ _) as [yielded [ e | ]];
      cbn [fst] in Hy; cbv beta iota zeta;
      assert (Hf : filter (fun delta => negb (delta =? "")) yielded = yielded)
        by exact (filter_truthy _ Hy);
      rewrite !Hf.
    + intros [= <- <- <- <-]. left. split; [ reflexivity | ].
      unfold answers. rewrite flat_map_app. fold (answers (map (ModelResponseChunk (message_id d)) yielded)).
      rewrite answers_chunks. reflexivity.
    + intros [= <- <- <- <-]. right.
      exists normalized_message,
        (match yielded with [] => no_response | _ => String.concat "" yielded end).
      split; [ exact Hn | ]. split; [ | split; [ reflexivity | ] ].
      * destruct yielded as [ | t ts ] eqn:Ey; [ discriminate | ].
        rewrite <- Ey in *. apply concat_nonempty.
        -- exact Hy.
        -- rewrite Ey. discriminate.
      * unfold answers. rewrite flat_map_app.
        fold (answers (map (ModelResponseChunk (message_id d)) yielded)).
        rewrite answers_chunks. reflexivity.
Qed.

(** X23.  The final answer of a streamed reply is the deltas sent
    before it, joined in their order, or the fixed apology when none was
    sent. *)
Theorem final_answer_joins_the_deltas (today : date) (ex : executor)
  (vector_store : bool) (s : session) (b : bot) (w : world) (m : incoming)
  (frames : list frame) (after : session * bot * world)
  (id : pyval) (response mode : string) :
  on_message' today ex vector_store s b w m = Ok (frames, after) ->
  In (ModelResponseDone id response mode) frames ->
  response = match deltas frames with
             | [] => no_response
             | _ => String.concat "" (deltas frames)
             end.
Proof.
  unfold on_message. destruct m as [ | d ].
  { intros [= <- _] [ | []]. discriminate. }
  destruct (is_text (msg_type d) "session_start").
  { intros [= <- _] [ | []]. discriminate. }
  destruct (is_text (msg_type d) "user_message");
    [ | intros [= <- _] [] ].
  destruct (truthy (user_message d)); simpl negb; cbv iota;
    [ | intros [= <- _] [ | []]; discriminate ].
  destruct (normalize_relative_dates today (pystr (user_message d)))
    as [ normalized_message | e ]; simpl bind; [ | discriminate ].
  destruct (should_enable_tools normalized_message _).
  - destruct (generate_response_with_tools _ _ _ _ _ _ _ _ _ _ _ _)
      as [[result b0] w0].
    intros [= <- _] [ | []]. discriminate.
  - destruct (generate_response_stream _ _ _ _ _ _) as [yielded [ e | ]];
      cbv beta iota zeta;
      set (accumulated := filter _ yielded);
      intros [= <- _] Hin; apply in_app_or in Hin as [Hin | [Hin | []]];
      try (apply in_map_iff in Hin as [t [Ht _]]); try discriminate.
    injection Hin as _ <- _.
    unfold deltas. rewrite flat_map_app.
    fold (deltas (map (ModelResponseChunk (message_id d)) accumulated)).
    rewrite deltas_chunks. simpl flat_map. rewrite app_nil_r. reflexivity.
Qed.

Local Abbreviation turns pairs :=
  (flat_map (fun p : string * string =>
               [Turn "user" (fst p); Turn "model" (snd p)]) pairs).

Lemma serve_history (ex : executor) (arrivals : list arrival) :
  forall (s : session) (b : bot) (w : world),
  exists pairs,
    session_history (fst (fst (snd (serve' ex s b w arrivals))))
    = (session_history s ++ turns pairs)%list /\
    map snd pairs = answers (fst (serve' ex s b w arrivals)) /\
    Forall (fun p => fst p <> "" /\ snd p <> "") pairs.
Proof.
  induction arrivals as [ | a rest IH ]; intros s b w.
  - exists []. simpl. rewrite app_nil_r. auto.
  - simpl.
    destruct (on_message' (on_date a) ex (with_store a) s b w (received a))
      as [ [frames [[s1 b1] w1]] | e ] eqn:E.
    + destruct (IH s1 b1 w1) as (pairs & Hh & Ha & Hp).
      destruct (serve' ex s1 b1 w1 rest) as [more final]. simpl in *.
      unfold answers. rewrite flat_map_app. fold (answers frames) (answers more).
      destruct (on_message_history _ _ _ _ _ _ _ _ _ _ _ E)
        as [[Hs Hf] | (nm & resp & Hnm & Hresp & Hs & Hf)].
      * exists pairs. rewrite Hh, Hs, Hf. auto.
      * exists ((nm, resp) :: pairs). rewrite Hh, Hs, Hf. simpl.
        rewrite <- app_assoc, Ha. auto.
    + exists []. simpl. rewrite app_nil_r. auto.
Qed.

(** X24.  The history a connection keeps is a sequence of pairs, a user
    turn followed by a model turn, neither with an empty text, one pair for
    each final answer sent and with that answer as the text of the model
    turn; this holds after any messages, also when an exception ends the
    handler. *)
Theorem ws_handler_history_pairs (ex : executor) (b : bot) (w : world)
  (arrivals : list arrival) :
  exists pairs,
    session_history
      (fst (fst (snd (ws_handler _extract_date _extract_time _extract_user_id
                        generate_content get_rag_context
                        generate_content_stream ex b w arrivals))))
    = turns pairs /\
    map snd pairs
    = answers (fst (ws_handler _extract_date _extract_time _extract_user_id
                      generate_content get_rag_context generate_content_stream
                      ex b w arrivals)) /\
    Forall (fun p => fst p <> "" /\ snd p <> "") pairs.
Proof.
  unfold ws_handler.
  destruct (serve_history ex arrivals (Session (PStr "") []) b w)
    as (pairs & Hh & Ha & Hp).
  exists pairs. auto.
Qed.

End SocketHandler.

Section SocketHandlerExamples.

Import Conversation BookingTools RagCore Streaming WsServer.

Lemma final_answer_joins_the_deltas_witness :
  "Open daily."
  = match deltas [ModelResponseChunk (PStr "m1") "Open ";
                  ModelResponseChunk (PStr "m1") "daily.";
                  ModelResponseDone (PStr "m1") "Open daily." "Base LLM"] with
    | [] => no_response
    | _ => String.concat ""
             (deltas [ModelResponseChunk (PStr "m1") "Open ";
                      ModelResponseChunk (PStr "m1") "daily.";
                      ModelResponseDone (PStr "m1") "Open daily." "Base LLM"])
    end.
Proof.
  eapply (final_answer_joins_the_deltas
            Demo.finds_nothing Demo.finds_nothing Demo.finds_nothing
            Demo.demo_model (fun user_message => user_message)
            (fun _ _ _ => ([ModelResponse [] (Some "Open ");
                            ModelResponse [] (Some "daily.")], None))
            Demo.demo_today default_executor false (Session (PStr "") [])
            (Bot PNone) Demo.demo_world
            (Json (Data (PStr "user_message") Absent
                     (PStr "When are you open?") (PStr "m1") [] Absent))
            _ _ (PStr "m1") "Open daily." "Base LLM");
    [ reflexivity | simpl; auto ].
Defined.

End SocketHandlerExamples.

(** ** The ingestion endpoint *)

Section IngestAll.

Import ApiFunctions AppointmentRoutes Ingestion IngestionRoutes.

Variable net : Type.
Variable fetch_link : net -> string -> string -> option document * net.
Variable store : Type.
Variable split_documents : list document -> list document.
Variable from_documents : list document -> result store.
Variable add_documents : store -> list document -> result store.

Local Abbreviation ingest_all' :=
  (ingest_all net fetch_link store split_documents from_documents add_documents).

(** X25.  Text entries that [process_text_entries] rejects are
    dropped without a word: the endpoint answers, and leaves the vector
    store and the network, as if the request had no text entries. *)
Theorem ingest_all_ignores_rejected_text (vector_store : option store)
  (n : net) (text_entries link_entries : list entry)
  (uploaded_files : list upload) (e : exn) :
  process_text_entries text_entries = Raise e ->
  ingest_all' vector_store n (Payload text_entries link_entries) uploaded_files
  = ingest_all' vector_store n (Payload [] link_entries) uploaded_files.
Proof.
  intros H. unfold ingest_all. rewrite H.
  destruct text_entries; reflexivity.
Qed.

Lemma add_source_documents (source : string) (docs : list document)
  (count : nat) (acc : batch) :
  all_documents (add_source source docs count acc)
  = (all_documents acc ++ docs)%list.
Proof.
  destruct docs; simpl; [ rewrite app_nil_r | ]; reflexivity.
Qed.

(** X26.  The ingestion endpoint never adds to the vector store there
    is.  After a call the store is the one before (nothing new, or a bad
    request), or a new one built from the documents of this request alone,
    or none at all when storing them failed. *)
Theorem ingest_all_never_adds (vector_store : option store) (n : net)
  (data : payload) (uploaded_files : list upload) :
  let r := fst (fst (ingest_all' vector_store n data uploaded_files)) in
  let after := snd (fst (ingest_all' vector_store n data uploaded_files)) in
  (In (status_code r) [200; 400] /\ after = vector_store) \/
  (status_code r = 200 /\
   exists docs vs,
     docs <> [] /\ from_documents (split_documents docs) = Ok vs /\
     after = Some vs) \/
  (status_code r = 500 /\ after = None).
Proof.
  cbv zeta. unfold ingest_all.
  destruct data as [ | text_entries link_entries ]; [ left; simpl; auto | ].
  match goal with
  | |- context [ let (acc, n0) := ?p in _ ] => destruct p as [acc n1]
  end.
  match goal with
  | |- context [ all_documents ?a ] => set (final := a)
  end.
  destruct (all_documents final) as [ | doc docs ] eqn:E;
    [ left; simpl; auto | ].
  unfold store_documents.
  destruct (from_documents (split_documents (doc :: docs))) as [ vs | e ] eqn:F.
  - right. left. simpl. split; [ reflexivity | ].
    exists (doc :: docs), vs. split; [ discriminate | auto ].
  - right. right. simpl. auto.
Qed.

End IngestAll.

Section IngestionExamples.

Import ApiFunctions AppointmentRoutes Ingestion IngestionRoutes.

Lemma ingest_all_ignores_rejected_text_witness :
  ingest_all unit (fun n _ _ => (None, n)) (list document) (fun docs => docs)
    (fun chunks => Ok chunks) (fun vs chunks => Ok (vs ++ chunks)%list)
    None tt
    (Payload [ [("name", PStr "hours"); ("value", PStr "9 to 5")];
               [("name", PStr "hours"); ("value", PStr "10 to 6")] ] [])
    []
  = ingest_all unit (fun n _ _ => (None, n)) (list document) (fun docs => docs)
      (fun chunks => Ok chunks) (fun vs chunks => Ok (vs ++ chunks)%list)
      None tt (Payload [] []) [].
Proof.
  eapply (ingest_all_ignores_rejected_text unit (fun n _ _ => (None, n))
            (list document) (fun docs => docs) (fun chunks => Ok chunks)
            (fun vs chunks => Ok (vs ++ chunks)%list) None tt
            [ [("name", PStr "hours"); ("value", PStr "9 to 5")];
              [("name", PStr "hours"); ("value", PStr "10 to 6")] ] [] []).
  reflexivity.
Defined.

Lemma process_link_entries_fetches_all_witness :
  snd (process_link_entries nat
         (fun n link name =>
            (Some (Document link [("name", name); ("url", link);
                                  ("source_type", "link")]), S n))
         [ [("name", PStr "home"); ("link", PStr "http://a.example")];
           [("name", PStr "again"); ("link", PStr "http://a.example")] ] 0)
  = 2.
Proof.
  apply (process_link_entries_fetches_all nat
           (fun n link name =>
              (Some (Document link [("name", name); ("url", link);
                                    ("source_type", "link")]), S n))
           [ [("name", PStr "home"); ("link", PStr "http://a.example")];
             [("name", PStr "again"); ("link", PStr "http://a.example")] ] 0).
  repeat constructor; discriminate.
Defined.

End IngestionExamples.

(** ** The text of a fetched page *)

Section CleanText.

Import Ingestion LinkFetch.

(** Whether a text begins, or ends, with white space. *)
Local Abbreviation head_space s :=
  (match String.get 0 s with Some c => is_space c | None => false end).
Local Abbreviation tail_space s :=
  (match last_of None s with Some c => is_space c | None => false end).

Lemma last_of_nonempty (p q : option ascii) (s : string) :
  s <> "" -> last_of p s = last_of q s.
Proof. destruct s; [ contradiction | reflexivity ]. Qed.

Lemma last_of_app (p : option ascii) (a : string) :
  forall b, last_of p (a ++ b) = last_of (last_of p a) b.
Proof.
  revert p. induction a as [ | c a IH ]; intros p b; simpl; [ reflexivity | ].
  apply IH.
Qed.

Lemma all_chars_app (q : ascii -> bool) (a b : string) :
  all_chars q (a ++ b) = all_chars q a && all_chars q b.
Proof.
  induction a as [ | c a IH ]; simpl; [ reflexivity | ].
  rewrite IH. apply andb_assoc.
Qed.

(** *** Trimming *)

Lemma lstrip_suffix (s : string) : exists pre, s = pre ++ lstrip s.
Proof.
  induction s as [ | c s [pre IH] ]; simpl; [ exists ""; reflexivity | ].
  destruct (is_space c); [ | exists ""; reflexivity ].
  exists (String c pre). simpl. congruence.
Qed.

Lemma rstrip_prefix (s : string) : exists post, s = rstrip s ++ post.
Proof.
  induction s as [ | c s [post IH] ]; simpl; [ exists ""; reflexivity | ].
  destruct (is_space c && (rstrip s =? "")).
  - exists (String c s). reflexivity.
  - exists post. simpl. congruence.
Qed.

Lemma lstrip_head (s : string) : head_space (lstrip s) = false.
Proof.
  induction s as [ | c s IH ]; simpl; [ reflexivity | ].
  destruct (is_space c) eqn:E; [ exact IH | simpl; exact E ].
Qed.

Lemma rstrip_head (s : string) :
  rstrip s <> "" -> String.get 0 (rstrip s) = String.get 0 s.
Proof.
  destruct s as [ | c s ]; simpl; [ contradiction | ].
  destruct (is_space c && (rstrip s =? "")); [ contradiction | reflexivity ].
Qed.

Lemma rstrip_tail (s : string) : tail_space (rstrip s) = false.
Proof.
  induction s as [ | c s IH ]; simpl; [ reflexivity | ].
  destruct (String.eqb_spec (rstrip s) "") as [E | E].
  - rewrite E. rewrite andb_true_r.
    destruct (is_space c) eqn:Ec; simpl; [ reflexivity | exact Ec ].
  - rewrite andb_false_r. simpl.
    rewrite (last_of_nonempty _ None) by exact E. exact IH.
Qed.

Lemma strip_ends (s : string) :
  head_space (strip s) = false /\ tail_space (strip s) = false.
Proof.
  unfold strip. split; [ | apply rstrip_tail ].
  destruct (String.eqb_spec (rstrip (lstrip s)) "") as [E | E].
  - rewrite E. reflexivity.
  - rewrite rstrip_head by exact E. apply lstrip_head.
Qed.

Lemma rstrip_fixed (s : string) : tail_space s = false -> rstrip s = s.
Proof.
  induction s as [ | c s IH ]; simpl; [ reflexivity | ].
  destruct s as [ | c' s ].
  - simpl. intros ->. reflexivity.
  - intros H. rewrite IH by exact H.
    rewrite andb_false_r. reflexivity.
Qed.

Lemma strip_fixed (s : string) :
  head_space s = false -> tail_space s = false -> strip s = s.
Proof.
  intros Hh Ht. unfold strip.
  assert (E : lstrip s = s).
  { destruct s as [ | c s ]; simpl in *; [ reflexivity | ].
    rewrite Hh. reflexivity. }
  rewrite E. apply rstrip_fixed, Ht.
Qed.

Lemma strip_contains (k s : string) :
  contains k (strip s) = true -> contains k s = true.
Proof.
  unfold strip. intros H.
  destruct (lstrip_suffix s) as [pre E].
  destruct (rstrip_prefix (lstrip s)) as [post E'].
  rewrite E. apply contains_app_r. rewrite E'. apply contains_app_l, H.
Qed.

Lemma strip_all_chars (q : ascii -> bool) (s : string) :
  all_chars q s = true -> all_chars q (strip s) = true.
Proof.
  unfold strip. intros H.
  destruct (lstrip_suffix s) as [pre E].
  destruct (rstrip_prefix (lstrip s)) as [post E'].
  rewrite E, all_chars_app in H. apply andb_true_iff in H as [_ H].
  rewrite E', all_chars_app in H. apply andb_true_iff in H as [H _].
  exact H.
Qed.

(** *** Two spaces in a row *)

Lemma doubled_cons (c : ascii) (s : string) :
  contains "  " (String c s)
  = ((" " =? c)%char && startswith " " s) || contains "  " s.
Proof. reflexivity. Qed.

Lemma startswith_space_app (a b : string) :
  a <> "" -> startswith " " (a ++ b) = startswith " " a.
Proof. destruct a; [ contradiction | reflexivity ]. Qed.

Lemma doubled_app (a : string) :
  forall b,
    contains "  " a = false -> contains "  " b = false ->
    (last_of None a = Some " "%char -> startswith " " b = true -> False) ->
    contains "  " (a ++ b) = false.
Proof.
  induction a as [ | c a IH ]; intros b Ha Hb Hj; [ exact Hb | ].
  change (String c a ++ b) with (String c (a ++ b)).
  rewrite doubled_cons in *. apply orb_false_iff in Ha as [Hc Ha].
  apply orb_false_iff. split.
  - destruct a as [ | c' a ].
    + simpl append. destruct (Ascii.eqb_spec " " c) as [<- | ]; [ | reflexivity ].
      destruct (startswith " " b) eqn:E; [ | reflexivity ].
      exfalso. apply Hj; reflexivity.
    + rewrite startswith_space_app by discriminate. exact Hc.
  - apply IH; [ exact Ha | exact Hb | ].
    intros Hl. apply Hj. destruct a as [ | c' a ]; [ discriminate | exact Hl ].
Qed.

(** *** Cutting into phrases and lines *)

Lemma string_ind2 (P : string -> Prop) :
  P "" -> (forall c, P (String c "")) ->
  (forall c c' s, P s -> P (String c' s) -> P (String c (String c' s))) ->
  forall s, P s.
Proof.
  intros H0 H1 H2 s.
  assert (H : P s /\ forall c, P (String c s)); [ | apply H ].
  induction s as [ | c' s [IHs IHc] ]; [ split; auto | ].
  split; [ apply IHc | ]. intros c. apply H2; [ exact IHs | apply IHc ].
Qed.

Lemma split_phrases_step (c c' : ascii) (s : string) :
  split_phrases (String c (String c' s))
  = if (c =? " ")%char && (c' =? " ")%char
    then "" :: split_phrases s
    else match split_phrases (String c' s) with
         | phrase :: phrases => String c phrase :: phrases
         | [] => [String c ""]
         end.
Proof. reflexivity. Qed.

Lemma split_phrases_pieces (s : string) :
  exists phrase phrases,
    split_phrases s = phrase :: phrases /\
    startswith phrase s = true /\
    Forall (fun p => contains "  " p = false) (phrase :: phrases) /\
    forall q, all_chars q s = true ->
              Forall (fun p => all_chars q p = true) (phrase :: phrases).
Proof.
  induction s as [ | c | c c' s IHs IHc ] using string_ind2.
  - exists "", []. repeat split; repeat constructor.
  - exists (String c ""), []. split; [ reflexivity | ].
    split; [ simpl; rewrite Ascii.eqb_refl; reflexivity | ]. split.
    + constructor; [ | constructor ].
      rewrite doubled_cons. cbn [startswith contains].
      rewrite andb_false_r. reflexivity.
    + intros q H. constructor; [ exact H | constructor ].
  - rewrite split_phrases_step.
    destruct ((c =? " ")%char && (c' =? " ")%char) eqn:E.
    + destruct IHs as (p & ps & -> & _ & Hd & Hq).
      exists "", (p :: ps). repeat split.
      * constructor; [ reflexivity | exact Hd ].
      * intros q H. simpl in H.
        apply andb_true_iff in H as [_ H]. apply andb_true_iff in H as [_ H].
        constructor; [ reflexivity | apply Hq, H ].
    + destruct IHc as (p & ps & -> & Hp & Hd & Hq).
      exists (String c p), ps. split; [ reflexivity | ].
      inversion Hd as [ | ? ? Hdp Hdps ]; subst.
      split; [ simpl; rewrite Ascii.eqb_refl; exact Hp | ]. split.
      * constructor; [ | exact Hdps ].
        rewrite doubled_cons, Hdp, orb_false_r.
        destruct (Ascii.eqb_spec " " c) as [Ec | ]; [ | reflexivity ].
        subst c. rewrite Ascii.eqb_refl, andb_true_l in E.
        destruct p as [ | x p ]; [ reflexivity | ].
        cbn [startswith] in Hp. apply andb_true_iff in Hp as [Hx _].
        apply Ascii.eqb_eq in Hx. subst x.
        cbn [startswith andb]. rewrite Ascii.eqb_sym, E. reflexivity.
      * intros q H. simpl in H. apply andb_true_iff in H as [Hc H].
        specialize (Hq q H). inversion Hq; subst.
        constructor; [ simpl; rewrite Hc; assumption | assumption ].
Qed.

Local Abbreviation no_linebreak s :=
  (all_chars (fun c => negb (is_linebreak c)) s = true).

Lemma splitlines_step (c : ascii) (s : string) :
  splitlines (String c s)
  = if is_linebreak c then
      match s with
      | String c' s'' =>
          if (code c =? 13)%nat && (code c' =? 10)%nat
          then "" :: splitlines s''
          else "" :: splitlines s
      | "" => [""]
      end
    else
      match splitlines s with
      | line :: lines => String c line :: lines
      | [] => [String c ""]
      end.
Proof. destruct s; reflexivity. Qed.

Lemma splitlines_lines (s : string) :
  Forall (fun line => no_linebreak line) (splitlines s).
Proof.
  induction s as [ | c | c c' s IHs IHc ] using string_ind2.
  - constructor.
  - rewrite splitlines_step. destruct (is_linebreak c) eqn:E.
    + repeat constructor.
    + simpl. repeat constructor. simpl. rewrite E. reflexivity.
  - rewrite splitlines_step. destruct (is_linebreak c) eqn:E.
    + destruct (_ && _); constructor; auto.
    + destruct (splitlines (String c' s)) as [ | line lines ].
      * repeat constructor. simpl. rewrite E. reflexivity.
      * inversion IHc; subst. constructor; [ | assumption ].
        simpl. rewrite E. assumption.
Qed.

(** *** Joining the chunks *)

(** A chunk: not empty, no white space at either end, no two spaces in a
    row and no line boundary. *)
Local Abbreviation chunk_like :=
  (fun s : string =>
     s <> "" /\ head_space s = false /\ tail_space s = false /\
     contains "  " s = false /\ no_linebreak s).

Lemma join_step (sep x y : string) (xs : list string) :
  join sep (x :: y :: xs) = x ++ sep ++ join sep (y :: xs).
Proof. reflexivity. Qed.

Lemma join_chunks (chunks : list string) :
  Forall chunk_like chunks -> chunks <> [] ->
  chunk_like (join " " chunks).
Proof.
  induction chunks as [ | x chunks IH ]; intros H Hne; [ contradiction | ].
  inversion H as [ | ? ? (Hx & Hh & Ht & Hd & Hl) Hrest ]; subst.
  destruct chunks as [ | y chunks ]; [ simpl; auto | ].
  rewrite join_step.
  destruct (IH Hrest ltac:(discriminate)) as (Hr & Hrh & Hrt & Hrd & Hrl).
  set (rest := join " " (y :: chunks)) in *.
  destruct x as [ | c x ]; [ contradiction | ].
  split; [ discriminate | ].
  split; [ exact Hh | ].
  split.
  - rewrite last_of_app.
    change (" " ++ rest) with (String " " rest).
    rewrite (last_of_nonempty _ None); [ | discriminate ].
    simpl last_of. rewrite (last_of_nonempty _ None) by exact Hr. exact Hrt.
  - split.
    + apply doubled_app; [ exact Hd | | ].
      * change (" " ++ rest) with (String " " rest).
        rewrite doubled_cons, Hrd, orb_false_r, Ascii.eqb_refl, andb_true_l.
        destruct rest as [ | r rest' ]; [ reflexivity | ].
        cbn [String.get] in Hrh. cbn [startswith]. rewrite andb_true_r.
        destruct (Ascii.eqb_spec " " r) as [Er | ]; [ | reflexivity ].
        subst r. discriminate.
      * intros Hlast _. rewrite Hlast in Ht. discriminate.
    + rewrite all_chars_app, Hl. simpl. exact Hrl.
Qed.

(** The text [clean] returns is empty or chunk-like. *)
Lemma clean_chunk_like (clean_text : string) :
  clean clean_text = "" \/ chunk_like (clean clean_text).
Proof.
  unfold clean.
  match goal with |- context [ join " " ?l ] => set (chunks := l) end.
  destruct chunks as [ | x xs ] eqn:E; [ left; reflexivity | ].
  right. rewrite <- E. apply join_chunks; [ | rewrite E; discriminate ].
  apply Forall_forall. intros chunk Hin. unfold chunks in Hin.
  apply filter_In in Hin as [Hin Hne].
  apply in_flat_map in Hin as [line [Hline Hin]].
  apply in_map_iff in Hin as [phrase [<- Hphrase]].
  apply in_map_iff in Hline as [raw [<- Hraw]].
  destruct (split_phrases_pieces (strip raw)) as (p & ps & Ep & _ & Hd & Hq).
  rewrite Ep in Hphrase.
  pose proof (splitlines_lines clean_text) as Hlines.
  rewrite Forall_forall in Hlines, Hd.
  specialize (Hq _ (strip_all_chars _ _ (Hlines raw Hraw))).
  rewrite Forall_forall in Hq.
  destruct (strip_ends phrase) as [Hh Ht].
  split; [ | split; [ exact Hh | split; [ exact Ht | split ] ] ].
  - intros E0. rewrite E0 in Hne. discriminate.
  - destruct (contains "  " (strip phrase)) eqn:Ec; [ | reflexivity ].
    apply strip_contains in Ec. rewrite (Hd phrase Hphrase) in Ec. discriminate.
  - apply strip_all_chars, Hq, Hphrase.
Qed.

(** X27.  Every document [fetch_link] returns holds a text that is not
    empty, has no white space at either end, never two spaces in a row and
    no line boundary, and names the link it came from. *)
Theorem fetch_link_document_is_clean (net : Type)
  (requests_get : net -> string -> result page * net)
  (n n' : net) (link name : string) (doc : document) :
  fetch_link net requests_get n link name = (Some doc, n') ->
  page_content doc <> "" /\
  strip (page_content doc) = page_content doc /\
  contains "  " (page_content doc) = false /\
  all_chars (fun c => negb (is_linebreak c)) (page_content doc) = true /\
  metadata doc = [("name", name); ("url", link); ("source_type", "link")].
Proof.
  unfold fetch_link.
  destruct (requests_get n link) as [[ resp | e ] n0]; [ | discriminate ].
  destruct (_ && _); [ | discriminate ].
  destruct (String.eqb_spec (clean (get_text resp)) "") as [ | Hne ];
    [ discriminate | ].
  intros [= <- _]. simpl.
  destruct (clean_chunk_like (get_text resp))
    as [E | (_ & Hh & Ht & Hd & Hl)]; [ contradiction | ].
  split; [ exact Hne | ].
  split; [ apply strip_fixed; assumption | auto ].
Qed.

(** *** What the clean-up keeps *)

Local Abbreviation visible_all :=
  (fold_right (fun x acc => visible x ++ acc) "").

Lemma visible_app (a b : string) : visible (a ++ b) = visible a ++ visible b.
Proof.
  induction a as [ | c a IH ]; simpl; [ reflexivity | ].
  destruct (is_space c); simpl; rewrite IH; reflexivity.
Qed.

Lemma visible_cons (c : ascii) (s : string) :
  visible (String c s) = if is_space c then visible s else String c (visible s).
Proof. reflexivity. Qed.

Lemma visible_strip (s : string) : visible (strip s) = visible s.
Proof.
  unfold strip.
  assert (Hl : forall x, visible (lstrip x) = visible x).
  { induction x as [ | c x IH ]; simpl; [ reflexivity | ].
    destruct (is_space c) eqn:E; [ exact IH | simpl; rewrite E; reflexivity ]. }
  assert (Hr : forall x, visible (rstrip x) = visible x).
  { induction x as [ | c x IH ]; simpl; [ reflexivity | ].
    destruct (is_space c) eqn:E; simpl.
    - destruct (String.eqb_spec (rstrip x) "") as [E0 | _]; simpl.
      + rewrite <- IH, E0. reflexivity.
      + rewrite E. exact IH.
    - rewrite E, IH. reflexivity. }
  rewrite Hr. apply Hl.
Qed.

Lemma is_linebreak_is_space (c : ascii) :
  is_linebreak c = true -> is_space c = true.
Proof.
  unfold is_linebreak, is_space, between. intros H.
  apply orb_true_iff in H as [H | H]; apply andb_true_iff in H as [H1 H2];
    apply Nat.leb_le in H1; apply Nat.leb_le in H2; apply orb_true_iff;
    [ left | right ]; apply andb_true_iff; split; apply Nat.leb_le; lia.
Qed.

Lemma visible_split_phrases (s : string) :
  visible_all (split_phrases s) = visible s.
Proof.
  induction s as [ | c | c c' s IHs IHc ] using string_ind2.
  - reflexivity.
  - simpl. destruct (is_space c); simpl; rewrite ?append_empty; reflexivity.
  - rewrite split_phrases_step.
    destruct ((c =? " ")%char && (c' =? " ")%char) eqn:E.
    + apply andb_true_iff in E as [Ec Ec'].
      apply Ascii.eqb_eq in Ec, Ec'. subst c c'. exact IHs.
    + destruct (split_phrases (String c' s)) as [ | p ps ].
      * simpl in IHc. simpl. rewrite <- IHc.
        destruct (is_space c); reflexivity.
      * cbn [fold_right] in *.
        rewrite (visible_cons c p), (visible_cons c (String c' s)), <- IHc.
        destruct (is_space c); reflexivity.
Qed.

Lemma visible_splitlines (s : string) :
  visible_all (splitlines s) = visible s.
Proof.
  induction s as [ | c | c c' s IHs IHc ] using string_ind2.
  - reflexivity.
  - rewrite splitlines_step. destruct (is_linebreak c) eqn:E.
    + simpl. rewrite (is_linebreak_is_space _ E). reflexivity.
    + simpl. destruct (is_space c); reflexivity.
  - rewrite splitlines_step. destruct (is_linebreak c) eqn:E.
    + rewrite (visible_cons c), (is_linebreak_is_space _ E).
      destruct ((code c =? 13)%nat && (code c' =? 10)%nat) eqn:E2.
      * apply andb_true_iff in E2 as [_ E2]. apply Nat.eqb_eq in E2.
        assert (Hs : is_space c' = true).
        { unfold is_space, between. rewrite E2. reflexivity. }
        cbn [fold_right]. rewrite (visible_cons c'), Hs. exact IHs.
      * exact IHc.
    + destruct (splitlines (String c' s)) as [ | line lines ].
      * simpl in IHc. simpl. rewrite <- IHc.
        destruct (is_space c); reflexivity.
      * cbn [fold_right] in *.
        rewrite (visible_cons c line), (visible_cons c (String c' s)), <- IHc.
        destruct (is_space c); reflexivity.
Qed.

Lemma visible_join (xs : list string) :
  visible (join " " xs) = visible_all xs.
Proof.
  induction xs as [ | x xs IH ]; [ reflexivity | ].
  destruct xs as [ | y xs ].
  - simpl. rewrite append_empty. reflexivity.
  - rewrite join_step, !visible_app, IH. reflexivity.
Qed.

Lemma visible_filter (xs : list string) :
  visible_all (filter (fun chunk => negb (chunk =? "")) xs) = visible_all xs.
Proof.
  induction xs as [ | x xs IH ]; simpl; [ reflexivity | ].
  destruct (String.eqb_spec x "") as [-> | _]; simpl; rewrite IH; reflexivity.
Qed.

Lemma visible_map_strip (xs : list string) :
  visible_all (map strip xs) = visible_all xs.
Proof.
  induction xs as [ | x xs IH ]; simpl; [ reflexivity | ].
  rewrite visible_strip, IH. reflexivity.
Qed.

Lemma visible_all_app (xs ys : list string) :
  visible_all (xs ++ ys) = visible_all xs ++ visible_all ys.
Proof.
  induction xs as [ | x xs IH ]; simpl; [ reflexivity | ].
  rewrite IH. clear. induction (visible x); simpl; congruence.
Qed.

(** X28.  The clean-up of a page in [fetch_link] touches white space
    only: the characters that are not white space are those of the page, in
    their order.  So the cleaned text is empty, and the page dropped,
    exactly when the page holds white space only. *)
Theorem clean_keeps_the_visible_text (clean_text : string) :
  visible (clean clean_text) = visible clean_text /\
  (clean clean_text = "" <-> all_chars is_space clean_text = true).
Proof.
  assert (Hv : visible (clean clean_text) = visible clean_text).
  { unfold clean. rewrite visible_join, visible_filter.
    rewrite <- (visible_splitlines clean_text).
    induction (splitlines clean_text) as [ | line lines IH ];
      [ reflexivity | ].
    cbn [map flat_map fold_right]. rewrite visible_all_app, IH.
    rewrite visible_map_strip, visible_split_phrases, visible_strip.
    reflexivity. }
  split; [ exact Hv | ].
  assert (Hs : forall s, visible s = "" <-> all_chars is_space s = true).
  { induction s as [ | c s IH ]; simpl; [ tauto | ].
    destruct (is_space c); simpl; [ exact IH | ].
    split; discriminate. }
  rewrite <- Hs, <- Hv. split; [ intros ->; reflexivity | ].
  intros H. destruct (clean_chunk_like clean_text)
    as [E | (Hne & Hh & _)]; [ exact E | ].
  destruct (clean clean_text) as [ | c s ]; [ reflexivity | ].
  simpl in Hh, H. rewrite Hh in H. discriminate.
Qed.

End CleanText.

Section CleanTextExamples.

Import Ingestion LinkFetch.

Lemma fetch_link_document_is_clean_witness :
  let doc :=
    Document "Open daily 9 to 5"
      [("name", "home"); ("url", "http://a.example"); ("source_type", "link")] in
  page_content doc <> "" /\
  strip (page_content doc) = page_content doc /\
  contains "  " (page_content doc) = false /\
  all_chars (fun c => negb (is_linebreak c)) (page_content doc) = true /\
  metadata doc
  = [("name", "home"); ("url", "http://a.example"); ("source_type", "link")].
Proof.
  apply (fetch_link_document_is_clean unit
           (fun n _ =>
              (Ok (Page 200 "<p>Open  daily</p><p>9 to 5</p>"
                     ("  Open  daily " ++ newline ++ " 9 to 5 " ++ newline)), n))
           tt tt "http://a.example" "home").
  reflexivity.
Defined.

End CleanTextExamples.
